(** * rest_apscheduler: the Django job store and its execution ledger

    A shallow embedding of [rest_apscheduler/jobstore.py] and of the two
    tables of [rest_apscheduler/models.py].  The database is a pair of
    tables kept as lists of rows in insertion order, the Python code is
    written in a small state-and-exception monad over that database, and
    every [try ... except] of the source is a [try_except] here. *)

From Stdlib Require Import ZArith List String Ascii Bool Lia.
From Stdlib Require Import Permutation Sorted.
From Stdlib Require Import Strings.Byte.
Import ListNotations.

Local Open Scope string_scope.
Local Open Scope Z_scope.
Local Open Scope list_scope.

(** ** Time

    A datetime is the instant it denotes, counted from a fixed epoch.  A
    nullable [DateTimeField] is an [option]. *)

Definition datetime := Z.

Definition bytes := list byte.

(** Python's truth value of a [bytes] object: empty is false. *)
Definition bytes_truthy (b : bytes) : bool :=
  match b with
  | [] => false
  | _ :: _ => true
  end.

(** ** Exceptions *)

(** What [pickle.loads] can raise on a blob it cannot restore. *)
Inductive PickleError : Type :=
| UnpicklingError
| EOFError
| AttributeError
| ImportError
| IndexError.

(** The exceptions that travel through [jobstore.py].  Every Django model
    has its own [DoesNotExist] and [MultipleObjectsReturned] class, so an
    [except DjangoJobExecution.DoesNotExist] does not catch
    [DjangoJob.DoesNotExist].  [NotImplementedError] carries the event code
    its message is formatted from. *)
Inductive Exn : Type :=
| DjangoJob_DoesNotExist
| DjangoJob_MultipleObjectsReturned
| DjangoJobExecution_DoesNotExist
| DjangoJobExecution_MultipleObjectsReturned
| IntegrityError
| NotImplementedError (code : Z)
| ConflictingIdError (job_id : string)
| JobLookupError (job_id : string)
| ValueError (msg : string)
| PickleException (e : PickleError).

(** ** models.py *)

(** [TRIGGER_TYPE] choices are stored as their first component. *)

Module DjangoJob.
(** [class DjangoJob(models.Model)]; [id] is the primary key and
    [Meta.ordering = ("next_run_time",)]. *)
Record t : Type := Build {
  id : string;
  next_run_time : option datetime;
  job_state : bytes;
  trigger : string
}.
End DjangoJob.

Module DjangoJobExecution.
Definition START : string := "Job Added".
Definition SENT : string := "Started execution".
Definition SUCCESS : string := "Executed".
Definition MISSED : string := "Missed!".
Definition MAX_INSTANCES : string := "Max instances!".
Definition ERROR : string := "Error!".

(** [class DjangoJobExecution(models.Model)].  [job] is a [CharField]
    holding a job id: it is not a [ForeignKey], there is no relation to
    [DjangoJob].  [run_time] is a non-null column; the in-memory object
    can hold [None] there until it is saved. *)
Record t : Type := Build {
  id : Z;
  job : string;
  status : string;
  run_time : option datetime;
  type : string;
  finished : option datetime;
  exception : option string;
  traceback : option string;
  created_at : datetime;
  updated_at : datetime
}.

Definition set_status (v : string) (x : t) : t :=
  Build (id x) (job x) v (run_time x) (type x) (finished x)
        (exception x) (traceback x) (created_at x) (updated_at x).
Definition set_run_time (v : option datetime) (x : t) : t :=
  Build (id x) (job x) (status x) v (type x) (finished x)
        (exception x) (traceback x) (created_at x) (updated_at x).
Definition set_type (v : string) (x : t) : t :=
  Build (id x) (job x) (status x) (run_time x) v (finished x)
        (exception x) (traceback x) (created_at x) (updated_at x).
Definition set_finished (v : option datetime) (x : t) : t :=
  Build (id x) (job x) (status x) (run_time x) (type x) v
        (exception x) (traceback x) (created_at x) (updated_at x).
Definition set_exception (v : option string) (x : t) : t :=
  Build (id x) (job x) (status x) (run_time x) (type x) (finished x)
        v (traceback x) (created_at x) (updated_at x).
Definition set_traceback (v : option string) (x : t) : t :=
  Build (id x) (job x) (status x) (run_time x) (type x) (finished x)
        (exception x) v (created_at x) (updated_at x).
Definition set_updated_at (v : datetime) (x : t) : t :=
  Build (id x) (job x) (status x) (run_time x) (type x) (finished x)
        (exception x) (traceback x) (created_at x) v.
End DjangoJobExecution.

(** ** The world the code runs in *)

Inductive LogLevel : Type := WARNING | ERROR.

Record LogRecord : Type := mkLog {
  levelname : LogLevel;
  message : string
}.

(** The two tables (rows in insertion order), the [BigAutoField] sequence
    of the execution table, the wall clock read by [timezone.now()], and
    what has been logged so far (oldest first). *)
Record World : Type := mkWorld {
  django_jobs : list DjangoJob.t;
  django_job_executions : list DjangoJobExecution.t;
  next_execution_id : Z;
  clock : datetime;
  log : list LogRecord
}.

Definition with_jobs (js : list DjangoJob.t) (w : World) : World :=
  mkWorld js (django_job_executions w) (next_execution_id w) (clock w) (log w).

Definition with_executions (xs : list DjangoJobExecution.t) (w : World) : World :=
  mkWorld (django_jobs w) xs (next_execution_id w) (clock w) (log w).

(** ** The monad: state plus exceptions

    A raised exception keeps the writes made before it, as Python does
    outside a transaction. *)

Definition M (A : Type) : Type := World -> (Exn + A) * World.

Definition ret {A} (a : A) : M A := fun w => (inr a, w).

Definition raise {A} (e : Exn) : M A := fun w => (inl e, w).

Definition bind {A B} (m : M A) (k : A -> M B) : M B :=
  fun w =>
    match m w with
    | (inr a, w') => k a w'
    | (inl e, w') => (inl e, w')
    end.

Notation "x <- m ;; k" := (bind m (fun x => k))
  (at level 61, m at next level, right associativity).
Notation "m ;;; k" := (bind m (fun _ => k))
  (at level 61, right associativity).

(** [try: body  except <classes>: handler].  [handler e] is [None] when no
    [except] clause matches [e], and the exception goes on. *)
Definition try_except {A} (body : M A) (handler : Exn -> option (M A)) : M A :=
  fun w =>
    match body w with
    | (inr a, w') => (inr a, w')
    | (inl e, w') =>
        match handler e with
        | Some h => h w'
        | None => (inl e, w')
        end
    end.

(** [with transaction.atomic(): body].  When the block is left by an
    exception the tables go back to what they were on entry; the log and
    the clock are not part of the database. *)
Definition transaction_atomic {A} (body : M A) : M A :=
  fun w =>
    match body w with
    | (inr a, w') => (inr a, w')
    | (inl e, w') =>
        (inl e, mkWorld (django_jobs w) (django_job_executions w)
                        (next_execution_id w') (clock w') (log w'))
    end.

Definition get_world : M World := fun w => (inr w, w).

Definition timezone_now : M datetime := fun w => (inr (clock w), w).

Definition logger_warning (msg : string) : M unit :=
  fun w => (inr tt, mkWorld (django_jobs w) (django_job_executions w)
                            (next_execution_id w) (clock w)
                            (log w ++ [mkLog WARNING msg])).

(** [logger.exception(msg)] logs at level ERROR. *)
Definition logger_exception (msg : string) : M unit :=
  fun w => (inr tt, mkWorld (django_jobs w) (django_job_executions w)
                            (next_execution_id w) (clock w)
                            (log w ++ [mkLog ERROR msg])).

(** ** The ORM calls the source makes *)

(** [Model.objects.get(...)] on the rows that match the lookup. *)
Definition objects_get {R} (matching : list R) (does_not_exist multiple : Exn) : Exn + R :=
  match matching with
  | [] => inl does_not_exist
  | [r] => inr r
  | _ :: _ :: _ => inl multiple
  end.

Definition lift {A} (r : Exn + A) : M A := fun w => (r, w).

(** [DjangoJob.objects.get(id=job_id)] *)
Definition DjangoJob_objects_get (job_id : string) : M DjangoJob.t :=
  w <- get_world ;;
  lift (objects_get
          (filter (fun r => String.eqb (DjangoJob.id r) job_id) (django_jobs w))
          DjangoJob_DoesNotExist DjangoJob_MultipleObjectsReturned).

(** [DjangoJobExecution.objects.get(job=job_id)] *)
Definition DjangoJobExecution_objects_get (job_id : string) : M DjangoJobExecution.t :=
  w <- get_world ;;
  lift (objects_get
          (filter (fun x => String.eqb (DjangoJobExecution.job x) job_id)
                  (django_job_executions w))
          DjangoJobExecution_DoesNotExist DjangoJobExecution_MultipleObjectsReturned).

(** [DjangoJob.objects.create(...)]: an INSERT, refused with
    [IntegrityError] when the primary key is taken. *)
Definition DjangoJob_objects_create (row : DjangoJob.t) : M DjangoJob.t :=
  fun w =>
    if existsb (fun r => String.eqb (DjangoJob.id r) (DjangoJob.id row)) (django_jobs w)
    then (inl IntegrityError, w)
    else (inr row, with_jobs (django_jobs w ++ [row]) w).

(** [db_job.save()] on an instance read from the table: an UPDATE of the
    row with that primary key, in place. *)
Definition DjangoJob_save (row : DjangoJob.t) : M unit :=
  fun w =>
    (inr tt,
     with_jobs
       (map (fun r => if String.eqb (DjangoJob.id r) (DjangoJob.id row) then row else r)
            (django_jobs w))
       w).

(** [queryset.delete()] for the rows of [DjangoJob] selected by [sel].  No
    model has a relation to [DjangoJob], so nothing else is collected. *)
Definition DjangoJob_delete_where (sel : DjangoJob.t -> bool) : M unit :=
  fun w => (inr tt, with_jobs (filter (fun r => negb (sel r)) (django_jobs w)) w).

(** [DjangoJobExecution.objects.create(job=, status=, type=, run_time=)]:
    the key comes from the sequence, [created_at] and [updated_at] from
    the clock, the nullable columns are left null. *)
Definition DjangoJobExecution_objects_create
           (job status type : string) (run_time : datetime) : M DjangoJobExecution.t :=
  fun w =>
    let x := DjangoJobExecution.Build (next_execution_id w) job status (Some run_time)
                                      type None None None (clock w) (clock w) in
    (inr x, mkWorld (django_jobs w) (django_job_executions w ++ [x])
                    (next_execution_id w + 1) (clock w) (log w)).

(** [execution.save()] on an instance read from the table: [updated_at]
    is [auto_now], set on the instance and written with it; a null
    [run_time] violates the column's NOT NULL constraint; otherwise the
    row with that key is rewritten in place.  The result is the instance
    as [save] leaves it. *)
Definition DjangoJobExecution_save (x : DjangoJobExecution.t) : M DjangoJobExecution.t :=
  fun w =>
    match DjangoJobExecution.run_time x with
    | None => (inl IntegrityError, w)
    | Some _ =>
        let x' := DjangoJobExecution.set_updated_at (clock w) x in
        (inr x',
         with_executions
           (map (fun y => if DjangoJobExecution.id y =? DjangoJobExecution.id x
                          then x' else y)
                (django_job_executions w))
           w)
    end.

(** ** apscheduler.events

    The event codes are the bit flags of [apscheduler.events]; a listener
    is registered with a mask and called for the events whose code has a
    bit in common with it. *)

Definition EVENT_JOB_ADDED : Z := 2 ^ 9.
Definition EVENT_JOB_REMOVED : Z := 2 ^ 10.
Definition EVENT_JOB_MODIFIED : Z := 2 ^ 11.
Definition EVENT_JOB_EXECUTED : Z := 2 ^ 12.
Definition EVENT_JOB_ERROR : Z := 2 ^ 13.
Definition EVENT_JOB_MISSED : Z := 2 ^ 14.
Definition EVENT_JOB_SUBMITTED : Z := 2 ^ 15.
Definition EVENT_JOB_MAX_INSTANCES : Z := 2 ^ 16.

Module JobExecutionEvent.
(** [exception] is [str(event.exception)] when the event carries an
    exception, [traceback] the formatted traceback when it carries one. *)
Record t : Type := Build {
  code : Z;
  job_id : string;
  exception : option string;
  traceback : option string
}.
End JobExecutionEvent.

(** [str(x)] of an optional string: [str(None)] is ["None"]. *)
Definition str_of_optional (x : option string) : string :=
  match x with
  | Some s => s
  | None => "None"
  end.

(** ** DjangoResultStoreMixin *)

Definition no_longer_exists (job_id : string) : string :=
  ("Job '" ++ job_id ++ "' no longer exists! Skipping logging of job execution...")%string.

Definition handle_execution_event (event : JobExecutionEvent.t) : M (option Z) :=
  if negb (JobExecutionEvent.code event =? EVENT_JOB_EXECUTED) then
    raise (NotImplementedError (JobExecutionEvent.code event))
  else
    try_except
      (job_execution <- DjangoJobExecution_objects_get (JobExecutionEvent.job_id event) ;;
       let job_execution := DjangoJobExecution.set_status DjangoJobExecution.SUCCESS job_execution in
       now <- timezone_now ;;
       let job_execution := DjangoJobExecution.set_finished (Some now) job_execution in
       DjangoJobExecution_save job_execution ;;;
       ret (Some (DjangoJobExecution.id job_execution)))
      (fun e =>
         match e with
         | DjangoJobExecution_DoesNotExist =>
             Some (logger_warning (no_longer_exists (JobExecutionEvent.job_id event)) ;;;
                   ret None)
         | IntegrityError =>
             Some (logger_warning (no_longer_exists (JobExecutionEvent.job_id event)) ;;;
                   ret None)
         | _ => None
         end).

Definition handle_error_event (event : JobExecutionEvent.t) : M (option Z) :=
  try_except
    (if JobExecutionEvent.code event =? EVENT_JOB_ERROR then
       let '(exception, traceback) :=
         match JobExecutionEvent.exception event with
         | Some s => (s, Some (str_of_optional (JobExecutionEvent.traceback event)))
         | None =>
             (("Job '" ++ JobExecutionEvent.job_id event ++ "' raised an error!")%string,
              None)
         end in
       try_except
         (job_execution <- DjangoJobExecution_objects_get (JobExecutionEvent.job_id event) ;;
          let job_execution := DjangoJobExecution.set_status DjangoJobExecution.ERROR job_execution in
          let job_execution := DjangoJobExecution.set_exception (Some exception) job_execution in
          let job_execution := DjangoJobExecution.set_traceback traceback job_execution in
          DjangoJobExecution_save job_execution ;;;
          ret (Some (DjangoJobExecution.id job_execution)))
         (fun e =>
            match e with
            | DjangoJobExecution_DoesNotExist =>
                Some (logger_warning (no_longer_exists (JobExecutionEvent.job_id event)) ;;;
                      ret None)
            | _ => None
            end)
     else if JobExecutionEvent.code event =? EVENT_JOB_MISSED then
       let exception :=
         ("Run time of job '" ++ JobExecutionEvent.job_id event ++ "' was missed!")%string in
       try_except
         (job_execution <- DjangoJobExecution_objects_get (JobExecutionEvent.job_id event) ;;
          let job_execution := DjangoJobExecution.set_status DjangoJobExecution.MISSED job_execution in
          let job_execution := DjangoJobExecution.set_exception (Some exception) job_execution in
          DjangoJobExecution_save job_execution ;;;
          ret (Some (DjangoJobExecution.id job_execution)))
         (fun e =>
            match e with
            | DjangoJobExecution_DoesNotExist =>
                Some (logger_warning (no_longer_exists (JobExecutionEvent.job_id event)) ;;;
                      ret None)
            | _ => None
            end)
     else
       raise (NotImplementedError (JobExecutionEvent.code event)))
    (fun e =>
       match e with
       | IntegrityError =>
           Some (logger_warning (no_longer_exists (JobExecutionEvent.job_id event)) ;;;
                 ret None)
       | _ => None
       end).

Definition handle_added_job_event (event : JobExecutionEvent.t) : M DjangoJobExecution.t :=
  job <- DjangoJob_objects_get (JobExecutionEvent.job_id event) ;;
  try_except
    (execution <- DjangoJobExecution_objects_get (JobExecutionEvent.job_id event) ;;
     let execution := DjangoJobExecution.set_status DjangoJobExecution.START execution in
     now <- timezone_now ;;
     let execution := DjangoJobExecution.set_run_time (Some now) execution in
     let execution := DjangoJobExecution.set_type (DjangoJob.trigger job) execution in
     execution <- DjangoJobExecution_save execution ;;
     ret execution)
    (fun e =>
       match e with
       | DjangoJobExecution_DoesNotExist =>
           Some (now <- timezone_now ;;
                 DjangoJobExecution_objects_create
                   (JobExecutionEvent.job_id event) DjangoJobExecution.START
                   (DjangoJob.trigger job) now)
       | _ => None
       end).

Definition handle_modify_event (event : JobExecutionEvent.t) : M (option Z) :=
  try_except
    (job_execution <- DjangoJobExecution_objects_get (JobExecutionEvent.job_id event) ;;
     job <- DjangoJob_objects_get (JobExecutionEvent.job_id event) ;;
     let job_execution :=
       DjangoJobExecution.set_run_time (DjangoJob.next_run_time job) job_execution in
     DjangoJobExecution_save job_execution ;;;
     ret (Some (DjangoJobExecution.id job_execution)))
    (fun e =>
       match e with
       | DjangoJobExecution_DoesNotExist =>
           Some (logger_warning (no_longer_exists (JobExecutionEvent.job_id event)) ;;;
                 ret None)
       | _ => None
       end).

(** A registered listener: the callback, its result dropped, and its mask. *)
Definition listener : Type := ((JobExecutionEvent.t -> M unit) * Z)%type.

Definition forget {A} (m : M A) : M unit := m ;;; ret tt.

(** [register_event_listeners], in registration order. *)
Definition register_event_listeners : list listener :=
  [ (fun ev => forget (handle_added_job_event ev), EVENT_JOB_ADDED);
    (fun ev => forget (handle_execution_event ev), EVENT_JOB_EXECUTED);
    (fun ev => forget (handle_error_event ev), Z.lor EVENT_JOB_ERROR EVENT_JOB_MISSED);
    (fun ev => forget (handle_modify_event ev), EVENT_JOB_MODIFIED) ].

(** The scheduler's delivery of one event ([BaseScheduler._dispatch_event]
    of APScheduler): every listener whose mask meets the event code is
    called in turn; an exception leaving a callback is logged by the
    scheduler, which goes on with the next listener. *)
Fixpoint dispatch_event (ls : list listener) (event : JobExecutionEvent.t) (w : World) : World :=
  match ls with
  | [] => w
  | (cb, mask) :: rest =>
      if Z.land (JobExecutionEvent.code event) mask =? 0 then
        dispatch_event rest event w
      else
        match cb event w with
        | (inr _, w') => dispatch_event rest event w'
        | (inl _, w') =>
            dispatch_event rest event
              (snd (logger_exception "Error notifying listener" w'))
        end
  end.

(** The event bridge: events are delivered one after the other. *)
Definition process_events (events : list JobExecutionEvent.t) (w : World) : World :=
  fold_left (fun w ev => dispatch_event register_event_listeners ev w) events w.

(** ** apscheduler.job and apscheduler.triggers

    The scheduler's [Job] class is not part of this package; what the job
    store reads of it is its [id], [trigger], [next_run_time], and the
    dictionary [__getstate__] returns and [__setstate__] takes back. *)

Inductive Trigger : Type :=
| DateTrigger (run_date : datetime)
| IntervalTrigger (seconds : Z)
| CronTrigger (expression : string)
| OtherTrigger (class_name : string).

Record Scheduler : Type := mkScheduler {
  timezone : string
}.

(** The dictionary of [Job.__getstate__]. *)
Record JobState : Type := mkJobState {
  st_version : Z;
  st_id : string;
  st_func : string;
  st_trigger : Trigger;
  st_executor : string;
  st_args : list string;
  st_kwargs : list (string * string);
  st_name : string;
  st_misfire_grace_time : option Z;
  st_coalesce : bool;
  st_max_instances : Z;
  st_next_run_time : option datetime
}.

Module Job.
Record t : Type := Build {
  id : string;
  func_ref : string;
  trigger : Trigger;
  executor : string;
  args : list string;
  kwargs : list (string * string);
  name : string;
  misfire_grace_time : option Z;
  coalesce : bool;
  max_instances : Z;
  next_run_time : option datetime;
  _scheduler : option Scheduler;
  _jobstore_alias : option string
}.

Definition __getstate__ (self : t) : JobState :=
  mkJobState 1 (id self) (func_ref self) (trigger self) (executor self) (args self)
             (kwargs self) (name self) (misfire_grace_time self) (coalesce self)
             (max_instances self) (next_run_time self).

(** [Job.__new__(Job)] followed by [__setstate__(state)]: a state of a
    later version is refused with [ValueError]. *)
Definition __setstate__ (state : JobState) : Exn + t :=
  if 1 <? st_version state then
    inl (ValueError "Job has a version that cannot be handled")
  else
    inr (Build (st_id state) (st_func state) (st_trigger state) (st_executor state)
               (st_args state) (st_kwargs state) (st_name state)
               (st_misfire_grace_time state) (st_coalesce state)
               (st_max_instances state) (st_next_run_time state) None None).

Definition set_store (s : Scheduler) (alias : string) (self : t) : t :=
  Build (id self) (func_ref self) (trigger self) (executor self) (args self)
        (kwargs self) (name self) (misfire_grace_time self) (coalesce self)
        (max_instances self) (next_run_time self) (Some s) (Some alias).
End Job.

(** ** util.py *)

(** Modelled from the spec: [util.get_django_internal_datetime] is not among
    the sources.  Section 1 of the specification keeps timezone conversion
    outside the store: the conversion changes how a datetime is written
    (naive or aware), not the instant it denotes, and [None] stays [None]. *)
Definition get_django_internal_datetime (dt : option datetime) : option datetime := dt.

(** Modelled from the spec: [util.get_apscheduler_datetime] is not among the
    sources; as above it keeps the instant. *)
Definition get_apscheduler_datetime (dt : option datetime) (scheduler : Scheduler)
  : option datetime := dt.

(** ** Query sets over [DjangoJob] *)

(** The keyword lookups [jobstore.py] passes to [filter]. *)
Inductive Lookup : Type :=
| next_run_time__lte (dt : datetime)
| next_run_time__isnull (b : bool)
| id__in (ids : list string).

Definition mem_string (s : string) (l : list string) : bool :=
  existsb (String.eqb s) l.

(** SQL comparison with NULL is never true. *)
Definition lookup_matches (l : Lookup) (r : DjangoJob.t) : bool :=
  match l with
  | next_run_time__lte dt =>
      match DjangoJob.next_run_time r with
      | Some t => t <=? dt
      | None => false
      end
  | next_run_time__isnull b =>
      match DjangoJob.next_run_time r with
      | Some _ => negb b
      | None => b
      end
  | id__in ids => mem_string (DjangoJob.id r) ids
  end.

Definition filters_match (filters : list Lookup) (r : DjangoJob.t) : bool :=
  forallb (fun l => lookup_matches l r) filters.

(** [ORDER BY next_run_time ASC].  Where NULL sorts is the backend's choice
    (first on SQLite and MySQL, last on PostgreSQL and Oracle). *)
Definition next_run_time_leb (nulls_first : bool) (a b : option datetime) : bool :=
  match a, b with
  | None, None => true
  | None, Some _ => nulls_first
  | Some _, None => negb nulls_first
  | Some x, Some y => x <=? y
  end.

Fixpoint insert_ordered (nulls_first : bool) (r : DjangoJob.t) (rows : list DjangoJob.t)
  : list DjangoJob.t :=
  match rows with
  | [] => [r]
  | r' :: rest =>
      if next_run_time_leb nulls_first (DjangoJob.next_run_time r) (DjangoJob.next_run_time r')
      then r :: rows
      else r' :: insert_ordered nulls_first r rest
  end.

(** Rows with the same [next_run_time] keep their table order. *)
Definition order_by_next_run_time (nulls_first : bool) (rows : list DjangoJob.t)
  : list DjangoJob.t :=
  fold_right (insert_ordered nulls_first) [] rows.

(** [repr] of a set of strings.  Python writes the elements of a set in
    the order of their hashes, which the model does not have: here they
    come in the order they were added, so the text is the code's when one
    id failed and may differ from it in the order of the ids otherwise. *)
Definition repr_set (ids : list string) : string :=
  ("{" ++ String.concat ", " (map (fun s => "'" ++ s ++ "'") ids) ++ "}")%string.

(** [set.add] *)
Definition set_add (s : string) (ids : list string) : list string :=
  if mem_string s ids then ids else ids ++ [s].

(** [BaseJobStore._fix_paused_jobs_sorting] of APScheduler, which
    [DjangoJobStore] inherits: at the first job with a [next_run_time], the
    jobs before it are cut off the front and put at the end. *)
Fixpoint first_scheduled (jobs : list Job.t) : option nat :=
  match jobs with
  | [] => None
  | job :: rest =>
      match Job.next_run_time job with
      | Some _ => Some O
      | None => option_map S (first_scheduled rest)
      end
  end.

Definition _fix_paused_jobs_sorting (jobs : list Job.t) : list Job.t :=
  match first_scheduled jobs with
  | Some i =>
      if (0 <? i)%nat then
        let paused_jobs := firstn i jobs in
        skipn i jobs ++ paused_jobs
      else jobs
  | None => jobs
  end.

(** ** DjangoJobStore *)

Record DjangoJobStore : Type := mkDjangoJobStore {
  pickle_protocol : Z;
  _scheduler : Scheduler;
  _alias : string
}.

Section JobStore.

(** [pickle] is Python's; the store only relies on [dumps] giving bytes
    for the state of a job it is handed and on [loads] either giving a
    state back or raising. *)
Variable pickle_dumps : JobState -> Z -> bytes.
Variable pickle_loads : bytes -> PickleError + JobState.

(** Where the database sorts NULL. *)
Variable nulls_first : bool.

Definition _reconstitute_job (self : DjangoJobStore) (job_state : bytes) : Exn + Job.t :=
  match pickle_loads job_state with
  | inl e => inl (PickleException e)
  | inr job_state =>
      match Job.__setstate__ job_state with
      | inl e => inl e
      | inr job => inr (Job.set_store (_scheduler self) (_alias self) job)
      end
  end.

(** [DjangoJob.objects.filter] with keyword lookups, in the model's
    ordering. *)
Definition DjangoJob_objects_filter (filters : list Lookup) : M (list DjangoJob.t) :=
  w <- get_world ;;
  ret (order_by_next_run_time nulls_first (filter (filters_match filters) (django_jobs w))).

(** [queryset.earliest("next_run_time")]: the first row in ascending
    order, [DoesNotExist] when there is none. *)
Definition earliest_next_run_time (rows : list DjangoJob.t) : Exn + DjangoJob.t :=
  match order_by_next_run_time nulls_first rows with
  | [] => inl DjangoJob_DoesNotExist
  | r :: _ => inr r
  end.

Definition lookup_job (self : DjangoJobStore) (job_id : string) : M (option Job.t) :=
  try_except
    (row <- DjangoJob_objects_get job_id ;;
     let job_state := DjangoJob.job_state row in
     if bytes_truthy job_state then
       job <- lift (_reconstitute_job self job_state) ;;
       ret (Some job)
     else ret None)
    (fun e =>
       match e with
       | DjangoJob_DoesNotExist => Some (ret None)
       | _ => None
       end).

(** The loop of [_get_jobs] over the [(id, job_state)] pairs. *)
Fixpoint restore_each (self : DjangoJobStore) (job_states : list (string * bytes))
         (jobs : list Job.t) (failed_job_ids : list string)
  : M (list Job.t * list string) :=
  match job_states with
  | [] => ret (jobs, failed_job_ids)
  | (job_id, job_state) :: rest =>
      acc <- try_except
               (job <- lift (_reconstitute_job self job_state) ;;
                ret (jobs ++ [job], failed_job_ids))
               (fun _ =>
                  Some (logger_exception
                          ("Unable to restore job '" ++ job_id ++ "'. Removing it...")%string ;;;
                        ret (jobs, set_add job_id failed_job_ids))) ;;
      restore_each self rest (fst acc) (snd acc)
  end.

Definition _get_jobs (self : DjangoJobStore) (filters : list Lookup) : M (list Job.t) :=
  rows <- DjangoJob_objects_filter filters ;;
  let job_states := map (fun r => (DjangoJob.id r, DjangoJob.job_state r)) rows in
  acc <- restore_each self job_states [] [] ;;
  let '(jobs, failed_job_ids) := acc in
  match failed_job_ids with
  | [] => ret jobs
  | _ :: _ =>
      logger_warning ("Removing failed jobs: " ++ repr_set failed_job_ids)%string ;;;
      DjangoJob_delete_where (lookup_matches (id__in failed_job_ids)) ;;;
      ret jobs
  end.

(** [filter(next_run_time__lte=None)] is refused by Django. *)
Definition get_due_jobs (self : DjangoJobStore) (now : datetime) : M (list Job.t) :=
  match get_django_internal_datetime (Some now) with
  | Some dt => _get_jobs self [next_run_time__lte dt]
  | None => raise (ValueError "Cannot use None as a query value")
  end.

Definition get_next_run_time (self : DjangoJobStore) : M (option datetime) :=
  try_except
    (w <- get_world ;;
     job <- lift (earliest_next_run_time
                    (filter (filters_match [next_run_time__isnull false]) (django_jobs w))) ;;
     ret (get_apscheduler_datetime (DjangoJob.next_run_time job) (_scheduler self)))
    (fun e =>
       match e with
       | DjangoJob_DoesNotExist => Some (ret None)
       | _ => None
       end).

Definition get_all_jobs (self : DjangoJobStore) : M (list Job.t) :=
  jobs <- _get_jobs self [] ;;
  ret (_fix_paused_jobs_sorting jobs).

Definition trigger_type_of (t : Trigger) : string :=
  match t with
  | DateTrigger _ => "DATE"
  | IntervalTrigger _ => "INTERVAL"
  | CronTrigger _ => "CRON"
  | OtherTrigger _ => ""
  end.

Definition add_job (self : DjangoJobStore) (job : Job.t) : M DjangoJob.t :=
  transaction_atomic
    (try_except
       (let trigger_type := trigger_type_of (Job.trigger job) in
        DjangoJob_objects_create
          (DjangoJob.Build
             (Job.id job)
             (get_django_internal_datetime (Job.next_run_time job))
             (pickle_dumps (Job.__getstate__ job) (pickle_protocol self))
             trigger_type))
       (fun e =>
          match e with
          | IntegrityError => Some (raise (ConflictingIdError (Job.id job)))
          | _ => None
          end)).

Definition update_job (self : DjangoJobStore) (job : Job.t) : M unit :=
  transaction_atomic
    (try_except
       (db_job <- DjangoJob_objects_get (Job.id job) ;;
        let db_job :=
          DjangoJob.Build (DjangoJob.id db_job)
                          (get_django_internal_datetime (Job.next_run_time job))
                          (pickle_dumps (Job.__getstate__ job) (pickle_protocol self))
                          (DjangoJob.trigger db_job) in
        DjangoJob_save db_job)
       (fun e =>
          match e with
          | DjangoJob_DoesNotExist => Some (raise (JobLookupError (Job.id job)))
          | _ => None
          end)).

Definition remove_job (self : DjangoJobStore) (job_id : string) : M unit :=
  try_except
    (row <- DjangoJob_objects_get job_id ;;
     DjangoJob_delete_where (fun r => String.eqb (DjangoJob.id r) (DjangoJob.id row)))
    (fun e =>
       match e with
       | DjangoJob_DoesNotExist => Some (raise (JobLookupError job_id))
       | _ => None
       end).

Definition remove_all_jobs (self : DjangoJobStore) : M unit :=
  DjangoJob_delete_where (fun _ => true).

(** *** Vocabulary of the statements about scans *)

(** The row's blob can be turned back into a job. *)
Definition restorable (self : DjangoJobStore) (r : DjangoJob.t) : bool :=
  match _reconstitute_job self (DjangoJob.job_state r) with
  | inr _ => true
  | inl _ => false
  end.

(** The jobs of the rows that can be restored, in the order of the rows. *)
Definition restore_rows (self : DjangoJobStore) (rows : list DjangoJob.t) : list Job.t :=
  flat_map (fun r =>
              match _reconstitute_job self (DjangoJob.job_state r) with
              | inr job => [job]
              | inl _ => []
              end) rows.

(** What a scan logs for a row it cannot restore. *)
Definition restore_failure (r : DjangoJob.t) : LogRecord :=
  mkLog ERROR ("Unable to restore job '" ++ DjangoJob.id r ++ "'. Removing it...")%string.

(** The ids a scan over [rows] collects in [failed_job_ids]. *)
Definition failed_ids (self : DjangoJobStore) (rows : list DjangoJob.t)
           (failed_job_ids : list string) : list string :=
  fold_left (fun acc r => set_add (DjangoJob.id r) acc)
            (filter (fun r => negb (restorable self r)) rows) failed_job_ids.

(** The rows a scan with [filters] goes through. *)
Definition scanned (filters : list Lookup) (w : World) : list DjangoJob.t :=
  order_by_next_run_time nulls_first (filter (filters_match filters) (django_jobs w)).

(** The world a scan leaves: the rows whose id was collected are gone
    from [DjangoJob], the failures and the removal are logged, nothing
    else has moved.  When every scanned row was restored, it is [w]. *)
Definition after_scan (self : DjangoJobStore) (filters : list Lookup) (w : World) : World :=
  let rows := scanned filters w in
  match failed_ids self rows [] with
  | [] => w
  | failed_job_ids =>
      mkWorld
        (filter (fun r => negb (mem_string (DjangoJob.id r) failed_job_ids)) (django_jobs w))
        (django_job_executions w) (next_execution_id w) (clock w)
        (log w
             ++ map restore_failure
                    (filter (fun r => negb (restorable self r)) rows)
             ++ [mkLog WARNING ("Removing failed jobs: " ++ repr_set failed_job_ids)%string])
  end.

(** A scan quarantines the row [row], stored between [pre] and [post]:
    the scan returns, with the answer it gives when the row is not in
    the table at all; the failure is logged under the row's id; no row
    with that id is left; and looking the id up finds nothing. *)
Definition quarantines (self : DjangoJobStore) (scan : M (list Job.t)) (w : World)
           (pre : list DjangoJob.t) (row : DjangoJob.t) (post : list DjangoJob.t) : Prop :=
  exists jobs w',
    scan w = (inr jobs, w') /\
    (exists w0', scan (with_jobs (pre ++ post) w) = (inr jobs, w0')) /\
    In (restore_failure row) (log w') /\
    (forall r, In r (django_jobs w') -> DjangoJob.id r <> DjangoJob.id row) /\
    lookup_job self (DjangoJob.id row) w' = (inr None, w').

(** The column and the blob of every row that loads agree on whether the
    job is paused, as they do in the rows [add_job] and [update_job]
    write. *)
Definition paused_agrees (self : DjangoJobStore) (w : World) : Prop :=
  forall r job,
    In r (django_jobs w) ->
    _reconstitute_job self (DjangoJob.job_state r) = inr job ->
    (Job.next_run_time job = None <-> DjangoJob.next_run_time r = None).

(** A client adding jobs one after the other. *)
Fixpoint add_jobs (self : DjangoJobStore) (jobs : list Job.t) : M unit :=
  match jobs with
  | [] => ret tt
  | job :: rest => add_job self job ;;; add_jobs self rest
  end.

(** The row [add_job] writes for a job. *)
Definition row_for (self : DjangoJobStore) (job : Job.t) : DjangoJob.t :=
  DjangoJob.Build (Job.id job)
                  (get_django_internal_datetime (Job.next_run_time job))
                  (pickle_dumps (Job.__getstate__ job) (pickle_protocol self))
                  (trigger_type_of (Job.trigger job)).

End JobStore.

(** ** Vocabulary of the statements *)

(** The ledger rows of a job id, and the job rows stored under it. *)
Definition executions_of (job_id : string) (w : World) : list DjangoJobExecution.t :=
  filter (fun x => String.eqb (DjangoJobExecution.job x) job_id) (django_job_executions w).

Definition jobs_with_id (job_id : string) (w : World) : list DjangoJob.t :=
  filter (fun r => String.eqb (DjangoJob.id r) job_id) (django_jobs w).

(** The world after one more warning; the tables are those of [w]. *)
Definition warned (msg : string) (w : World) : World :=
  mkWorld (django_jobs w) (django_job_executions w) (next_execution_id w) (clock w)
          (log w ++ [mkLog WARNING msg]).


(** The primary key of [DjangoJob]. *)
Definition primary_key_unique (w : World) : Prop :=
  NoDup (map DjangoJob.id (django_jobs w)).

(** What local recovery asks of a handler run on [w] for [job_id]: it returns, both
    tables are as before, and the warning is in the log. *)
Definition recovers_locally {A} (handler : M A) (job_id : string) (w : World) : Prop :=
  exists r w',
    handler w = (inr r, w') /\
    django_jobs w' = django_jobs w /\
    django_job_executions w' = django_job_executions w /\
    In (mkLog WARNING (no_longer_exists job_id)) (log w').

(** The constraints the database keeps on the ledger table: [id] is its
    primary key, and the sequence is ahead of every key handed out. *)
Definition ledger_well_formed (w : World) : Prop :=
  NoDup (map DjangoJobExecution.id (django_job_executions w)) /\
  forall i, In i (map DjangoJobExecution.id (django_job_executions w)) ->
            i < next_execution_id w.

Definition ledger_key (x : DjangoJobExecution.t) : Z * string :=
  (DjangoJobExecution.id x, DjangoJobExecution.job x).

(** What a handler may do to the ledger: rewrite rows, keeping every key
    and job id where it is, or append one row under a fresh key for a job
    id that had none. *)
Definition ledger_step (w w' : World) : Prop :=
  (map ledger_key (django_job_executions w') = map ledger_key (django_job_executions w) /\
   next_execution_id w' = next_execution_id w) \/
  (exists x,
      django_job_executions w' = django_job_executions w ++ [x] /\
      DjangoJobExecution.id x = next_execution_id w /\
      next_execution_id w' = next_execution_id w + 1 /\
      ~ In (DjangoJobExecution.job x)
           (map DjangoJobExecution.job (django_job_executions w))).


(** The rows are in the order of [ORDER BY next_run_time ASC]. *)
Definition ordered (nulls_first : bool) : list DjangoJob.t -> Prop :=
  StronglySorted
    (fun a b => next_run_time_leb nulls_first (DjangoJob.next_run_time a)
                                  (DjangoJob.next_run_time b) = true).

(** Ascending [next_run_time], for rows that have one. *)
Definition run_time_le (a b : DjangoJob.t) : Prop :=
  match DjangoJob.next_run_time a, DjangoJob.next_run_time b with
  | Some x, Some y => x <= y
  | _, _ => True
  end.

Definition is_scheduled (r : DjangoJob.t) : bool :=
  match DjangoJob.next_run_time r with
  | Some _ => true
  | None => false
  end.

(** The row is due at [now]. *)
Definition is_due (now : datetime) (r : DjangoJob.t) : bool :=
  match DjangoJob.next_run_time r with
  | Some t => t <=? now
  | None => false
  end.

(** The times at which some job is scheduled. *)
Definition scheduled_times (w : World) : list datetime :=
  flat_map (fun r => match DjangoJob.next_run_time r with
                     | Some t => [t]
                     | None => []
                     end) (django_jobs w).

(** ** A small database to run the code on *)

Definition demo_store : DjangoJobStore :=
  mkDjangoJobStore 5 (mkScheduler "UTC") "default".

Definition job_A : Job.t :=
  Job.Build "A" "reports:send" (IntervalTrigger 60) "default" ["daily"] [] "send report"
            (Some 1) true 1 (Some 100) None None.

Definition job_B : Job.t :=
  Job.Build "B" "cache:purge" (CronTrigger "0 3 * * *") "default" [] [] "purge cache"
            None false 1 None None None.

Definition job_C : Job.t :=
  Job.Build "C" "mail:flush" (DateTrigger 50) "default" [] [("retries", "3")] "flush mail"
            None true 3 (Some 50) None None.

Fixpoint bytes_eqb (a b : bytes) : bool :=
  match a, b with
  | [], [] => true
  | x :: a', y :: b' => Byte.eqb x y && bytes_eqb a' b'
  | _, _ => false
  end.

(** A stand-in for [pickle] over the three jobs above: a state is written
    as the protocol byte followed by the bytes of its id, and read back by
    looking the blob up; anything else does not load. *)
Definition demo_dumps (state : JobState) (protocol : Z) : bytes :=
  x80 :: list_byte_of_string (st_id state).

Definition demo_loads (blob : bytes) : PickleError + JobState :=
  match blob with
  | [] => inl EOFError
  | _ :: _ =>
      match find (fun j => bytes_eqb (demo_dumps (Job.__getstate__ j) 5) blob)
                 [job_A; job_B; job_C] with
      | Some j => inr (Job.__getstate__ j)
      | None => inl UnpicklingError
      end
  end.

Definition row_of (job : Job.t) (trigger : string) : DjangoJob.t :=
  DjangoJob.Build (Job.id job) (Job.next_run_time job)
                  (demo_dumps (Job.__getstate__ job) 5) trigger.

Definition corrupt_blob : bytes := [x00; x01].

(** A row that is due at 70 and whose blob does not load. *)
Definition row_X : DjangoJob.t := DjangoJob.Build "X" (Some 70) corrupt_blob "DATE".

Definition empty_world : World := mkWorld [] [] 1 0 [].

(** Job "A" is stored, the ledger is empty. *)
Definition world_A : World :=
  mkWorld [row_of job_A "INTERVAL"] [] 1 10 [].

Definition execution_A : DjangoJobExecution.t :=
  DjangoJobExecution.Build 1 "A" DjangoJobExecution.START (Some 10) "INTERVAL"
                           None None None 10 10.

(** Job "A" is stored and has its ledger row. *)
Definition world_A_logged : World :=
  mkWorld [row_of job_A "INTERVAL"] [execution_A] 2 20 [].

(** Three jobs, and a fourth row "X" that is due at 70 and does not load. *)
Definition world_ABCX : World :=
  mkWorld [row_of job_A "INTERVAL"; row_of job_B "CRON";
           row_X; row_of job_C "DATE"]
          [] 1 0 [].

(** The three jobs, all rows loading. *)
Definition world_ABC : World :=
  mkWorld [row_of job_A "INTERVAL"; row_of job_B "CRON"; row_of job_C "DATE"] [] 1 0 [].

(** A table whose columns contradict its blobs: the row of "A" says
    paused, the row of "B" says scheduled at 1. *)
Definition world_disagreeing : World :=
  mkWorld [DjangoJob.Build "A" None (demo_dumps (Job.__getstate__ job_A) 5) "INTERVAL";
           DjangoJob.Build "B" (Some 1) (demo_dumps (Job.__getstate__ job_B) 5) "CRON";
           row_of job_C "DATE"]
          [] 1 0 [].

Definition added_A : JobExecutionEvent.t :=
  JobExecutionEvent.Build EVENT_JOB_ADDED "A" None None.
Definition executed_A : JobExecutionEvent.t :=
  JobExecutionEvent.Build EVENT_JOB_EXECUTED "A" None None.
Definition error_A : JobExecutionEvent.t :=
  JobExecutionEvent.Build EVENT_JOB_ERROR "A" (Some "boom") (Some "Traceback ...").
Definition modified_A : JobExecutionEvent.t :=
  JobExecutionEvent.Build EVENT_JOB_MODIFIED "A" None None.

(** ** Clients of the store *)

(** One call of the job-store interface the scheduler uses. *)
Inductive StoreCall : Type :=
| call_add_job (job : Job.t)
| call_update_job (job : Job.t)
| call_remove_job (job_id : string)
| call_remove_all_jobs
| call_lookup_job (job_id : string)
| call_get_due_jobs (now : datetime)
| call_get_next_run_time
| call_get_all_jobs.

Section StoreClients.

Variable pickle_dumps : JobState -> Z -> bytes.
Variable pickle_loads : bytes -> PickleError + JobState.
Variable nulls_first : bool.

(** The world a call leaves, whether it returned or raised. *)
Definition run_call (self : DjangoJobStore) (c : StoreCall) (w : World) : World :=
  match c with
  | call_add_job job => snd (add_job pickle_dumps self job w)
  | call_update_job job => snd (update_job pickle_dumps self job w)
  | call_remove_job job_id => snd (remove_job self job_id w)
  | call_remove_all_jobs => snd (remove_all_jobs self w)
  | call_lookup_job job_id => snd (lookup_job pickle_loads self job_id w)
  | call_get_due_jobs now => snd (get_due_jobs pickle_loads nulls_first self now w)
  | call_get_next_run_time => snd (get_next_run_time nulls_first self w)
  | call_get_all_jobs => snd (get_all_jobs pickle_loads nulls_first self w)
  end.

Definition run_calls (self : DjangoJobStore) (calls : list StoreCall) (w : World) : World :=
  fold_left (fun w c => run_call self c w) calls w.

(** The column of every row that loads holds the [next_run_time] of the
    job in its blob. *)
Definition next_run_time_agrees (self : DjangoJobStore) (w : World) : Prop :=
  forall r job,
    In r (django_jobs w) ->
    _reconstitute_job pickle_loads self (DjangoJob.job_state r) = inr job ->
    Job.next_run_time job = DjangoJob.next_run_time r.

(** [pickle] gives the state of [job] back from the bytes it wrote. *)
Definition pickles (self : DjangoJobStore) (job : Job.t) : Prop :=
  pickle_loads (pickle_dumps (Job.__getstate__ job) (pickle_protocol self))
  = inr (Job.__getstate__ job).

End StoreClients.

(** The row of [x0] as an event handler saves it at time [now]. *)
Definition executed_execution (now : datetime) (x0 : DjangoJobExecution.t)
  : DjangoJobExecution.t :=
  DjangoJobExecution.set_updated_at now
    (DjangoJobExecution.set_finished (Some now)
       (DjangoJobExecution.set_status DjangoJobExecution.SUCCESS x0)).

Definition failed_execution (now : datetime) (exception : string) (traceback : option string)
           (x0 : DjangoJobExecution.t) : DjangoJobExecution.t :=
  DjangoJobExecution.set_updated_at now
    (DjangoJobExecution.set_traceback traceback
       (DjangoJobExecution.set_exception (Some exception)
          (DjangoJobExecution.set_status DjangoJobExecution.ERROR x0))).

Definition missed_execution (now : datetime) (exception : string)
           (x0 : DjangoJobExecution.t) : DjangoJobExecution.t :=
  DjangoJobExecution.set_updated_at now
    (DjangoJobExecution.set_exception (Some exception)
       (DjangoJobExecution.set_status DjangoJobExecution.MISSED x0)).

Definition modified_execution (now : datetime) (run_time : datetime)
           (x0 : DjangoJobExecution.t) : DjangoJobExecution.t :=
  DjangoJobExecution.set_updated_at now
    (DjangoJobExecution.set_run_time (Some run_time) x0).

(** The codes the mixin registers a listener for. *)
Definition registered_codes : Z :=
  Z.lor EVENT_JOB_ADDED
        (Z.lor EVENT_JOB_EXECUTED
               (Z.lor (Z.lor EVENT_JOB_ERROR EVENT_JOB_MISSED) EVENT_JOB_MODIFIED)).

(** A version of job "A" rescheduled to run at 200, and a job that was
    never stored. *)
Definition job_A_later : Job.t :=
  Job.Build "A" "reports:send" (IntervalTrigger 60) "default" ["daily"] [] "send report"
            (Some 1) true 1 (Some 200) None None.

Definition job_Z : Job.t :=
  Job.Build "Z" "none:such" (OtherTrigger "Custom") "default" [] [] "unknown"
            None false 1 None None None.

(** The job a call writes can be pickled and read back. *)
Definition call_pickles (pickle_dumps : JobState -> Z -> bytes)
           (pickle_loads : bytes -> PickleError + JobState)
           (self : DjangoJobStore) (c : StoreCall) : Prop :=
  match c with
  | call_add_job job => pickles pickle_dumps pickle_loads self job
  | call_update_job job => pickles pickle_dumps pickle_loads self job
  | _ => True
  end.

(** The paused job "B" is stored and has its ledger row. *)
Definition execution_B : DjangoJobExecution.t :=
  DjangoJobExecution.Build 1 "B" DjangoJobExecution.START (Some 10) "CRON"
                           None None None 10 10.

Definition world_B_logged : World :=
  mkWorld [row_of job_B "CRON"] [execution_B] 2 20 [].

Definition modified_B : JobExecutionEvent.t :=
  JobExecutionEvent.Build EVENT_JOB_MODIFIED "B" None None.

Definition removed_A : JobExecutionEvent.t :=
  JobExecutionEvent.Build EVENT_JOB_REMOVED "A" None None.

(** A ledger with two rows for "A". *)
Definition world_A_twice : World :=
  mkWorld [row_of job_A "INTERVAL"]
          [execution_A;
           DjangoJobExecution.Build 2 "A" DjangoJobExecution.START (Some 15) "INTERVAL"
                                    None None None 15 15]
          3 20 [].


(** A paused row whose blob does not load, beside "A" and "X". *)
Definition row_P : DjangoJob.t := DjangoJob.Build "P" None corrupt_blob "CRON".

Definition world_AXP : World :=
  mkWorld [row_of job_A "INTERVAL"; row_X; row_P] [] 1 0 [].



(** The row of "A" holds a blob that does not load and an old run time. *)
Definition world_A_corrupt : World :=
  mkWorld [DjangoJob.Build "A" (Some 5) corrupt_blob "INTERVAL"; row_of job_B "CRON"]
          [] 1 0 [].

(** * Theorems *)

(** ** The event handlers *)

Ltac run_monad :=
  unfold try_except, transaction_atomic, bind, ret, raise, lift, get_world,
    timezone_now, forget; cbn [fst snd].

Lemma objects_get_nil {R} (dne multi : Exn) :
  @objects_get R [] dne multi = inl dne.
Proof. reflexivity. Qed.

Lemma DjangoJobExecution_objects_get_missing (job_id : string) (w : World) :
  executions_of job_id w = [] ->
  DjangoJobExecution_objects_get job_id w = (inl DjangoJobExecution_DoesNotExist, w).
Proof.
  unfold executions_of, DjangoJobExecution_objects_get. run_monad.
  intros ->. reflexivity.
Qed.

Lemma DjangoJob_objects_get_one (job_id : string) (w : World) (row : DjangoJob.t) :
  jobs_with_id job_id w = [row] ->
  DjangoJob_objects_get job_id w = (inr row, w).
Proof.
  unfold jobs_with_id, DjangoJob_objects_get. run_monad.
  intros ->. reflexivity.
Qed.

Lemma DjangoJob_objects_get_missing (job_id : string) (w : World) :
  jobs_with_id job_id w = [] ->
  DjangoJob_objects_get job_id w = (inl DjangoJob_DoesNotExist, w).
Proof.
  unfold jobs_with_id, DjangoJob_objects_get. run_monad.
  intros ->. reflexivity.
Qed.

(** C2, as amended.  When the ledger has no row for the event's job id:
    the EXECUTED, ERROR, MISSED and MODIFIED handlers log the warning,
    return [None] without raising and leave both tables as they were, and
    the scheduler's delivery of such an event ends in that same world; the
    ADDED handler, given the job's row, opens the ledger row of the job. *)
Theorem missing_execution_record_handled
        (event : JobExecutionEvent.t) (w : World)
        (Hmissing : executions_of (JobExecutionEvent.job_id event) w = []) :
  let job_id := JobExecutionEvent.job_id event in
  let code := JobExecutionEvent.code event in
  let skipped := (inr None, warned (no_longer_exists job_id) w) in
  (code = EVENT_JOB_EXECUTED -> handle_execution_event event w = skipped) /\
  (code = EVENT_JOB_ERROR \/ code = EVENT_JOB_MISSED -> handle_error_event event w = skipped) /\
  handle_modify_event event w = skipped /\
  (code = EVENT_JOB_EXECUTED \/ code = EVENT_JOB_ERROR \/ code = EVENT_JOB_MISSED \/
   code = EVENT_JOB_MODIFIED ->
   dispatch_event register_event_listeners event w = warned (no_longer_exists job_id) w) /\
  (forall row,
      jobs_with_id job_id w = [row] ->
      let execution :=
        DjangoJobExecution.Build (next_execution_id w) job_id DjangoJobExecution.START
                                 (Some (clock w)) (DjangoJob.trigger row)
                                 None None None (clock w) (clock w) in
      handle_added_job_event event w =
      (inr execution,
       mkWorld (django_jobs w) (django_job_executions w ++ [execution])
               (next_execution_id w + 1) (clock w) (log w))).
Proof.
  intros job_id code skipped.
  assert (Hexec : code = EVENT_JOB_EXECUTED -> handle_execution_event event w = skipped).
  { intros Hc. unfold handle_execution_event. fold code. rewrite Hc.
    rewrite Z.eqb_refl. cbn [negb]. run_monad.
    rewrite (DjangoJobExecution_objects_get_missing _ _ Hmissing). reflexivity. }
  assert (Herr : code = EVENT_JOB_ERROR \/ code = EVENT_JOB_MISSED ->
                 handle_error_event event w = skipped).
  { intros Hc. unfold handle_error_event. fold code.
    destruct Hc as [Hc | Hc]; rewrite Hc.
    - rewrite Z.eqb_refl. destruct (JobExecutionEvent.exception event); run_monad;
        rewrite (DjangoJobExecution_objects_get_missing _ _ Hmissing); reflexivity.
    - replace (EVENT_JOB_MISSED =? EVENT_JOB_ERROR) with false by reflexivity.
      rewrite Z.eqb_refl. run_monad.
      rewrite (DjangoJobExecution_objects_get_missing _ _ Hmissing). reflexivity. }
  assert (Hmod : handle_modify_event event w = skipped).
  { unfold handle_modify_event. run_monad.
    rewrite (DjangoJobExecution_objects_get_missing _ _ Hmissing). reflexivity. }
  repeat split; try assumption.
  - intros Hc. unfold register_event_listeners.
    cbn [dispatch_event]. fold code.
    destruct Hc as [Hc | [Hc | [Hc | Hc]]].
    + specialize (Hexec Hc). rewrite Hc.
      replace (Z.land EVENT_JOB_EXECUTED EVENT_JOB_ADDED =? 0) with true by reflexivity.
      replace (Z.land EVENT_JOB_EXECUTED EVENT_JOB_EXECUTED =? 0) with false by reflexivity.
      replace (Z.land EVENT_JOB_EXECUTED (Z.lor EVENT_JOB_ERROR EVENT_JOB_MISSED) =? 0)
        with true by reflexivity.
      replace (Z.land EVENT_JOB_EXECUTED EVENT_JOB_MODIFIED =? 0) with true by reflexivity.
      unfold forget, bind. rewrite Hexec. reflexivity.
    + specialize (Herr (or_introl Hc)). rewrite Hc.
      replace (Z.land EVENT_JOB_ERROR EVENT_JOB_ADDED =? 0) with true by reflexivity.
      replace (Z.land EVENT_JOB_ERROR EVENT_JOB_EXECUTED =? 0) with true by reflexivity.
      replace (Z.land EVENT_JOB_ERROR (Z.lor EVENT_JOB_ERROR EVENT_JOB_MISSED) =? 0)
        with false by reflexivity.
      replace (Z.land EVENT_JOB_ERROR EVENT_JOB_MODIFIED =? 0) with true by reflexivity.
      unfold forget, bind. rewrite Herr. reflexivity.
    + specialize (Herr (or_intror Hc)). rewrite Hc.
      replace (Z.land EVENT_JOB_MISSED EVENT_JOB_ADDED =? 0) with true by reflexivity.
      replace (Z.land EVENT_JOB_MISSED EVENT_JOB_EXECUTED =? 0) with true by reflexivity.
      replace (Z.land EVENT_JOB_MISSED (Z.lor EVENT_JOB_ERROR EVENT_JOB_MISSED) =? 0)
        with false by reflexivity.
      replace (Z.land EVENT_JOB_MISSED EVENT_JOB_MODIFIED =? 0) with true by reflexivity.
      unfold forget, bind. rewrite Herr. reflexivity.
    + rewrite Hc.
      replace (Z.land EVENT_JOB_MODIFIED EVENT_JOB_ADDED =? 0) with true by reflexivity.
      replace (Z.land EVENT_JOB_MODIFIED EVENT_JOB_EXECUTED =? 0) with true by reflexivity.
      replace (Z.land EVENT_JOB_MODIFIED (Z.lor EVENT_JOB_ERROR EVENT_JOB_MISSED) =? 0)
        with true by reflexivity.
      replace (Z.land EVENT_JOB_MODIFIED EVENT_JOB_MODIFIED =? 0) with false by reflexivity.
      unfold forget, bind. rewrite Hmod. reflexivity.
  - intros row Hrow execution. unfold handle_added_job_event. run_monad.
    subst job_id. rewrite (DjangoJob_objects_get_one _ _ _ Hrow).
    rewrite (DjangoJobExecution_objects_get_missing _ _ Hmissing).
    reflexivity.
Qed.

Lemma missing_execution_record_handled_witness :
  executions_of "A" world_A = [] /\
  handle_execution_event executed_A world_A =
  (inr None, warned (no_longer_exists "A") world_A) /\
  handle_modify_event modified_A world_A =
  (inr None, warned (no_longer_exists "A") world_A).
Proof.
  split; [reflexivity | split].
  - exact (proj1 (missing_execution_record_handled executed_A world_A eq_refl) eq_refl).
  - exact (proj1 (proj2 (proj2 (missing_execution_record_handled modified_A world_A eq_refl)))).
Defined.

(** C2 fails for ADDED: job "A" is stored and has no ledger row, and the
    handler opens one instead of warning and leaving the ledger alone. *)
Lemma added_event_opens_missing_record :
  executions_of "A" world_A = [] /\
  handle_added_job_event added_A world_A =
  (inr execution_A, mkWorld (django_jobs world_A) [execution_A] 2 10 []) /\
  ~ recovers_locally (handle_added_job_event added_A) "A" world_A.
Proof.
  split; [reflexivity | split; [reflexivity |]].
  intros (r & w' & Hrun & _ & Hexec & _).
  vm_compute in Hrun. inversion Hrun; subst w'. discriminate Hexec.
Qed.

(** The two places where a missing job row leaves a handler as an
    exception: the lookup of the job in [handle_added_job_event] stands
    before the [try], and the one in [handle_modify_event] raises
    [DjangoJob.DoesNotExist], which its [except] clause does not name. *)
Example handle_added_job_event_without_job :
  handle_added_job_event added_A empty_world = (inl DjangoJob_DoesNotExist, empty_world).
Proof. reflexivity. Qed.

Example handle_modify_event_without_job :
  let w := mkWorld [] [execution_A] 2 20 [] in
  handle_modify_event modified_A w = (inl DjangoJob_DoesNotExist, w).
Proof. reflexivity. Qed.

(** ** The ledger keeps one row per job id *)

Lemma DjangoJobExecution_objects_get_cases (job_id : string) (w : World) :
  exists r,
    DjangoJobExecution_objects_get job_id w = (r, w) /\
    match r with
    | inr x0 => executions_of job_id w = [x0]
    | inl e =>
        (e = DjangoJobExecution_DoesNotExist /\ executions_of job_id w = []) \/
        (e = DjangoJobExecution_MultipleObjectsReturned /\
         (2 <= List.length (executions_of job_id w))%nat)
    end.
Proof.
  unfold DjangoJobExecution_objects_get, executions_of. run_monad.
  destruct (filter _ (django_job_executions w)) as [| x0 [| x1 rest]]; cbn.
  - eexists. split; [reflexivity |]. left. split; reflexivity.
  - eexists. split; [reflexivity |]. reflexivity.
  - eexists. split; [reflexivity |]. right. split; [reflexivity | lia].
Qed.

Lemma DjangoJob_objects_get_cases (job_id : string) (w : World) :
  exists r,
    DjangoJob_objects_get job_id w = (r, w) /\
    match r with
    | inr row => jobs_with_id job_id w = [row]
    | inl e => e = DjangoJob_DoesNotExist \/ e = DjangoJob_MultipleObjectsReturned
    end.
Proof.
  unfold DjangoJob_objects_get, jobs_with_id. run_monad.
  destruct (filter _ (django_jobs w)) as [| x0 [| x1 rest]]; cbn;
    eexists; (split; [reflexivity |]); cbn; auto.
Qed.

Lemma executions_of_singleton (job_id : string) (w : World) (x0 : DjangoJobExecution.t) :
  executions_of job_id w = [x0] ->
  In x0 (django_job_executions w) /\ DjangoJobExecution.job x0 = job_id.
Proof.
  intros H. assert (Hin : In x0 (executions_of job_id w)) by (rewrite H; left; reflexivity).
  unfold executions_of in Hin. apply filter_In in Hin. destruct Hin as [Hin Heq].
  split; [assumption | now apply String.eqb_eq].
Qed.

Lemma same_key_same_row (l : list DjangoJobExecution.t) (x y : DjangoJobExecution.t) :
  NoDup (map DjangoJobExecution.id l) ->
  In x l -> In y l -> DjangoJobExecution.id y = DjangoJobExecution.id x -> y = x.
Proof.
  induction l as [| a l IH]; cbn; intros Hnd Hx Hy Hid; [contradiction |].
  inversion Hnd as [| ? ? Hnotin Hnd']; subst.
  destruct Hx as [-> | Hx], Hy as [-> | Hy]; auto.
  - exfalso. apply Hnotin. rewrite <- Hid. now apply in_map.
  - exfalso. apply Hnotin. rewrite Hid. now apply in_map.
Qed.

(** Rewriting the row of key [id x0] by a row with the same key and job id
    moves no key. *)
Lemma rewrite_row_keeps_keys (l : list DjangoJobExecution.t) (x0 x' : DjangoJobExecution.t) :
  NoDup (map DjangoJobExecution.id l) ->
  In x0 l ->
  ledger_key x' = ledger_key x0 ->
  map ledger_key
      (map (fun y => if DjangoJobExecution.id y =? DjangoJobExecution.id x0 then x' else y) l)
  = map ledger_key l.
Proof.
  intros Hnd Hin Hkey. rewrite map_map. apply map_ext_in. intros y Hy.
  destruct (DjangoJobExecution.id y =? DjangoJobExecution.id x0) eqn:E; [| reflexivity].
  apply Z.eqb_eq in E. rewrite (same_key_same_row l x0 y Hnd Hin Hy E). exact Hkey.
Qed.

Lemma DjangoJobExecution_save_step (x0 x : DjangoJobExecution.t) (w : World) :
  ledger_well_formed w ->
  In x0 (django_job_executions w) ->
  ledger_key x = ledger_key x0 ->
  exists r w',
    DjangoJobExecution_save x w = (r, w') /\
    (r = inl IntegrityError \/ exists x', r = inr x') /\
    django_jobs w' = django_jobs w /\ log w' = log w /\ clock w' = clock w /\
    map ledger_key (django_job_executions w') = map ledger_key (django_job_executions w) /\
    next_execution_id w' = next_execution_id w.
Proof.
  intros [Hnd _] Hin Hkey. unfold DjangoJobExecution_save.
  destruct (DjangoJobExecution.run_time x).
  - eexists; eexists. split; [reflexivity |]. cbn.
    split; [right; eexists; reflexivity |].
    repeat split; auto.
    assert (Hid : DjangoJobExecution.id x = DjangoJobExecution.id x0)
      by (now injection Hkey).
    rewrite Hid. apply rewrite_row_keeps_keys; auto.
  - eexists; eexists. split; [reflexivity |]. repeat split; auto.
Qed.

Ltac same_ledger :=
  left; cbn; split; first [reflexivity | assumption | congruence].

Lemma handle_execution_event_step (event : JobExecutionEvent.t) (w : World) :
  ledger_well_formed w -> ledger_step w (snd (handle_execution_event event w)).
Proof.
  intros Hwf. unfold handle_execution_event.
  destruct (negb _); [same_ledger |]. run_monad.
  destruct (DjangoJobExecution_objects_get_cases (JobExecutionEvent.job_id event) w)
    as (r & -> & Hr).
  destruct r as [e | x0].
  - destruct Hr as [[-> _] | [-> _]]; same_ledger.
  - apply executions_of_singleton in Hr. destruct Hr as [Hin _].
    destruct (DjangoJobExecution_save_step x0
                (DjangoJobExecution.set_finished (Some (clock w))
                   (DjangoJobExecution.set_status DjangoJobExecution.SUCCESS x0))
                w Hwf Hin eq_refl)
      as (r & w' & -> & [-> | [x' ->]] & _ & _ & _ & Hk & Hn); same_ledger.
Qed.

Lemma handle_error_event_step (event : JobExecutionEvent.t) (w : World) :
  ledger_well_formed w -> ledger_step w (snd (handle_error_event event w)).
Proof.
  intros Hwf. unfold handle_error_event.
  destruct (JobExecutionEvent.code event =? EVENT_JOB_ERROR);
    [| destruct (JobExecutionEvent.code event =? EVENT_JOB_MISSED); [| same_ledger]].
  - destruct (match JobExecutionEvent.exception event with
              | Some s => _ | None => _ end) as [exception traceback].
    run_monad.
    destruct (DjangoJobExecution_objects_get_cases (JobExecutionEvent.job_id event) w)
      as (r & -> & Hr).
    destruct r as [e | x0].
    + destruct Hr as [[-> _] | [-> _]]; same_ledger.
    + apply executions_of_singleton in Hr. destruct Hr as [Hin _].
      destruct (DjangoJobExecution_save_step x0
                  (DjangoJobExecution.set_traceback traceback
                     (DjangoJobExecution.set_exception (Some exception)
                        (DjangoJobExecution.set_status DjangoJobExecution.ERROR x0)))
                  w Hwf Hin eq_refl)
        as (r & w' & -> & [-> | [x' ->]] & _ & _ & _ & Hk & Hn); same_ledger.
  - run_monad.
    destruct (DjangoJobExecution_objects_get_cases (JobExecutionEvent.job_id event) w)
      as (r & -> & Hr).
    destruct r as [e | x0].
    + destruct Hr as [[-> _] | [-> _]]; same_ledger.
    + apply executions_of_singleton in Hr. destruct Hr as [Hin _].
      destruct (DjangoJobExecution_save_step x0
                  (DjangoJobExecution.set_exception
                     (Some ("Run time of job '" ++ JobExecutionEvent.job_id event
                                                ++ "' was missed!")%string)
                     (DjangoJobExecution.set_status DjangoJobExecution.MISSED x0))
                  w Hwf Hin eq_refl)
        as (r & w' & -> & [-> | [x' ->]] & _ & _ & _ & Hk & Hn); same_ledger.
Qed.

Lemma handle_modify_event_step (event : JobExecutionEvent.t) (w : World) :
  ledger_well_formed w -> ledger_step w (snd (handle_modify_event event w)).
Proof.
  intros Hwf. unfold handle_modify_event. run_monad.
  destruct (DjangoJobExecution_objects_get_cases (JobExecutionEvent.job_id event) w)
    as (r & -> & Hr).
  destruct r as [e | x0].
  - destruct Hr as [[-> _] | [-> _]]; same_ledger.
  - apply executions_of_singleton in Hr. destruct Hr as [Hin _].
    destruct (DjangoJob_objects_get_cases (JobExecutionEvent.job_id event) w)
      as (rj & -> & Hrj).
    destruct rj as [e | row].
    + destruct Hrj as [-> | ->]; same_ledger.
    + destruct (DjangoJobExecution_save_step x0
                  (DjangoJobExecution.set_run_time (DjangoJob.next_run_time row) x0)
                  w Hwf Hin eq_refl)
        as (r & w' & -> & [-> | [x' ->]] & _ & _ & _ & Hk & Hn); same_ledger.
Qed.

Lemma no_execution_no_job_id (job_id : string) (w : World) :
  executions_of job_id w = [] ->
  ~ In job_id (map DjangoJobExecution.job (django_job_executions w)).
Proof.
  unfold executions_of. intros Hnone Hin.
  apply in_map_iff in Hin. destruct Hin as (x & Hjob & Hx).
  assert (Hf : In x (filter (fun x => String.eqb (DjangoJobExecution.job x) job_id)
                            (django_job_executions w))).
  { apply filter_In. split; [assumption | now apply String.eqb_eq]. }
  rewrite Hnone in Hf. exact Hf.
Qed.

Lemma handle_added_job_event_step (event : JobExecutionEvent.t) (w : World) :
  ledger_well_formed w -> ledger_step w (snd (handle_added_job_event event w)).
Proof.
  intros Hwf. unfold handle_added_job_event. run_monad.
  destruct (DjangoJob_objects_get_cases (JobExecutionEvent.job_id event) w)
    as (rj & -> & Hrj).
  destruct rj as [e | row]; [same_ledger |].
  destruct (DjangoJobExecution_objects_get_cases (JobExecutionEvent.job_id event) w)
    as (r & -> & Hr).
  destruct r as [e | x0].
  - destruct Hr as [[-> Hnone] | [-> _]]; [| same_ledger].
    right. cbn. eexists. repeat split.
    cbn. now apply no_execution_no_job_id.
  - apply executions_of_singleton in Hr. destruct Hr as [Hin _].
    destruct (DjangoJobExecution_save_step x0
                (DjangoJobExecution.set_type (DjangoJob.trigger row)
                   (DjangoJobExecution.set_run_time (Some (clock w))
                      (DjangoJobExecution.set_status DjangoJobExecution.START x0)))
                w Hwf Hin eq_refl)
      as (r & w' & -> & [-> | [x' ->]] & _ & _ & _ & Hk & Hn); same_ledger.
Qed.

Lemma NoDup_snoc {A} (l : list A) (a : A) :
  NoDup l -> ~ In a l -> NoDup (l ++ [a]).
Proof.
  induction l as [| b l IH]; cbn; intros Hnd Hnotin.
  - constructor; [intros [] | constructor].
  - inversion Hnd as [| ? ? Hb Hnd']; subst. constructor.
    + rewrite in_app_iff. intros [Hin | [-> | []]]; [now apply Hb | apply Hnotin; now left].
    + apply IH; [assumption | intros Hin; apply Hnotin; now right].
Qed.



Lemma forget_world {A} (m : M A) (w : World) : snd (forget m w) = snd (m w).
Proof. unfold forget, bind, ret. destruct (m w) as [[e | a] w']; reflexivity. Qed.

Lemma registered_listeners_step :
  forall cb mask, In (cb, mask) register_event_listeners ->
                  forall ev w, ledger_well_formed w -> ledger_step w (snd (cb ev w)).
Proof.
  intros cb mask Hin ev w Hwf. unfold register_event_listeners in Hin. cbn in Hin.
  destruct Hin as [H | [H | [H | [H | []]]]]; inversion H; subst; clear H;
    rewrite forget_world.
  - now apply handle_added_job_event_step.
  - now apply handle_execution_event_step.
  - now apply handle_error_event_step.
  - now apply handle_modify_event_step.
Qed.


Lemma dispatch_added_event (event : JobExecutionEvent.t) (w : World) :
  JobExecutionEvent.code event = EVENT_JOB_ADDED ->
  dispatch_event register_event_listeners event w =
  match handle_added_job_event event w with
  | (inr _, w') => w'
  | (inl _, w') => snd (logger_exception "Error notifying listener" w')
  end.
Proof.
  intros Hc. unfold register_event_listeners. cbn [dispatch_event]. rewrite Hc.
  replace (Z.land EVENT_JOB_ADDED EVENT_JOB_ADDED =? 0) with false by reflexivity.
  replace (Z.land EVENT_JOB_ADDED EVENT_JOB_EXECUTED =? 0) with true by reflexivity.
  replace (Z.land EVENT_JOB_ADDED (Z.lor EVENT_JOB_ERROR EVENT_JOB_MISSED) =? 0)
    with true by reflexivity.
  replace (Z.land EVENT_JOB_ADDED EVENT_JOB_MODIFIED =? 0) with true by reflexivity.
  unfold forget, bind, ret.
  destruct (handle_added_job_event event w) as [[e | x] w']; reflexivity.
Qed.

Lemma rewrite_other_rows (l : list DjangoJobExecution.t) (k : Z) (x' : DjangoJobExecution.t) :
  ~ In k (map DjangoJobExecution.id l) ->
  map (fun y => if DjangoJobExecution.id y =? k then x' else y) l = l.
Proof.
  intros Hnotin. rewrite <- (map_id l) at 2. apply map_ext_in. intros y Hy.
  destruct (DjangoJobExecution.id y =? k) eqn:E; [| reflexivity].
  exfalso. apply Hnotin. apply Z.eqb_eq in E. rewrite <- E. now apply in_map.
Qed.






(** The same run, computed: "A" is added, runs, and is added again; the
    ledger ends with the one row of "A", opened under key 1 and reset. *)
Example ledger_after_three_events :
  django_job_executions (process_events [added_A; executed_A; added_A] world_A) =
  [DjangoJobExecution.Build 1 "A" DjangoJobExecution.START (Some 10) "INTERVAL"
                            (Some 10) None None 10 10].
Proof. reflexivity. Qed.

(** ** The model's ordering *)

Section Ordering.

Variable nulls_first : bool.

Lemma next_run_time_leb_total (a b : option datetime) :
  next_run_time_leb nulls_first a b = true \/ next_run_time_leb nulls_first b a = true.
Proof.
  destruct a as [x |], b as [y |]; cbn; auto.
  - destruct (Z.leb_spec x y); [now left | right; apply Z.leb_le; lia].
  - destruct nulls_first; auto.
  - destruct nulls_first; auto.
Qed.

Lemma next_run_time_leb_trans (a b c : option datetime) :
  next_run_time_leb nulls_first a b = true ->
  next_run_time_leb nulls_first b c = true ->
  next_run_time_leb nulls_first a c = true.
Proof.
  destruct a as [x |], b as [y |], c as [z |]; cbn; auto;
    try (destruct nulls_first; cbn; congruence).
  rewrite !Z.leb_le. lia.
Qed.

Lemma insert_ordered_permutation (r : DjangoJob.t) (rows : list DjangoJob.t) :
  Permutation (r :: rows) (insert_ordered nulls_first r rows).
Proof.
  induction rows as [| r' rows IH]; cbn; [reflexivity |].
  destruct (next_run_time_leb _ _ _); [reflexivity |].
  rewrite perm_swap. now constructor.
Qed.

Lemma order_by_permutation (rows : list DjangoJob.t) :
  Permutation rows (order_by_next_run_time nulls_first rows).
Proof.
  induction rows as [| r rows IH]; cbn; [constructor |].
  rewrite <- insert_ordered_permutation. now constructor.
Qed.

Lemma insert_ordered_ordered (r : DjangoJob.t) (rows : list DjangoJob.t) :
  ordered nulls_first rows -> ordered nulls_first (insert_ordered nulls_first r rows).
Proof.
  unfold ordered. induction rows as [| r' rows IH]; cbn; intros Hs.
  - repeat constructor.
  - inversion Hs as [| ? ? Hs' Hall]; subst.
    destruct (next_run_time_leb nulls_first (DjangoJob.next_run_time r)
                                (DjangoJob.next_run_time r')) eqn:E.
    + constructor; [assumption |]. constructor; [exact E |].
      eapply Forall_impl; [| exact Hall]. intros a Ha.
      eapply next_run_time_leb_trans; eassumption.
    + constructor; [now apply IH |].
      assert (Hr : next_run_time_leb nulls_first (DjangoJob.next_run_time r')
                                     (DjangoJob.next_run_time r) = true).
      { destruct (next_run_time_leb_total (DjangoJob.next_run_time r)
                                                      (DjangoJob.next_run_time r'));
          congruence. }
      eapply Permutation_Forall; [apply insert_ordered_permutation |].
      now constructor.
Qed.

Lemma order_by_ordered (rows : list DjangoJob.t) :
  ordered nulls_first (order_by_next_run_time nulls_first rows).
Proof.
  induction rows as [| r rows IH]; cbn; [constructor |].
  now apply insert_ordered_ordered.
Qed.

(** Sorting keeps the table order among equal keys, so it commutes with
    selecting rows. *)
Lemma filter_insert_ordered (p : DjangoJob.t -> bool) (r : DjangoJob.t)
      (rows : list DjangoJob.t) :
  ordered nulls_first rows ->
  filter p (insert_ordered nulls_first r rows) =
  if p r then insert_ordered nulls_first r (filter p rows) else filter p rows.
Proof.
  unfold ordered. induction rows as [| r' rows IH]; cbn; intros Hs.
  - destruct (p r); reflexivity.
  - inversion Hs as [| ? ? Hs' Hall]; subst.
    destruct (next_run_time_leb nulls_first (DjangoJob.next_run_time r)
                                (DjangoJob.next_run_time r')) eqn:E; cbn.
    + destruct (p r) eqn:Hp; [| reflexivity].
      destruct (p r') eqn:Hp'; cbn; [now rewrite E |].
      (* [r] goes in front of whatever is kept of [rows] *)
      clear IH. induction rows as [| r'' rows IH']; cbn; [reflexivity |].
      inversion Hall as [| ? ? Hle Hall']; subst.
      inversion Hs' as [| ? ? Hs'' Hall'']; subst.
      destruct (p r'') eqn:Hp''; cbn.
      * now rewrite (next_run_time_leb_trans _ _ _ E Hle).
      * apply IH'; try assumption.
        constructor; assumption.
    + rewrite (IH Hs'). destruct (p r'), (p r); cbn; try rewrite E; reflexivity.
Qed.

Lemma filter_order_by (p : DjangoJob.t -> bool) (rows : list DjangoJob.t) :
  filter p (order_by_next_run_time nulls_first rows) =
  order_by_next_run_time nulls_first (filter p rows).
Proof.
  unfold order_by_next_run_time.
  induction rows as [| r rows IH]; cbn; [reflexivity |].
  rewrite filter_insert_ordered by apply order_by_ordered.
  rewrite IH. destruct (p r); reflexivity.
Qed.

Lemma ordered_run_time_le (rows : list DjangoJob.t) :
  ordered nulls_first rows -> StronglySorted run_time_le rows.
Proof.
  unfold ordered. induction 1 as [| a l Hs IH Hall]; constructor; [assumption |].
  eapply Forall_impl; [| exact Hall]. intros b Hb. unfold run_time_le.
  destruct (DjangoJob.next_run_time a), (DjangoJob.next_run_time b); auto.
  cbn in Hb. now apply Z.leb_le.
Qed.

End Ordering.

(** ** The next run time *)

Lemma scheduled_times_In (w : World) (t : datetime) :
  In t (scheduled_times w) <->
  exists r, In r (django_jobs w) /\ DjangoJob.next_run_time r = Some t.
Proof.
  unfold scheduled_times. rewrite in_flat_map. split.
  - intros (r & Hr & Ht). exists r. split; [assumption |].
    destruct (DjangoJob.next_run_time r); [| contradiction].
    destruct Ht as [-> | []]. reflexivity.
  - intros (r & Hr & Ht). exists r. split; [assumption |]. rewrite Ht. now left.
Qed.

Lemma not_null_is_scheduled (r : DjangoJob.t) :
  filters_match [next_run_time__isnull false] r = is_scheduled r.
Proof.
  unfold filters_match, is_scheduled. cbn.
  destruct (DjangoJob.next_run_time r); reflexivity.
Qed.

(** C7.  [get_next_run_time] returns without raising and without touching
    the world; its result is the least [next_run_time] held by a row, and
    [None] exactly when no row holds one. *)
Theorem get_next_run_time_is_minimum
        (nulls_first : bool) (self : DjangoJobStore) (w : World) :
  exists result,
    get_next_run_time nulls_first self w = (inr result, w) /\
    match result with
    | Some m => In m (scheduled_times w) /\ Forall (fun t => m <= t) (scheduled_times w)
    | None => scheduled_times w = []
    end.
Proof.
  unfold get_next_run_time, earliest_next_run_time. run_monad.
  rewrite (filter_ext _ _ not_null_is_scheduled).
  set (rows := filter is_scheduled (django_jobs w)).
  pose proof (order_by_permutation nulls_first rows) as Hperm.
  pose proof (order_by_ordered nulls_first rows) as Hord.
  destruct (order_by_next_run_time nulls_first rows) as [| r rest].
  - exists None. split; [reflexivity |].
    apply Permutation_sym, Permutation_nil in Hperm.
    destruct (scheduled_times w) as [| t ts] eqn:Ets; [reflexivity | exfalso].
    assert (Hin : In t (scheduled_times w)) by (rewrite Ets; now left).
    apply scheduled_times_In in Hin. destruct Hin as (r & Hr & Ht).
    assert (Hrow : In r rows).
    { apply filter_In. split; [assumption |]. unfold is_scheduled. now rewrite Ht. }
    rewrite Hperm in Hrow. exact Hrow.
  - assert (Hr : In r rows).
    { eapply Permutation_in; [symmetry; exact Hperm | now left]. }
    apply filter_In in Hr. destruct Hr as [Hr Hsched]. unfold is_scheduled in Hsched.
    destruct (DjangoJob.next_run_time r) as [m |] eqn:Em; [| discriminate].
    exists (Some m). unfold get_apscheduler_datetime. split; [reflexivity |]. split.
    + apply scheduled_times_In. exists r. auto.
    + apply Forall_forall. intros t Ht.
      apply scheduled_times_In in Ht. destruct Ht as (r' & Hr' & Et).
      assert (Hrow : In r' (r :: rest)).
      { eapply Permutation_in; [exact Hperm |]. apply filter_In.
        split; [assumption |]. unfold is_scheduled. now rewrite Et. }
      destruct Hrow as [<- | Hrest]; [rewrite Em in Et; injection Et; lia |].
      inversion Hord as [| ? ? _ Hall]; subst.
      rewrite Forall_forall in Hall. specialize (Hall r' Hrest).
      rewrite Em, Et in Hall. cbn in Hall. now apply Z.leb_le.
Qed.

Example get_next_run_time_demo :
  get_next_run_time true demo_store world_ABCX = (inr (Some 50), world_ABCX) /\
  get_next_run_time true demo_store empty_world = (inr None, empty_world).
Proof. split; reflexivity. Qed.

(** ** Scans of the job table *)

Section Scans.

Variable pickle_loads : bytes -> PickleError + JobState.
Variable nulls_first : bool.

Lemma restore_each_spec (self : DjangoJobStore) (rows : list DjangoJob.t) :
  forall (jobs : list Job.t) (failed_job_ids : list string) (w : World),
    restore_each pickle_loads self
                 (map (fun r => (DjangoJob.id r, DjangoJob.job_state r)) rows)
                 jobs failed_job_ids w =
    (inr (jobs ++ restore_rows pickle_loads self rows,
          failed_ids pickle_loads self rows failed_job_ids),
     mkWorld (django_jobs w) (django_job_executions w) (next_execution_id w) (clock w)
             (log w ++ map restore_failure
                           (filter (fun r => negb (restorable pickle_loads self r)) rows))).
Proof.
  induction rows as [| r rows IH]; intros jobs failed_job_ids w.
  - cbn. unfold ret. rewrite !app_nil_r. destruct w; reflexivity.
  - cbn [map restore_each]. unfold failed_ids, restorable. cbn [restore_rows flat_map filter].
    run_monad. unfold logger_exception.
    destruct (_reconstitute_job pickle_loads self (DjangoJob.job_state r)) as [e | job];
      cbn [negb fst snd]; rewrite IH; cbn [django_jobs django_job_executions
                                            next_execution_id clock log].
    + cbn [map fold_left]. unfold failed_ids, restorable, restore_rows, restore_failure.
      rewrite <- !app_assoc. reflexivity.
    + unfold failed_ids, restorable, restore_rows.
      rewrite <- !app_assoc. reflexivity.
Qed.

Lemma failed_ids_nil (self : DjangoJobStore) (rows : list DjangoJob.t) :
  failed_ids pickle_loads self rows [] = [] ->
  filter (fun r => negb (restorable pickle_loads self r)) rows = [].
Proof.
  unfold failed_ids.
  destruct (filter _ rows) as [| r bad]; [reflexivity |].
  cbn. intros H. exfalso.
  assert (Hin : forall l acc, In (DjangoJob.id r) acc ->
                In (DjangoJob.id r)
                   (fold_left (fun acc r => set_add (DjangoJob.id r) acc) l acc)).
  { induction l as [| a l IHl]; cbn; intros acc Hacc; [assumption |].
    apply IHl. unfold set_add. destruct (mem_string _ acc); [assumption |].
    apply in_app_iff. now left. }
  specialize (Hin bad [DjangoJob.id r] (or_introl eq_refl)).
  rewrite H in Hin. exact Hin.
Qed.

Lemma _get_jobs_spec (self : DjangoJobStore) (filters : list Lookup) (w : World) :
  _get_jobs pickle_loads nulls_first self filters w =
  (inr (restore_rows pickle_loads self (scanned nulls_first filters w)),
   after_scan pickle_loads nulls_first self filters w).
Proof.
  unfold _get_jobs, DjangoJob_objects_filter. run_monad.
  fold (scanned nulls_first filters w).
  rewrite restore_each_spec. cbn [app]. unfold after_scan.
  destruct (failed_ids pickle_loads self (scanned nulls_first filters w) [])
    as [| i ids] eqn:Efail.
  - rewrite (failed_ids_nil _ _ Efail). cbn. rewrite app_nil_r. destruct w; reflexivity.
  - unfold logger_warning, DjangoJob_delete_where, with_jobs. cbn.
    rewrite <- app_assoc. reflexivity.
Qed.

End Scans.

Section DueJobs.

Variable pickle_loads : bytes -> PickleError + JobState.
Variable nulls_first : bool.

Lemma filter_andb {A} (p q : A -> bool) (l : list A) :
  filter q (filter p l) = filter (fun a => p a && q a) l.
Proof.
  induction l as [| a l IH]; cbn; [reflexivity |].
  destruct (p a); cbn; [destruct (q a) |]; now rewrite IH.
Qed.

Lemma restore_rows_restorable (self : DjangoJobStore) (rows : list DjangoJob.t) :
  Forall2 (fun r job => _reconstitute_job pickle_loads self (DjangoJob.job_state r) = inr job)
          (filter (restorable pickle_loads self) rows)
          (restore_rows pickle_loads self rows).
Proof.
  induction rows as [| r rows IH]; cbn; [constructor |].
  unfold restorable.
  destruct (_reconstitute_job pickle_loads self (DjangoJob.job_state r)) eqn:E; cbn;
    [assumption | now constructor].
Qed.

Lemma restore_rows_filter (self : DjangoJobStore) (rows : list DjangoJob.t) :
  restore_rows pickle_loads self (filter (restorable pickle_loads self) rows) =
  restore_rows pickle_loads self rows.
Proof.
  unfold restore_rows.
  induction rows as [| r rows IH]; cbn; [reflexivity |].
  unfold restorable at 1.
  destruct (_reconstitute_job pickle_loads self (DjangoJob.job_state r)) eqn:E; cbn;
    [assumption |]. rewrite E. cbn. now rewrite IH.
Qed.

Lemma lte_is_due (now : datetime) (r : DjangoJob.t) :
  filters_match [next_run_time__lte now] r = is_due now r.
Proof.
  unfold filters_match, is_due. cbn. destruct (DjangoJob.next_run_time r); [| reflexivity].
  apply andb_true_r.
Qed.

(** C6, as amended.  [get_due_jobs now] returns, without raising, the
    jobs of exactly the rows that are due at [now] and can be restored,
    each row once, in ascending order of [next_run_time]. *)
Theorem get_due_jobs_due_and_restorable
        (self : DjangoJobStore) (now : datetime) (w : World) :
  exists rows jobs w',
    get_due_jobs pickle_loads nulls_first self now w = (inr jobs, w') /\
    Forall2 (fun r job =>
               _reconstitute_job pickle_loads self (DjangoJob.job_state r) = inr job)
            rows jobs /\
    Permutation rows
                (filter (fun r => is_due now r && restorable pickle_loads self r)
                        (django_jobs w)) /\
    StronglySorted run_time_le rows.
Proof.
  exists (filter (restorable pickle_loads self) (scanned nulls_first [next_run_time__lte now] w)).
  eexists. eexists.
  unfold get_due_jobs, get_django_internal_datetime. rewrite _get_jobs_spec.
  split; [reflexivity |]. split; [apply restore_rows_restorable |].
  unfold scanned. rewrite (filter_ext _ _ (lte_is_due now)).
  rewrite filter_order_by, filter_andb. split.
  - symmetry. apply order_by_permutation.
  - apply ordered_run_time_le with (nulls_first := nulls_first). apply order_by_ordered.
Qed.

End DueJobs.

(** C6 fails when a due row does not load: "A", "X" and "C" are due at
    100, and the scan answers with the jobs "C" and "A". *)
Lemma get_due_jobs_leaves_out_corrupt_row :
  map DjangoJob.id (filter (is_due 100) (django_jobs world_ABCX)) = ["A"; "X"; "C"] /\
  exists jobs w',
    get_due_jobs demo_loads true demo_store 100 world_ABCX = (inr jobs, w') /\
    map Job.id jobs = ["C"; "A"] /\
    ~ In "X" (map Job.id jobs).
Proof.
  split; [reflexivity |]. eexists. eexists.
  split; [vm_compute; reflexivity |]. split; [reflexivity |].
  cbn. intros [H | [H | []]]; discriminate.
Qed.

(** ** Quarantine of rows that do not load *)

Lemma mem_string_In (s : string) (l : list string) :
  mem_string s l = true <-> In s l.
Proof.
  unfold mem_string. rewrite existsb_exists. split.
  - intros (x & Hx & Heq). apply String.eqb_eq in Heq. now subst.
  - intros H. exists s. split; [assumption | apply String.eqb_refl].
Qed.

Lemma set_add_keeps (s x : string) (acc : list string) :
  In x acc -> In x (set_add s acc).
Proof.
  unfold set_add. destruct (mem_string s acc); [auto |].
  intros H. apply in_app_iff. now left.
Qed.

Lemma set_add_In (s : string) (acc : list string) : In s (set_add s acc).
Proof.
  unfold set_add. destruct (mem_string s acc) eqn:E.
  - now apply mem_string_In.
  - apply in_app_iff. right. now left.
Qed.

Lemma same_id_same_row (rows : list DjangoJob.t) (a b : DjangoJob.t) :
  NoDup (map DjangoJob.id rows) ->
  In a rows -> In b rows -> DjangoJob.id a = DjangoJob.id b -> a = b.
Proof.
  induction rows as [| r rows IH]; cbn; intros Hnd Ha Hb Hid; [contradiction |].
  inversion Hnd as [| ? ? Hr Hnd']; subst.
  destruct Ha as [-> | Ha], Hb as [-> | Hb]; auto.
  - exfalso. apply Hr. rewrite Hid. now apply in_map.
  - exfalso. apply Hr. rewrite <- Hid. now apply in_map.
Qed.

Lemma set_add_inv (s x : string) (acc : list string) :
  In x (set_add s acc) -> x = s \/ In x acc.
Proof.
  unfold set_add. destruct (mem_string s acc); [auto |].
  rewrite in_app_iff. cbn. intuition.
Qed.

Section Quarantine.

Variable pickle_loads : bytes -> PickleError + JobState.
Variable nulls_first : bool.

Lemma collected_ids_keep (l : list DjangoJob.t) :
  forall acc x,
    In x acc -> In x (fold_left (fun acc r => set_add (DjangoJob.id r) acc) l acc).
Proof.
  induction l as [| r l IH]; cbn; intros acc x Hx; [assumption |].
  apply IH. now apply set_add_keeps.
Qed.

Lemma failed_ids_In (self : DjangoJobStore) (rows : list DjangoJob.t) (row : DjangoJob.t) :
  forall acc,
    In row rows -> restorable pickle_loads self row = false ->
    In (DjangoJob.id row) (failed_ids pickle_loads self rows acc).
Proof.
  intros acc Hin Hbad.
  assert (Hrow : In row (filter (fun r => negb (restorable pickle_loads self r)) rows)).
  { apply filter_In. split; [assumption | now rewrite Hbad]. }
  unfold failed_ids. revert acc.
  induction (filter (fun r => negb (restorable pickle_loads self r)) rows) as [| r bad IH];
    cbn; intros acc; [contradiction |].
  destruct Hrow as [-> | Hrow].
  - apply collected_ids_keep. apply set_add_In.
  - now apply IH.
Qed.

Lemma failed_ids_inv (self : DjangoJobStore) (rows : list DjangoJob.t) (x : string) :
  forall acc,
    In x (failed_ids pickle_loads self rows acc) ->
    In x acc \/
    exists r, In r rows /\ restorable pickle_loads self r = false /\ DjangoJob.id r = x.
Proof.
  unfold failed_ids.
  assert (Hbad : forall r, In r (filter (fun r => negb (restorable pickle_loads self r)) rows) ->
                           In r rows /\ restorable pickle_loads self r = false).
  { intros r Hr. apply filter_In in Hr. destruct Hr as [Hr Hb].
    split; [assumption | now apply negb_true_iff]. }
  induction (filter (fun r => negb (restorable pickle_loads self r)) rows) as [| b bad IH];
    cbn; intros acc Hx; [now left |].
  destruct (IH (fun r Hr => Hbad r (or_intror Hr)) _ Hx) as [Hacc | Hex]; [| now right].
  apply set_add_inv in Hacc. destruct Hacc as [-> | Hacc]; [| now left].
  right. exists b. destruct (Hbad b (or_introl eq_refl)). auto.
Qed.

Lemma scanned_In (filters : list Lookup) (w : World) (r : DjangoJob.t) :
  In r (scanned nulls_first filters w) <->
  In r (django_jobs w) /\ filters_match filters r = true.
Proof.
  unfold scanned. rewrite <- filter_In. split; intros H.
  - eapply Permutation_in; [symmetry; apply order_by_permutation | exact H].
  - eapply Permutation_in; [apply order_by_permutation | exact H].
Qed.

Lemma lookup_job_missing (self : DjangoJobStore) (job_id : string) (w : World) :
  jobs_with_id job_id w = [] ->
  lookup_job pickle_loads self job_id w = (inr None, w).
Proof.
  intros H. unfold lookup_job. run_monad.
  rewrite (DjangoJob_objects_get_missing _ _ H). reflexivity.
Qed.

Lemma no_row_with_id (job_id : string) (w : World) :
  (forall r, In r (django_jobs w) -> DjangoJob.id r <> job_id) ->
  jobs_with_id job_id w = [].
Proof.
  intros H. unfold jobs_with_id.
  destruct (filter _ (django_jobs w)) as [| r rest] eqn:E; [reflexivity | exfalso].
  assert (Hin : In r (r :: rest)) by now left.
  rewrite <- E in Hin. apply filter_In in Hin. destruct Hin as [Hin Heq].
  apply String.eqb_eq in Heq. now apply (H r).
Qed.

(** The scan of [_get_jobs], for a row its filters select. *)
Lemma _get_jobs_quarantines
      (self : DjangoJobStore) (filters : list Lookup) (w : World)
      (pre : list DjangoJob.t) (row : DjangoJob.t) (post : list DjangoJob.t) :
  django_jobs w = pre ++ row :: post ->
  filters_match filters row = true ->
  restorable pickle_loads self row = false ->
  quarantines pickle_loads self (_get_jobs pickle_loads nulls_first self filters) w
              pre row post.
Proof.
  intros Hw Hsel Hbad. unfold quarantines.
  rewrite !_get_jobs_spec. eexists. eexists. split; [reflexivity |].
  assert (Hscanned : In row (scanned nulls_first filters w)).
  { unfold scanned. eapply Permutation_in; [apply order_by_permutation |].
    apply filter_In. split; [| assumption]. rewrite Hw. apply in_elt. }
  pose proof (failed_ids_In self _ row [] Hscanned Hbad) as Hfailed.
  split; [| unfold after_scan;
            destruct (failed_ids pickle_loads self (scanned nulls_first filters w) [])
              as [| i ids] eqn:Efail; [contradiction |]; cbn [log django_jobs]].
  - eexists. f_equal. f_equal.
    rewrite <- (restore_rows_filter pickle_loads self (scanned nulls_first filters w)).
    rewrite <- (restore_rows_filter pickle_loads self
                  (scanned nulls_first filters (with_jobs (pre ++ post) w))).
    unfold scanned. rewrite !filter_order_by, !filter_andb. cbn [django_jobs with_jobs].
    rewrite Hw, !filter_app. cbn [filter]. now rewrite Hsel, Hbad.
  - assert (Hgone : forall r,
               In r (filter (fun r => negb (mem_string (DjangoJob.id r) (i :: ids)))
                            (django_jobs w)) ->
               DjangoJob.id r <> DjangoJob.id row).
    { intros r Hr Heq. apply filter_In in Hr. destruct Hr as [_ Hr].
      rewrite Heq in Hr. apply mem_string_In in Hfailed. now rewrite Hfailed in Hr. }
    split; [| split; [exact Hgone |]].
    + rewrite !in_app_iff. right. left. apply in_map. apply filter_In.
      split; [assumption | now rewrite Hbad].
    + apply lookup_job_missing. apply no_row_with_id. exact Hgone.
Qed.

End Quarantine.

Lemma string_length_append (a b : string) :
  String.length (a ++ b)%string = (String.length a + String.length b)%nat.
Proof. induction a as [| c a IH]; cbn; [reflexivity | now rewrite IH]. Qed.

Lemma string_append_cancel_r (t a b : string) :
  (a ++ t = b ++ t)%string -> a = b.
Proof.
  revert b. induction a as [| c a IH]; intros [| d b] H; cbn in H.
  - reflexivity.
  - exfalso. apply (f_equal String.length) in H. cbn in H.
    rewrite string_length_append in H. lia.
  - exfalso. apply (f_equal String.length) in H. cbn in H.
    rewrite string_length_append in H. lia.
  - injection H as -> H. f_equal. now apply IH.
Qed.

(** The failure a scan logs names the row's id. *)
Lemma restore_failure_names_id (r r' : DjangoJob.t) :
  restore_failure r = restore_failure r' -> DjangoJob.id r = DjangoJob.id r'.
Proof.
  unfold restore_failure. intros H. injection H as H.
  now apply string_append_cancel_r in H.
Qed.

Lemma _reconstitute_job_raises
      (pickle_loads : bytes -> PickleError + JobState)
      (self : DjangoJobStore) (blob : bytes) (e : Exn) :
  _reconstitute_job pickle_loads self blob = inl e ->
  (exists p, e = PickleException p) \/ (exists msg, e = ValueError msg).
Proof.
  unfold _reconstitute_job, Job.__setstate__.
  destruct (pickle_loads blob) as [p | state].
  - intros H. injection H as <-. left. now exists p.
  - destruct (1 <? st_version state); intros H; [| discriminate].
    injection H as <-. right. eexists. reflexivity.
Qed.

Lemma lookup_job_same_rows
      (pickle_loads : bytes -> PickleError + JobState)
      (self : DjangoJobStore) (job_id : string) (w1 w2 : World) :
  jobs_with_id job_id w1 = jobs_with_id job_id w2 ->
  fst (lookup_job pickle_loads self job_id w1) = fst (lookup_job pickle_loads self job_id w2).
Proof.
  unfold jobs_with_id, lookup_job, DjangoJob_objects_get. run_monad. intros ->.
  destruct (filter _ (django_jobs w2)) as [| row [| row' rest]]; cbn; try reflexivity.
  destruct (bytes_truthy (DjangoJob.job_state row)); [| reflexivity].
  destruct (_reconstitute_job pickle_loads self (DjangoJob.job_state row)) as [e | job] eqn:E;
    [| reflexivity].
  destruct (_reconstitute_job_raises _ _ _ _ E) as [[p ->] | [msg ->]]; reflexivity.
Qed.

Section NotDue.

Variable pickle_loads : bytes -> PickleError + JobState.
Variable nulls_first : bool.

(** A scan leaves alone the rows its filters do not select, when ids are
    unique. *)
Lemma _get_jobs_leaves_unselected
      (self : DjangoJobStore) (filters : list Lookup) (w : World) (row : DjangoJob.t) :
  primary_key_unique w ->
  In row (django_jobs w) ->
  filters_match filters row = false ->
  exists jobs w' entries,
    _get_jobs pickle_loads nulls_first self filters w = (inr jobs, w') /\
    In row (django_jobs w') /\
    log w' = log w ++ entries /\
    ~ In (restore_failure row) entries /\
    fst (lookup_job pickle_loads self (DjangoJob.id row) w')
    = fst (lookup_job pickle_loads self (DjangoJob.id row) w).
Proof.
  intros Hpk Hrow Hsel. rewrite _get_jobs_spec.
  set (rows := scanned nulls_first filters w).
  assert (Hother : forall r, In r rows -> DjangoJob.id r <> DjangoJob.id row).
  { intros r Hr Hid. apply scanned_In in Hr. destruct Hr as [Hr Hmatch].
    rewrite (same_id_same_row _ r row Hpk Hr Hrow Hid) in Hmatch. congruence. }
  assert (Hfailed : ~ In (DjangoJob.id row) (failed_ids pickle_loads self rows [])).
  { intros Hin. apply failed_ids_inv in Hin. destruct Hin as [[] | (r & Hr & _ & Hid)].
    now apply (Hother r). }
  assert (Hnolog : ~ In (restore_failure row)
                        (map restore_failure
                             (filter (fun r => negb (restorable pickle_loads self r)) rows))).
  { intros Hin. apply in_map_iff in Hin. destruct Hin as (r & Hmsg & Hr).
    apply filter_In in Hr. destruct Hr as [Hr _].
    apply restore_failure_names_id in Hmsg. now apply (Hother r). }
  unfold after_scan. fold rows.
  destruct (failed_ids pickle_loads self rows []) as [| i ids] eqn:Efail.
  - exists (restore_rows pickle_loads self rows), w, [].
    rewrite app_nil_r. repeat split; auto.
  - eexists. eexists. eexists. split; [reflexivity |]. cbn [django_jobs log].
    assert (Hkept : mem_string (DjangoJob.id row) (i :: ids) = false).
    { apply not_true_is_false. intros H. now apply mem_string_In in H. }
    split; [| split; [reflexivity | split]].
    + apply filter_In. split; [assumption | now rewrite Hkept].
    + rewrite in_app_iff. intros [Hin | [Hin | []]]; [now apply Hnolog | discriminate Hin].
    + apply lookup_job_same_rows. unfold jobs_with_id. cbn [django_jobs].
      rewrite filter_andb. apply filter_ext. intros r.
      destruct (String.eqb_spec (DjangoJob.id r) (DjangoJob.id row)) as [-> | _];
        [now rewrite Hkept | apply andb_false_r].
Qed.

End NotDue.

(** C3, as amended.  A stored row whose blob fails to decode is
    quarantined by every [get_all_jobs] scan, and by a [get_due_jobs now]
    scan when the row is due at [now]: the scan returns normally with the
    jobs it would return were the row absent, logs the failure with the
    row's id, deletes the row, and [lookup_job] of that id then finds
    nothing.  In a table with unique ids, a [get_due_jobs now] scan
    leaves such a row alone when it is paused or due after [now]: the row
    is still in the table after the scan, no failure is logged for it,
    and [lookup_job] of its id answers as it did before the scan. *)
Theorem decode_failure_is_quarantined
        (pickle_loads : bytes -> PickleError + JobState) (nulls_first : bool)
        (self : DjangoJobStore) (w : World)
        (pre : list DjangoJob.t) (row : DjangoJob.t) (post : list DjangoJob.t) (e : Exn)
        (Hstored : django_jobs w = pre ++ row :: post)
        (Hfail : _reconstitute_job pickle_loads self (DjangoJob.job_state row) = inl e) :
  quarantines pickle_loads self (get_all_jobs pickle_loads nulls_first self) w pre row post /\
  (forall now,
      is_due now row = true ->
      quarantines pickle_loads self (get_due_jobs pickle_loads nulls_first self now) w
                  pre row post) /\
  (primary_key_unique w ->
   forall now,
     is_due now row = false ->
     exists jobs w' entries,
       get_due_jobs pickle_loads nulls_first self now w = (inr jobs, w') /\
       In row (django_jobs w') /\
       log w' = log w ++ entries /\
       ~ In (restore_failure row) entries /\
       fst (lookup_job pickle_loads self (DjangoJob.id row) w')
       = fst (lookup_job pickle_loads self (DjangoJob.id row) w)).
Proof.
  assert (Hbad : restorable pickle_loads self row = false)
    by (unfold restorable; now rewrite Hfail).
  split; [| split].
  - destruct (_get_jobs_quarantines pickle_loads nulls_first self [] w pre row post
                                    Hstored eq_refl Hbad)
      as (jobs & w' & Hrun & (w0' & Hrun0) & Hlog & Hgone & Hlookup).
    exists (_fix_paused_jobs_sorting jobs), w'.
    unfold get_all_jobs, bind, ret. rewrite Hrun, Hrun0. repeat split; eauto.
  - intros now Hdue. unfold get_due_jobs, get_django_internal_datetime.
    apply _get_jobs_quarantines; try assumption.
    now rewrite lte_is_due.
  - intros Hpk now Hdue. unfold get_due_jobs, get_django_internal_datetime.
    apply _get_jobs_leaves_unselected; try assumption.
    + rewrite Hstored. apply in_elt.
    + now rewrite lte_is_due.
Qed.

Lemma decode_failure_is_quarantined_witness :
  django_jobs world_ABCX = [row_of job_A "INTERVAL"; row_of job_B "CRON"] ++ row_X :: [row_of job_C "DATE"] /\
  _reconstitute_job demo_loads demo_store (DjangoJob.job_state row_X)
  = inl (PickleException UnpicklingError) /\
  is_due 100 row_X = true /\
  quarantines demo_loads demo_store (get_all_jobs demo_loads true demo_store) world_ABCX
              [row_of job_A "INTERVAL"; row_of job_B "CRON"] row_X [row_of job_C "DATE"] /\
  quarantines demo_loads demo_store (get_due_jobs demo_loads true demo_store 100) world_ABCX
              [row_of job_A "INTERVAL"; row_of job_B "CRON"] row_X [row_of job_C "DATE"] /\
  primary_key_unique world_AXP /\
  django_jobs world_AXP = [row_of job_A "INTERVAL"; row_X] ++ row_P :: [] /\
  is_due 100 row_P = false /\
  exists jobs w' entries,
    get_due_jobs demo_loads true demo_store 100 world_AXP = (inr jobs, w') /\
    In row_P (django_jobs w') /\
    log w' = log world_AXP ++ entries /\
    ~ In (restore_failure row_P) entries /\
    fst (lookup_job demo_loads demo_store "P" w')
    = fst (lookup_job demo_loads demo_store "P" world_AXP).
Proof.
  pose proof (decode_failure_is_quarantined
                demo_loads true demo_store world_ABCX
                [row_of job_A "INTERVAL"; row_of job_B "CRON"] row_X [row_of job_C "DATE"]
                (PickleException UnpicklingError) eq_refl eq_refl) as (Hall & Hdue & _).
  assert (Hpk : primary_key_unique world_AXP).
  { unfold primary_key_unique. cbn. repeat constructor; cbn; intuition discriminate. }
  pose proof (decode_failure_is_quarantined
                demo_loads true demo_store world_AXP
                [row_of job_A "INTERVAL"; row_X] row_P []
                (PickleException UnpicklingError) eq_refl eq_refl) as (_ & _ & Hleft).
  split; [reflexivity |]. split; [reflexivity |]. split; [reflexivity |].
  split; [exact Hall |]. split; [exact (Hdue 100 eq_refl) |].
  split; [exact Hpk |]. split; [reflexivity |]. split; [reflexivity |].
  exact (Hleft Hpk 100 eq_refl).
Defined.

(** The scan that leaves "P" alone deletes the due row "X" beside it. *)
Example get_due_jobs_deletes_X_keeps_P :
  exists jobs w',
    get_due_jobs demo_loads true demo_store 100 world_AXP = (inr jobs, w') /\
    map Job.id jobs = ["A"] /\
    django_jobs w' = [row_of job_A "INTERVAL"; row_P] /\
    log w' = [mkLog ERROR "Unable to restore job 'X'. Removing it...";
              mkLog WARNING "Removing failed jobs: {'X'}"].
Proof. eexists. eexists. split; [vm_compute; reflexivity | repeat split]. Qed.

(** The scan of the demo table, computed. *)
Example get_all_jobs_demo :
  exists jobs w',
    get_all_jobs demo_loads true demo_store world_ABCX = (inr jobs, w') /\
    map Job.id jobs = ["C"; "A"; "B"] /\
    map DjangoJob.id (django_jobs w') = ["A"; "B"; "C"] /\
    log w' = [mkLog ERROR "Unable to restore job 'X'. Removing it...";
              mkLog WARNING "Removing failed jobs: {'X'}"] /\
    lookup_job demo_loads demo_store "X" w' = (inr None, w').
Proof.
  eexists. eexists. split; [vm_compute; reflexivity |].
  repeat split.
Qed.

(** C3 fails for a row that is not due: "X" is due at 70 and does not
    load; [get_due_jobs 60] does not select it, so the scan logs nothing
    and leaves the table as it was, and [lookup_job "X"] raises. *)
Lemma get_due_jobs_keeps_corrupt_row_not_due :
  In row_X (django_jobs world_ABCX) /\
  _reconstitute_job demo_loads demo_store (DjangoJob.job_state row_X)
  = inl (PickleException UnpicklingError) /\
  exists jobs,
    get_due_jobs demo_loads true demo_store 60 world_ABCX = (inr jobs, world_ABCX) /\
    map Job.id jobs = ["C"] /\
    lookup_job demo_loads demo_store "X" world_ABCX
    = (inl (PickleException UnpicklingError), world_ABCX).
Proof.
  split; [cbn; tauto |]. split; [reflexivity |].
  eexists. split; [vm_compute; reflexivity |]. split; reflexivity.
Qed.

(** ** Paused jobs go last *)

Lemma insert_paused_first (r : DjangoJob.t) (rows : list DjangoJob.t) :
  is_scheduled r = false ->
  insert_ordered true r rows = r :: rows.
Proof.
  unfold is_scheduled. intros Hr.
  destruct (DjangoJob.next_run_time r) eqn:E; [discriminate |].
  destruct rows as [| r' rows]; cbn; [reflexivity |]. rewrite E. cbn.
  destruct (DjangoJob.next_run_time r'); reflexivity.
Qed.

Lemma insert_scheduled_after_paused (r : DjangoJob.t) (paused rows : list DjangoJob.t) :
  is_scheduled r = true ->
  Forall (fun p => is_scheduled p = false) paused ->
  insert_ordered true r (paused ++ rows) = paused ++ insert_ordered true r rows.
Proof.
  unfold is_scheduled. intros Hr Hp.
  destruct (DjangoJob.next_run_time r) eqn:E; [| discriminate].
  induction Hp as [| p paused Hnull _ IH]; cbn; [reflexivity |].
  rewrite E. destruct (DjangoJob.next_run_time p); [discriminate |]. cbn.
  now rewrite IH.
Qed.

Lemma insert_paused_after_scheduled (r : DjangoJob.t) (sched paused : list DjangoJob.t) :
  is_scheduled r = false ->
  Forall (fun s => is_scheduled s = true) sched ->
  Forall (fun p => is_scheduled p = false) paused ->
  insert_ordered false r (sched ++ paused) = sched ++ r :: paused.
Proof.
  unfold is_scheduled. intros Hr Hs Hp.
  destruct (DjangoJob.next_run_time r) eqn:E; [discriminate |].
  induction Hs as [| s sched Hsome _ IH]; cbn.
  - destruct Hp as [| p paused Hnull _]; cbn; [reflexivity |]. rewrite E.
    destruct (DjangoJob.next_run_time p); [discriminate | reflexivity].
  - rewrite E. destruct (DjangoJob.next_run_time s); [| discriminate]. cbn.
    now rewrite IH.
Qed.

Lemma insert_scheduled_before_paused (r : DjangoJob.t) (sched paused : list DjangoJob.t) :
  is_scheduled r = true ->
  Forall (fun p => is_scheduled p = false) paused ->
  insert_ordered false r (sched ++ paused) = insert_ordered false r sched ++ paused.
Proof.
  unfold is_scheduled. intros Hr Hp.
  destruct (DjangoJob.next_run_time r) eqn:E; [| discriminate].
  induction sched as [| s sched IH]; cbn.
  - destruct Hp as [| p paused Hnull _]; cbn; [reflexivity |]. rewrite E.
    destruct (DjangoJob.next_run_time p); [discriminate | reflexivity].
  - rewrite E. destruct (next_run_time_leb false (Some d) (DjangoJob.next_run_time s));
      cbn; [reflexivity | now rewrite IH].
Qed.

Lemma order_by_scheduled (nulls_first : bool) (rows : list DjangoJob.t) :
  Forall (fun s => is_scheduled s = true)
         (order_by_next_run_time nulls_first (filter is_scheduled rows)).
Proof.
  eapply Permutation_Forall; [apply order_by_permutation |].
  apply Forall_forall. intros r Hr. apply filter_In in Hr. tauto.
Qed.

Lemma filter_paused (rows : list DjangoJob.t) :
  Forall (fun p => is_scheduled p = false) (filter (fun r => negb (is_scheduled r)) rows).
Proof.
  apply Forall_forall. intros r Hr. apply filter_In in Hr.
  destruct Hr as [_ Hr]. now apply negb_true_iff.
Qed.

(** The model's ordering puts the paused rows, in table order, on the side
    where the backend sorts NULL, and the scheduled rows in ascending
    order on the other. *)
Lemma order_by_split (nulls_first : bool) (rows : list DjangoJob.t) :
  order_by_next_run_time nulls_first rows =
  if nulls_first
  then filter (fun r => negb (is_scheduled r)) rows
              ++ order_by_next_run_time nulls_first (filter is_scheduled rows)
  else order_by_next_run_time nulls_first (filter is_scheduled rows)
              ++ filter (fun r => negb (is_scheduled r)) rows.
Proof.
  unfold order_by_next_run_time.
  induction rows as [| r rows IH].
  - destruct nulls_first; reflexivity.
  - cbn [fold_right filter]. rewrite IH.
    pose proof (filter_paused rows) as Hp.
    pose proof (order_by_scheduled nulls_first rows) as Hs.
    unfold order_by_next_run_time in Hs.
    destruct nulls_first; destruct (is_scheduled r) eqn:Er; cbn [negb fold_right].
    + now apply insert_scheduled_after_paused.
    + now apply insert_paused_first.
    + now apply insert_scheduled_before_paused.
    + now apply insert_paused_after_scheduled.
Qed.

Lemma first_scheduled_after_paused (paused rest : list Job.t) :
  Forall (fun j => Job.next_run_time j = None) paused ->
  first_scheduled (paused ++ rest)
  = option_map (Nat.add (List.length paused)) (first_scheduled rest).
Proof.
  induction 1 as [| j paused Hj _ IH]; cbn.
  - destruct (first_scheduled rest); reflexivity.
  - rewrite Hj, IH. destruct (first_scheduled rest); reflexivity.
Qed.

Lemma first_scheduled_all_paused (paused : list Job.t) :
  Forall (fun j => Job.next_run_time j = None) paused ->
  first_scheduled paused = None.
Proof.
  intros H. rewrite <- (app_nil_r paused).
  now rewrite first_scheduled_after_paused.
Qed.

Lemma skipn_length_app {A} (l l' : list A) : skipn (List.length l) (l ++ l') = l'.
Proof. induction l; cbn; auto. Qed.

Lemma firstn_length_app {A} (l l' : list A) : firstn (List.length l) (l ++ l') = l.
Proof. induction l; cbn; [reflexivity | now f_equal]. Qed.

(** Paused jobs in front are moved behind the scheduled ones. *)
Lemma fix_paused_in_front (paused sched : list Job.t) :
  Forall (fun j => Job.next_run_time j = None) paused ->
  Forall (fun j => Job.next_run_time j <> None) sched ->
  _fix_paused_jobs_sorting (paused ++ sched) = sched ++ paused.
Proof.
  intros Hp Hs. unfold _fix_paused_jobs_sorting.
  rewrite (first_scheduled_after_paused _ _ Hp).
  destruct Hs as [| s sched Hsome _]; cbn.
  - now rewrite app_nil_r.
  - destruct (Job.next_run_time s); [| contradiction]. cbn.
    rewrite Nat.add_0_r.
    destruct paused as [| p paused]; cbn [List.length Nat.ltb Nat.leb].
    + cbn. now rewrite app_nil_r.
    + change (S (List.length paused)) with (List.length (p :: paused)).
      now rewrite skipn_length_app, firstn_length_app.
Qed.

(** Jobs that are already in place are left alone. *)
Lemma fix_paused_behind (sched paused : list Job.t) :
  Forall (fun j => Job.next_run_time j <> None) sched ->
  Forall (fun j => Job.next_run_time j = None) paused ->
  _fix_paused_jobs_sorting (sched ++ paused) = sched ++ paused.
Proof.
  intros Hs Hp. unfold _fix_paused_jobs_sorting.
  destruct Hs as [| s sched Hsome _]; cbn.
  - now rewrite (first_scheduled_all_paused _ Hp).
  - destruct (Job.next_run_time s); [reflexivity | contradiction].
Qed.

Lemma filter_partition_permutation {A} (p : A -> bool) (l : list A) :
  Permutation (filter p l ++ filter (fun a => negb (p a)) l) l.
Proof.
  induction l as [| a l IH]; cbn; [constructor |].
  destruct (p a); cbn.
  - now constructor.
  - rewrite <- Permutation_middle. now constructor.
Qed.

Lemma filter_all {A} (p : A -> bool) (l : list A) :
  (forall a, p a = true) -> filter p l = l.
Proof.
  intros H. induction l as [| a l IH]; cbn; [reflexivity |]. now rewrite H, IH.
Qed.

Section AllJobs.

Variable pickle_loads : bytes -> PickleError + JobState.
Variable nulls_first : bool.

Lemma restore_rows_app (self : DjangoJobStore) (a b : list DjangoJob.t) :
  restore_rows pickle_loads self (a ++ b)
  = restore_rows pickle_loads self a ++ restore_rows pickle_loads self b.
Proof. unfold restore_rows. apply flat_map_app. Qed.

Lemma restore_rows_all (self : DjangoJobStore) (rows : list DjangoJob.t) :
  Forall (fun r => restorable pickle_loads self r = true) rows ->
  Forall2 (fun r job => _reconstitute_job pickle_loads self (DjangoJob.job_state r) = inr job)
          rows (restore_rows pickle_loads self rows).
Proof.
  unfold restore_rows, restorable.
  induction 1 as [| r rows Hr _ IH]; cbn; [constructor |].
  destruct (_reconstitute_job pickle_loads self (DjangoJob.job_state r)) eqn:E;
    [discriminate |]. cbn. now constructor.
Qed.

(** The jobs restored from rows follow the rows on being paused. *)
Lemma restored_jobs_paused (self : DjangoJobStore) (rows : list DjangoJob.t) (b : bool) :
  (forall r job,
      In r rows ->
      _reconstitute_job pickle_loads self (DjangoJob.job_state r) = inr job ->
      (Job.next_run_time job = None <-> DjangoJob.next_run_time r = None)) ->
  Forall (fun r => is_scheduled r = b) rows ->
  Forall (fun job => if b then Job.next_run_time job <> None
                     else Job.next_run_time job = None)
         (restore_rows pickle_loads self rows).
Proof.
  unfold restore_rows, is_scheduled. intros Hagree Hrows.
  induction Hrows as [| r rows Hr _ IH]; cbn; [constructor |].
  assert (IH' := IH (fun r' job Hin => Hagree r' job (or_intror Hin))).
  destruct (_reconstitute_job pickle_loads self (DjangoJob.job_state r)) as [e | job] eqn:E;
    cbn; [assumption |].
  constructor; [| assumption].
  pose proof (Hagree r job (or_introl eq_refl) E) as Hiff.
  destruct (DjangoJob.next_run_time r); subst b.
  - intros Hnone. apply Hiff in Hnone. discriminate.
  - now apply Hiff.
Qed.

(** C8, as amended.  On a table whose columns and blobs agree on which
    jobs are paused, [get_all_jobs] returns without raising the jobs of
    all rows that can be restored, each row once: first those of the
    scheduled rows in ascending order of [next_run_time], then those of
    the paused rows; wherever the backend sorts NULL. *)
Theorem get_all_jobs_paused_last
        (self : DjangoJobStore) (w : World)
        (Hagree : paused_agrees pickle_loads self w) :
  exists scheduled paused scheduled_jobs paused_jobs w',
    get_all_jobs pickle_loads nulls_first self w = (inr (scheduled_jobs ++ paused_jobs), w') /\
    Forall2 (fun r job =>
               _reconstitute_job pickle_loads self (DjangoJob.job_state r) = inr job)
            (scheduled ++ paused) (scheduled_jobs ++ paused_jobs) /\
    Permutation (scheduled ++ paused)
                (filter (restorable pickle_loads self) (django_jobs w)) /\
    StronglySorted run_time_le scheduled /\
    Forall (fun r => is_scheduled r = true) scheduled /\
    Forall (fun r => is_scheduled r = false) paused /\
    Forall (fun job => Job.next_run_time job <> None) scheduled_jobs /\
    Forall (fun job => Job.next_run_time job = None) paused_jobs.
Proof.
  set (good := filter (restorable pickle_loads self) (django_jobs w)).
  set (scheduled := order_by_next_run_time nulls_first (filter is_scheduled good)).
  set (paused := filter (fun r => negb (is_scheduled r)) good).
  assert (Hgood : forall r, In r good ->
                    In r (django_jobs w) /\ restorable pickle_loads self r = true)
    by (intros r Hr; now apply filter_In in Hr).
  assert (Hs_in : forall r, In r scheduled -> In r good).
  { intros r Hr. eapply Permutation_in in Hr; [| symmetry; apply order_by_permutation].
    apply filter_In in Hr. tauto. }
  assert (Hp_in : forall r, In r paused -> In r good)
    by (intros r Hr; apply filter_In in Hr; tauto).
  assert (Hs : Forall (fun r => is_scheduled r = true) scheduled)
    by apply order_by_scheduled.
  assert (Hp : Forall (fun r => is_scheduled r = false) paused)
    by apply filter_paused.
  assert (Hsj : Forall (fun job => Job.next_run_time job <> None)
                       (restore_rows pickle_loads self scheduled)).
  { apply (restored_jobs_paused self scheduled true); [| assumption].
    intros r job Hr. apply Hagree. now apply Hgood, Hs_in. }
  assert (Hpj : Forall (fun job => Job.next_run_time job = None)
                       (restore_rows pickle_loads self paused)).
  { apply (restored_jobs_paused self paused false); [| assumption].
    intros r job Hr. apply Hagree. now apply Hgood, Hp_in. }
  exists scheduled, paused, (restore_rows pickle_loads self scheduled),
    (restore_rows pickle_loads self paused).
  eexists. split; [| repeat split; try assumption].
  - unfold get_all_jobs, bind, ret. rewrite _get_jobs_spec. f_equal. f_equal.
    rewrite <- restore_rows_filter. unfold scanned.
    rewrite filter_order_by, (filter_all (filters_match [])) by reflexivity.
    fold good. rewrite order_by_split. fold scheduled paused.
    destruct nulls_first; rewrite restore_rows_app.
    + now apply fix_paused_in_front.
    + now apply fix_paused_behind.
  - rewrite <- restore_rows_app. apply restore_rows_all.
    apply Forall_forall. intros r Hr. apply Hgood.
    apply in_app_iff in Hr. destruct Hr; auto.
  - unfold scheduled, paused.
    rewrite <- (order_by_permutation nulls_first (filter is_scheduled good)).
    apply filter_partition_permutation.
  - apply ordered_run_time_le with (nulls_first := nulls_first). apply order_by_ordered.
Qed.

End AllJobs.

Lemma get_all_jobs_paused_last_witness :
  paused_agrees demo_loads demo_store world_ABC /\
  exists scheduled_jobs paused_jobs w',
    get_all_jobs demo_loads true demo_store world_ABC
    = (inr (scheduled_jobs ++ paused_jobs), w') /\
    Forall (fun job => Job.next_run_time job <> None) scheduled_jobs /\
    Forall (fun job => Job.next_run_time job = None) paused_jobs.
Proof.
  assert (Hagree : paused_agrees demo_loads demo_store world_ABC).
  { intros r job Hin Hjob. cbn in Hin.
    destruct Hin as [<- | [<- | [<- | []]]]; vm_compute in Hjob;
      injection Hjob as <-; cbn; split; congruence. }
  split; [exact Hagree |].
  destruct (get_all_jobs_paused_last demo_loads true demo_store world_ABC Hagree)
    as (scheduled & paused & sj & pj & w' & Hrun & _ & _ & _ & _ & _ & Hsj & Hpj).
  exists sj, pj, w'. auto.
Defined.

Example get_all_jobs_three_jobs :
  exists jobs w',
    get_all_jobs demo_loads true demo_store world_ABC = (inr jobs, w') /\
    map Job.id jobs = ["C"; "A"; "B"] /\
    get_all_jobs demo_loads false demo_store world_ABC = (inr jobs, w').
Proof. eexists. eexists. split; [vm_compute; reflexivity | split; reflexivity]. Qed.

(** C8 fails when a row does not load: the table holds "A", "B", "X" and
    "C", and the scan returns the jobs "C", "A" and "B". *)
Lemma get_all_jobs_leaves_out_corrupt_row :
  map DjangoJob.id (django_jobs world_ABCX) = ["A"; "B"; "X"; "C"] /\
  exists jobs w',
    get_all_jobs demo_loads true demo_store world_ABCX = (inr jobs, w') /\
    map Job.id jobs = ["C"; "A"; "B"] /\
    ~ In "X" (map Job.id jobs).
Proof.
  split; [reflexivity |]. eexists. eexists.
  split; [vm_compute; reflexivity |]. split; [reflexivity |].
  cbn. intros [H | [H | [H | []]]]; discriminate.
Qed.

(** Why the columns have to agree with the blobs: the paused job "B" is
    returned in front of the scheduled job "C" when they do not. *)
Example get_all_jobs_columns_disagree :
  exists jobs w',
    get_all_jobs demo_loads true demo_store world_disagreeing = (inr jobs, w') /\
    map Job.next_run_time jobs = [Some 100; None; Some 50].
Proof. eexists. eexists. split; [vm_compute; reflexivity | reflexivity]. Qed.

(** ** Looking a job up *)

Lemma unique_row_with_id (rows : list DjangoJob.t) (row : DjangoJob.t) :
  NoDup (map DjangoJob.id rows) -> In row rows ->
  filter (fun r => String.eqb (DjangoJob.id r) (DjangoJob.id row)) rows = [row].
Proof.
  induction rows as [| r rows IH]; cbn; intros Hnd Hin; [contradiction |].
  inversion Hnd as [| ? ? Hr Hnd']; subst.
  destruct Hin as [-> | Hin].
  - rewrite String.eqb_refl. f_equal.
    destruct (filter _ rows) as [| r' rest] eqn:E; [reflexivity | exfalso].
    assert (Hin : In r' (r' :: rest)) by now left.
    rewrite <- E in Hin. apply filter_In in Hin. destruct Hin as [Hin Heq].
    apply String.eqb_eq in Heq. apply Hr. rewrite <- Heq. now apply in_map.
  - destruct (String.eqb (DjangoJob.id r) (DjangoJob.id row)) eqn:E.
    + exfalso. apply String.eqb_eq in E. apply Hr. rewrite E. now apply in_map.
    + now apply IH.
Qed.

(** C10.  For a stored row whose blob is present and fails to decode,
    [lookup_job] hands the decoding exception to its caller and leaves the
    world as it was: the row stays, nothing is logged.  For a stored row
    whose blob is empty it returns [None] without decoding. *)
Theorem lookup_job_does_not_quarantine
        (pickle_loads : bytes -> PickleError + JobState)
        (self : DjangoJobStore) (w : World) (row : DjangoJob.t)
        (Hpk : primary_key_unique w) (Hstored : In row (django_jobs w)) :
  (forall e,
      DjangoJob.job_state row <> [] ->
      _reconstitute_job pickle_loads self (DjangoJob.job_state row) = inl e ->
      lookup_job pickle_loads self (DjangoJob.id row) w = (inl e, w)) /\
  (DjangoJob.job_state row = [] ->
   lookup_job pickle_loads self (DjangoJob.id row) w = (inr None, w)).
Proof.
  pose proof (unique_row_with_id _ _ Hpk Hstored) as Hone.
  fold (jobs_with_id (DjangoJob.id row) w) in Hone.
  split.
  - intros e Hpresent Hfail. unfold lookup_job. run_monad.
    rewrite (DjangoJob_objects_get_one _ _ _ Hone).
    destruct (DjangoJob.job_state row) as [| b blob] eqn:Eblob; [contradiction |].
    cbn [bytes_truthy]. rewrite Hfail.
    destruct (_reconstitute_job_raises _ _ _ _ Hfail) as [[p ->] | [msg ->]]; reflexivity.
  - intros Hempty. unfold lookup_job. run_monad.
    rewrite (DjangoJob_objects_get_one _ _ _ Hone), Hempty. reflexivity.
Qed.

Lemma lookup_job_does_not_quarantine_witness :
  primary_key_unique world_ABCX /\ In row_X (django_jobs world_ABCX) /\
  lookup_job demo_loads demo_store "X" world_ABCX
  = (inl (PickleException UnpicklingError), world_ABCX).
Proof.
  assert (Hpk : primary_key_unique world_ABCX).
  { unfold primary_key_unique. cbn.
    repeat constructor; cbn; intuition discriminate. }
  assert (Hin : In row_X (django_jobs world_ABCX)) by (cbn; tauto).
  split; [exact Hpk | split; [exact Hin |]].
  apply (proj1 (lookup_job_does_not_quarantine demo_loads demo_store world_ABCX row_X
                                               Hpk Hin)).
  - discriminate.
  - reflexivity.
Defined.

Example lookup_job_empty_blob :
  let w := mkWorld [DjangoJob.Build "E" (Some 5) [] "DATE"] [] 1 0 [] in
  lookup_job demo_loads demo_store "E" w = (inr None, w).
Proof. reflexivity. Qed.

(** ** Adding jobs *)

Section AddJob.

Variable pickle_dumps : JobState -> Z -> bytes.
Variable pickle_loads : bytes -> PickleError + JobState.

Lemma id_taken (job_id : string) (rows : list DjangoJob.t) :
  existsb (fun r => String.eqb (DjangoJob.id r) job_id) rows = true <->
  exists r, In r rows /\ DjangoJob.id r = job_id.
Proof.
  rewrite existsb_exists. split; intros (r & Hr & Heq); exists r; split; auto;
    now apply String.eqb_eq.
Qed.

(** C5.  When the table already has a row with the job's id, [add_job]
    raises [ConflictingIdError] for that id and the world is exactly
    what it was: the stored row is untouched and nothing was written. *)
Theorem add_job_conflicting_id
        (self : DjangoJobStore) (job : Job.t) (w : World)
        (Htaken : exists r, In r (django_jobs w) /\ DjangoJob.id r = Job.id job) :
  add_job pickle_dumps self job w = (inl (ConflictingIdError (Job.id job)), w).
Proof.
  apply id_taken in Htaken.
  unfold add_job, DjangoJob_objects_create. run_monad. cbn [DjangoJob.id].
  rewrite Htaken. cbn. destruct w; reflexivity.
Qed.

Lemma add_job_fresh (self : DjangoJobStore) (job : Job.t) (w : World) :
  (forall r, In r (django_jobs w) -> DjangoJob.id r <> Job.id job) ->
  add_job pickle_dumps self job w =
  (inr (row_for pickle_dumps self job),
   with_jobs (django_jobs w ++ [row_for pickle_dumps self job]) w).
Proof.
  intros Hfresh.
  assert (Hfree : existsb (fun r => String.eqb (DjangoJob.id r) (Job.id job))
                          (django_jobs w) = false).
  { apply not_true_is_false. intros H. apply id_taken in H.
    destruct H as (r & Hr & Heq). now apply (Hfresh r). }
  unfold add_job, DjangoJob_objects_create. run_monad. cbn [DjangoJob.id].
  rewrite Hfree. reflexivity.
Qed.

Lemma add_jobs_fresh (self : DjangoJobStore) (jobs : list Job.t) :
  forall w,
    NoDup (map Job.id jobs) ->
    (forall job r, In job jobs -> In r (django_jobs w) -> DjangoJob.id r <> Job.id job) ->
    add_jobs pickle_dumps self jobs w =
    (inr tt, with_jobs (django_jobs w ++ map (row_for pickle_dumps self) jobs) w).
Proof.
  induction jobs as [| job jobs IH]; intros w Hnd Hfresh.
  - cbn. unfold ret, with_jobs. rewrite app_nil_r. destruct w; reflexivity.
  - inversion Hnd as [| ? ? Hjob Hnd']; subst.
    cbn [add_jobs]. unfold bind.
    rewrite add_job_fresh by (intros r Hr; apply Hfresh; [now left | assumption]).
    rewrite IH; [| assumption |].
    + cbn. rewrite <- app_assoc. reflexivity.
    + intros job' r Hjob' Hr. cbn in Hr. apply in_app_iff in Hr.
      destruct Hr as [Hr | [<- | []]].
      * apply Hfresh; [now right | assumption].
      * cbn. intros Heq. apply Hjob. rewrite Heq. now apply in_map.
Qed.

(** C4.  Jobs with distinct ids, none of them in the table yet, are
    added one after the other; [pickle] gives each state back from its
    own bytes, which are not empty.  Then every [add_job] succeeds, and
    afterwards [lookup_job] of each id returns a job whose state is the
    state that was encoded for it. *)
Theorem add_job_lookup_job_round_trip
        (self : DjangoJobStore) (jobs : list Job.t) (w : World)
        (Hdistinct : NoDup (map Job.id jobs))
        (Hfresh : forall job r, In job jobs -> In r (django_jobs w) ->
                                DjangoJob.id r <> Job.id job)
        (Hpickle : forall job,
            In job jobs ->
            let blob := pickle_dumps (Job.__getstate__ job) (pickle_protocol self) in
            blob <> [] /\ pickle_loads blob = inr (Job.__getstate__ job)) :
  exists w',
    add_jobs pickle_dumps self jobs w = (inr tt, w') /\
    forall job,
      In job jobs ->
      exists job',
        lookup_job pickle_loads self (Job.id job) w' = (inr (Some job'), w') /\
        Job.__getstate__ job' = Job.__getstate__ job /\
        Job._scheduler job' = Some (_scheduler self) /\
        Job._jobstore_alias job' = Some (_alias self).
Proof.
  eexists. split; [now apply add_jobs_fresh |].
  intros job Hjob. destruct (Hpickle job Hjob) as [Hblob Hload]. cbv zeta in *.
  set (w' := with_jobs _ w).
  assert (Hone : jobs_with_id (Job.id job) w' = [row_for pickle_dumps self job]).
  { unfold jobs_with_id, w'. cbn [django_jobs with_jobs]. rewrite filter_app.
    replace (filter _ (django_jobs w)) with (@nil DjangoJob.t).
    - cbn [app].
      change (Job.id job) with (DjangoJob.id (row_for pickle_dumps self job)).
      apply unique_row_with_id; [| now apply in_map].
      rewrite map_map. cbn. exact Hdistinct.
    - symmetry. apply (no_row_with_id (Job.id job) w). intros r Hr.
      now apply Hfresh. }
  exists (Job.set_store (_scheduler self) (_alias self)
            (Job.Build (Job.id job) (Job.func_ref job) (Job.trigger job) (Job.executor job)
                       (Job.args job) (Job.kwargs job) (Job.name job)
                       (Job.misfire_grace_time job) (Job.coalesce job)
                       (Job.max_instances job) (Job.next_run_time job) None None)).
  split; [| repeat split].
  unfold lookup_job. run_monad. rewrite (DjangoJob_objects_get_one _ _ _ Hone).
  cbn [DjangoJob.job_state row_for].
  destruct (pickle_dumps (Job.__getstate__ job) (pickle_protocol self)) as [| b blob] eqn:E;
    [contradiction |].
  cbn [bytes_truthy]. unfold _reconstitute_job. rewrite Hload. reflexivity.
Qed.

End AddJob.

Lemma add_job_conflicting_id_witness :
  (exists r, In r (django_jobs world_A) /\ DjangoJob.id r = Job.id job_A) /\
  add_job demo_dumps demo_store job_A world_A = (inl (ConflictingIdError "A"), world_A).
Proof.
  assert (Htaken : exists r, In r (django_jobs world_A) /\ DjangoJob.id r = Job.id job_A).
  { exists (row_of job_A "INTERVAL"). split; [now left | reflexivity]. }
  split; [exact Htaken |].
  exact (add_job_conflicting_id demo_dumps demo_store job_A world_A Htaken).
Defined.

Lemma add_job_lookup_job_round_trip_witness :
  NoDup (map Job.id [job_A; job_B; job_C]) /\
  exists w',
    add_jobs demo_dumps demo_store [job_A; job_B; job_C] empty_world = (inr tt, w') /\
    exists job',
      lookup_job demo_loads demo_store "B" w' = (inr (Some job'), w') /\
      Job.__getstate__ job' = Job.__getstate__ job_B.
Proof.
  assert (Hdistinct : NoDup (map Job.id [job_A; job_B; job_C])).
  { cbn. repeat constructor; cbn; intuition discriminate. }
  assert (Hfresh : forall job r, In job [job_A; job_B; job_C] ->
                                 In r (django_jobs empty_world) ->
                                 DjangoJob.id r <> Job.id job)
    by (intros job r _ []).
  assert (Hpickle : forall job,
             In job [job_A; job_B; job_C] ->
             let blob := demo_dumps (Job.__getstate__ job) (pickle_protocol demo_store) in
             blob <> [] /\ demo_loads blob = inr (Job.__getstate__ job)).
  { intros job [<- | [<- | [<- | []]]]; (split; [discriminate | reflexivity]). }
  split; [exact Hdistinct |].
  destruct (add_job_lookup_job_round_trip demo_dumps demo_loads demo_store
              [job_A; job_B; job_C] empty_world Hdistinct Hfresh Hpickle)
    as (w' & Hrun & Hlookup).
  exists w'. split; [exact Hrun |].
  destruct (Hlookup job_B (or_intror (or_introl eq_refl))) as (job' & Hl & Hs & _).
  exists job'. split; assumption.
Defined.

(** ** Removing jobs *)

Lemma remove_job_keeps_executions (self : DjangoJobStore) (job_id : string) (w : World) :
  django_job_executions (snd (remove_job self job_id w)) = django_job_executions w.
Proof.
  unfold remove_job. run_monad.
  destruct (DjangoJob_objects_get_cases job_id w) as (r & -> & Hr).
  destruct r as [e | row]; [destruct Hr as [-> | ->] |]; reflexivity.
Qed.

Lemma remove_all_jobs_keeps_executions (self : DjangoJobStore) (w : World) :
  django_job_executions (snd (remove_all_jobs self w)) = django_job_executions w.
Proof. reflexivity. Qed.

Lemma remove_all_jobs_empties (self : DjangoJobStore) (w : World) :
  django_jobs (snd (remove_all_jobs self w)) = [].
Proof.
  unfold remove_all_jobs, DjangoJob_delete_where. cbn.
  induction (django_jobs w); cbn; auto.
Qed.

(** C1, on the code.  Job "A" is stored and has a row in the ledger.
    [remove_job "A"] deletes the job and leaves the ledger row where it
    is; so does [remove_all_jobs], after which [get_all_jobs] is empty and
    the ledger row of "A" is still there: [DjangoJobExecution.job] is a
    [CharField], and no deletion of a [DjangoJob] reaches the ledger. *)
Theorem remove_job_leaves_execution_record
        (pickle_loads : bytes -> PickleError + JobState) (nulls_first : bool) :
  executions_of "A" world_A_logged = [execution_A] /\
  (exists w',
      remove_job demo_store "A" world_A_logged = (inr tt, w') /\
      lookup_job pickle_loads demo_store "A" w' = (inr None, w') /\
      executions_of "A" w' = [execution_A]) /\
  (exists w',
      remove_all_jobs demo_store world_A_logged = (inr tt, w') /\
      get_all_jobs pickle_loads nulls_first demo_store w' = (inr [], w') /\
      executions_of "A" w' = [execution_A]).
Proof.
  split; [reflexivity |]. split.
  - eexists. split; [reflexivity |]. split; reflexivity.
  - eexists. split; [reflexivity |]. split; [| reflexivity].
    destruct nulls_first; reflexivity.
Qed.

(** * Further properties of the store *)

(** ** Updating and removing one job *)

Lemma key_not_around (pre post : list DjangoJob.t) (row : DjangoJob.t) :
  NoDup (map DjangoJob.id (pre ++ row :: post)) ->
  ~ In (DjangoJob.id row) (map DjangoJob.id pre) /\
  ~ In (DjangoJob.id row) (map DjangoJob.id post).
Proof.
  rewrite map_app. cbn [map]. intros Hnd. apply NoDup_remove_2 in Hnd.
  rewrite in_app_iff in Hnd. tauto.
Qed.

Lemma rows_with_other_id (rows : list DjangoJob.t) (job_id : string) :
  ~ In job_id (map DjangoJob.id rows) ->
  filter (fun r => String.eqb (DjangoJob.id r) job_id) rows = [] /\
  filter (fun r => negb (String.eqb (DjangoJob.id r) job_id)) rows = rows /\
  forall x, map (fun r => if String.eqb (DjangoJob.id r) job_id then x else r) rows = rows.
Proof.
  induction rows as [| r rows IH]; cbn; intros Hnotin; [auto |].
  assert (E : String.eqb (DjangoJob.id r) job_id = false).
  { apply String.eqb_neq. intros Heq. apply Hnotin. now left. }
  destruct IH as (IH1 & IH2 & IH3); [tauto |].
  rewrite E. cbn. repeat split; [assumption | now rewrite IH2 |].
  intros x. now rewrite IH3.
Qed.

Lemma stored_once (w : World) (pre post : list DjangoJob.t) (row : DjangoJob.t) :
  django_jobs w = pre ++ row :: post ->
  primary_key_unique w ->
  jobs_with_id (DjangoJob.id row) w = [row].
Proof.
  unfold primary_key_unique, jobs_with_id. intros -> Hpk.
  destruct (key_not_around _ _ _ Hpk) as [Hpre Hpost].
  rewrite filter_app. cbn [filter]. rewrite String.eqb_refl.
  destruct (rows_with_other_id pre _ Hpre) as (-> & _).
  destruct (rows_with_other_id post _ Hpost) as (-> & _). reflexivity.
Qed.

Section UpdateRemove.

Variable pickle_dumps : JobState -> Z -> bytes.
Variable pickle_loads : bytes -> PickleError + JobState.

(** X1.  [update_job] of a job whose id is not in the table raises
    [JobLookupError] for that id, and leaves the world as it was. *)
Theorem update_job_unknown_id
        (self : DjangoJobStore) (job : Job.t) (w : World)
        (Hunknown : forall r, In r (django_jobs w) -> DjangoJob.id r <> Job.id job) :
  update_job pickle_dumps self job w = (inl (JobLookupError (Job.id job)), w).
Proof.
  unfold update_job. run_monad.
  rewrite (DjangoJob_objects_get_missing _ _ (no_row_with_id _ _ Hunknown)).
  cbn. destruct w; reflexivity.
Qed.

(** X2.  [update_job] of a job whose id is stored returns, and rewrites
    that row where it stands: the row gets the job's [next_run_time] and
    the bytes of its state, keeps its id and its [trigger] column, and no
    other row, nor the ledger, nor the log changes. *)
Theorem update_job_rewrites_row
        (self : DjangoJobStore) (job : Job.t) (w : World)
        (pre post : list DjangoJob.t) (row : DjangoJob.t)
        (Hstored : django_jobs w = pre ++ row :: post)
        (Hid : DjangoJob.id row = Job.id job)
        (Hpk : primary_key_unique w) :
  update_job pickle_dumps self job w =
  (inr tt,
   with_jobs (pre ++ DjangoJob.Build (DjangoJob.id row) (Job.next_run_time job)
                       (pickle_dumps (Job.__getstate__ job) (pickle_protocol self))
                       (DjangoJob.trigger row) :: post) w).
Proof.
  pose proof (stored_once w pre post row Hstored Hpk) as Hone. rewrite Hid in Hone.
  unfold update_job. run_monad. rewrite (DjangoJob_objects_get_one _ _ _ Hone).
  unfold DjangoJob_save, get_django_internal_datetime. cbn [DjangoJob.id]. cbn [fst snd].
  unfold primary_key_unique in Hpk. rewrite Hstored in Hpk.
  destruct (key_not_around _ _ _ Hpk) as [Hpre Hpost].
  rewrite Hstored, map_app. cbn [map]. rewrite String.eqb_refl.
  destruct (rows_with_other_id pre _ Hpre) as (_ & _ & ->).
  destruct (rows_with_other_id post _ Hpost) as (_ & _ & ->). reflexivity.
Qed.

(** X3.  After [update_job] of a stored job whose state [pickle] gives
    back from its non-empty bytes, [lookup_job] of its id returns a job
    with the state that was just written. *)
Theorem update_job_lookup_job_round_trip
        (self : DjangoJobStore) (job : Job.t) (w : World) (row : DjangoJob.t)
        (Hstored : In row (django_jobs w))
        (Hid : DjangoJob.id row = Job.id job)
        (Hpk : primary_key_unique w)
        (Hload : pickles pickle_dumps pickle_loads self job)
        (Hblob : pickle_dumps (Job.__getstate__ job) (pickle_protocol self) <> []) :
  exists w' job',
    update_job pickle_dumps self job w = (inr tt, w') /\
    lookup_job pickle_loads self (Job.id job) w' = (inr (Some job'), w') /\
    Job.__getstate__ job' = Job.__getstate__ job.
Proof.
  destruct (in_split _ _ Hstored) as (pre & post & Hsplit).
  pose proof (stored_once w pre post row Hsplit Hpk) as Hone. rewrite Hid in Hone.
  set (row' := DjangoJob.Build (DjangoJob.id row) (Job.next_run_time job)
                 (pickle_dumps (Job.__getstate__ job) (pickle_protocol self))
                 (DjangoJob.trigger row)).
  assert (Hrun : update_job pickle_dumps self job w
                 = (inr tt, with_jobs (pre ++ row' :: post) w)).
  { unfold update_job. run_monad. rewrite (DjangoJob_objects_get_one _ _ _ Hone).
    unfold DjangoJob_save, get_django_internal_datetime. cbn [DjangoJob.id]. cbn [fst snd].
    unfold primary_key_unique in Hpk. rewrite Hsplit in Hpk.
    destruct (key_not_around _ _ _ Hpk) as [Hpre Hpost].
    rewrite Hsplit, map_app. cbn [map]. rewrite String.eqb_refl.
    destruct (rows_with_other_id pre _ Hpre) as (_ & _ & ->).
    destruct (rows_with_other_id post _ Hpost) as (_ & _ & ->). reflexivity. }
  assert (Hone' : jobs_with_id (Job.id job) (with_jobs (pre ++ row' :: post) w) = [row']).
  { rewrite <- Hid. change (DjangoJob.id row) with (DjangoJob.id row').
    apply (stored_once _ pre post row'); [reflexivity |].
    unfold primary_key_unique in *. cbn [django_jobs with_jobs].
    rewrite Hsplit in Hpk. rewrite map_app in *. exact Hpk. }
  eexists. eexists. split; [exact Hrun |].
  unfold lookup_job. run_monad. rewrite (DjangoJob_objects_get_one _ _ _ Hone').
  cbn [DjangoJob.job_state row'].
  destruct (pickle_dumps (Job.__getstate__ job) (pickle_protocol self)) as [| b blob] eqn:E;
    [contradiction |].
  cbn [bytes_truthy]. unfold _reconstitute_job. unfold pickles in Hload.
  rewrite E in Hload. rewrite Hload. cbn. split; reflexivity.
Qed.

(** X4.  [remove_job] of an id that is not in the table raises
    [JobLookupError] for that id, and leaves the world as it was. *)
Theorem remove_job_unknown_id
        (self : DjangoJobStore) (job_id : string) (w : World)
        (Hunknown : forall r, In r (django_jobs w) -> DjangoJob.id r <> job_id) :
  remove_job self job_id w = (inl (JobLookupError job_id), w).
Proof.
  unfold remove_job. run_monad.
  rewrite (DjangoJob_objects_get_missing _ _ (no_row_with_id _ _ Hunknown)).
  reflexivity.
Qed.

(** X5.  [remove_job] of a stored id returns and takes exactly that row
    out of the table, the other rows staying in their order; afterwards
    [lookup_job] of the id finds nothing and a second [remove_job] raises
    [JobLookupError]. *)
Theorem remove_job_removes_row
        (self : DjangoJobStore) (w : World)
        (pre post : list DjangoJob.t) (row : DjangoJob.t)
        (Hstored : django_jobs w = pre ++ row :: post)
        (Hpk : primary_key_unique w) :
  let w' := with_jobs (pre ++ post) w in
  remove_job self (DjangoJob.id row) w = (inr tt, w') /\
  lookup_job pickle_loads self (DjangoJob.id row) w' = (inr None, w') /\
  remove_job self (DjangoJob.id row) w' = (inl (JobLookupError (DjangoJob.id row)), w').
Proof.
  intros w'.
  pose proof (stored_once w pre post row Hstored Hpk) as Hone.
  unfold primary_key_unique in Hpk. rewrite Hstored in Hpk.
  destruct (key_not_around _ _ _ Hpk) as [Hpre Hpost].
  assert (Hgone : forall r, In r (django_jobs w') -> DjangoJob.id r <> DjangoJob.id row).
  { subst w'. cbn [django_jobs with_jobs]. intros r Hr Heq.
    apply in_app_iff in Hr. destruct Hr as [Hr | Hr].
    - apply Hpre. rewrite <- Heq. now apply in_map.
    - apply Hpost. rewrite <- Heq. now apply in_map. }
  split; [| split].
  - unfold remove_job. run_monad. rewrite (DjangoJob_objects_get_one _ _ _ Hone).
    unfold DjangoJob_delete_where. subst w'. f_equal. f_equal.
    rewrite Hstored, filter_app. cbn [filter]. rewrite String.eqb_refl. cbn [negb].
    destruct (rows_with_other_id pre _ Hpre) as (_ & -> & _).
    destruct (rows_with_other_id post _ Hpost) as (_ & -> & _). reflexivity.
  - apply lookup_job_missing. now apply no_row_with_id.
  - unfold remove_job. run_monad.
    rewrite (DjangoJob_objects_get_missing _ _ (no_row_with_id _ _ Hgone)). reflexivity.
Qed.

End UpdateRemove.

(** ** What the store's calls keep *)

Lemma NoDup_map_filter {A B} (g : A -> B) (p : A -> bool) (l : list A) :
  NoDup (map g l) -> NoDup (map g (filter p l)).
Proof.
  induction l as [| a l IH]; cbn; intros Hnd; [constructor |].
  inversion Hnd as [| ? ? Ha Hnd']; subst.
  destruct (p a); cbn; [| now apply IH].
  constructor; [| now apply IH].
  intros Hin. apply Ha. apply in_map_iff in Hin. destruct Hin as (x & Hx & Hin).
  apply filter_In in Hin. rewrite <- Hx. apply in_map. tauto.
Qed.

Section StoreCalls.

Variable pickle_dumps : JobState -> Z -> bytes.
Variable pickle_loads : bytes -> PickleError + JobState.
Variable nulls_first : bool.

Lemma lookup_job_world (self : DjangoJobStore) (job_id : string) (w : World) :
  snd (lookup_job pickle_loads self job_id w) = w.
Proof.
  unfold lookup_job. run_monad.
  destruct (DjangoJob_objects_get_cases job_id w) as (r & -> & Hr).
  destruct r as [e | row].
  - destruct Hr as [-> | ->]; reflexivity.
  - destruct (bytes_truthy (DjangoJob.job_state row)); [| reflexivity].
    destruct (_reconstitute_job pickle_loads self (DjangoJob.job_state row)) as [e | job] eqn:E;
      [| reflexivity].
    destruct (_reconstitute_job_raises _ _ _ _ E) as [[p ->] | [msg ->]]; reflexivity.
Qed.

(** X6.  [lookup_job] only reads, and invents nothing: whatever the id
    and whatever is stored under it, also when the blob fails to decode,
    the world after the call is the world before it; and a job it returns
    is the job restored from the non-empty blob of the one stored row
    with that id. *)
Theorem lookup_job_reads_only (self : DjangoJobStore) (job_id : string) (w : World) :
  snd (lookup_job pickle_loads self job_id w) = w /\
  forall job w',
    lookup_job pickle_loads self job_id w = (inr (Some job), w') ->
    exists row,
      jobs_with_id job_id w = [row] /\
      DjangoJob.job_state row <> [] /\
      _reconstitute_job pickle_loads self (DjangoJob.job_state row) = inr job.
Proof.
  split; [apply lookup_job_world |].
  intros job w'. unfold lookup_job. run_monad.
  destruct (DjangoJob_objects_get_cases job_id w) as (r & -> & Hr).
  destruct r as [e | row]; [destruct Hr as [-> | ->]; discriminate |].
  destruct (DjangoJob.job_state row) as [| b blob] eqn:Eblob; cbn [bytes_truthy];
    [discriminate |].
  destruct (_reconstitute_job pickle_loads self (b :: blob)) as [e | j] eqn:E.
  - destruct (_reconstitute_job_raises _ _ _ _ E) as [[p ->] | [msg ->]]; discriminate.
  - intros H. injection H as <- _. exists row. rewrite Eblob.
    split; [assumption | split; [discriminate | assumption]].
Qed.

Lemma after_scan_tables (self : DjangoJobStore) (filters : list Lookup) (w : World) :
  let w' := after_scan pickle_loads nulls_first self filters w in
  (exists p, django_jobs w' = filter p (django_jobs w)) /\
  django_job_executions w' = django_job_executions w /\
  next_execution_id w' = next_execution_id w /\
  clock w' = clock w.
Proof.
  unfold after_scan.
  destruct (failed_ids pickle_loads self (scanned nulls_first filters w) []) as [| i ids].
  - repeat split. exists (fun _ => true). symmetry. now apply filter_all.
  - cbn. repeat split. eexists. reflexivity.
Qed.

Lemma run_call_tables (self : DjangoJobStore) (c : StoreCall) (w : World) :
  let w' := run_call pickle_dumps pickle_loads nulls_first self c w in
  django_job_executions w' = django_job_executions w /\
  next_execution_id w' = next_execution_id w /\
  clock w' = clock w /\
  (primary_key_unique w -> primary_key_unique w').
Proof.
  unfold primary_key_unique. cbv zeta.
  destruct c as [job | job | job_id | | job_id | now | |]; cbn [run_call].
  - (* add_job *)
    unfold add_job, DjangoJob_objects_create. run_monad. cbn [DjangoJob.id].
    destruct (existsb _ (django_jobs w)) eqn:E; cbn; repeat split; auto.
    intros Hpk. rewrite map_app. cbn. apply NoDup_snoc; [assumption |].
    intros Hin. apply in_map_iff in Hin. destruct Hin as (r & Hid & Hr).
    assert (Ht : existsb (fun r => String.eqb (DjangoJob.id r) (Job.id job)) (django_jobs w)
                 = true).
    { apply existsb_exists. exists r. split; [assumption | now apply String.eqb_eq]. }
    congruence.
  - (* update_job *)
    unfold update_job. run_monad.
    destruct (DjangoJob_objects_get_cases (Job.id job) w) as (r & -> & Hr).
    destruct r as [e | row]; [destruct Hr as [-> | ->]; cbn; repeat split; auto |].
    cbn. repeat split. intros Hpk.
    rewrite map_map.
    erewrite map_ext; [exact Hpk |]. intros r. cbn.
    destruct (String.eqb (DjangoJob.id r) (DjangoJob.id row)) eqn:E; [| reflexivity].
    cbn. symmetry. now apply String.eqb_eq.
  - (* remove_job *)
    unfold remove_job. run_monad.
    destruct (DjangoJob_objects_get_cases job_id w) as (r & -> & Hr).
    destruct r as [e | row]; [destruct Hr as [-> | ->]; cbn; repeat split; auto |].
    cbn. repeat split. apply NoDup_map_filter.
  - (* remove_all_jobs *)
    repeat split. apply NoDup_map_filter.
  - (* lookup_job *)
    rewrite lookup_job_world. repeat split; auto.
  - (* get_due_jobs *)
    unfold get_due_jobs, get_django_internal_datetime. rewrite _get_jobs_spec. cbn [snd].
    destruct (after_scan_tables self [next_run_time__lte now] w) as ((p & ->) & He & Hn & Hc).
    repeat split; auto. apply NoDup_map_filter.
  - (* get_next_run_time *)
    unfold get_next_run_time, earliest_next_run_time. run_monad.
    destruct (order_by_next_run_time nulls_first _); cbn; repeat split; auto.
  - (* get_all_jobs *)
    unfold get_all_jobs, bind, ret. rewrite _get_jobs_spec. cbn [snd].
    destruct (after_scan_tables self [] w) as ((p & ->) & He & Hn & Hc).
    repeat split; auto. apply NoDup_map_filter.
Qed.

(** X7.  No call of the store, in any sequence and whether it returns or
    raises, writes to the ledger: the rows of [DjangoJobExecution] and its
    key sequence are after the calls what they were before. *)
Theorem store_calls_leave_ledger
        (self : DjangoJobStore) (calls : list StoreCall) (w : World) :
  let w' := run_calls pickle_dumps pickle_loads nulls_first self calls w in
  django_job_executions w' = django_job_executions w /\
  next_execution_id w' = next_execution_id w.
Proof.
  unfold run_calls. revert w.
  induction calls as [| c calls IH]; intros w; cbn [fold_left]; [split; reflexivity |].
  destruct (run_call_tables self c w) as (He & Hn & _).
  destruct (IH (run_call pickle_dumps pickle_loads nulls_first self c w)) as [He' Hn'].
  split; congruence.
Qed.

(** X8.  The calls of the store keep the primary key of [DjangoJob]: from
    a table without two rows of one id, no sequence of calls reaches a
    table with two. *)
Theorem store_calls_keep_primary_key
        (self : DjangoJobStore) (calls : list StoreCall) (w : World)
        (Hpk : primary_key_unique w) :
  primary_key_unique (run_calls pickle_dumps pickle_loads nulls_first self calls w).
Proof.
  unfold run_calls. revert w Hpk.
  induction calls as [| c calls IH]; intros w Hpk; cbn [fold_left]; [assumption |].
  apply IH. now apply (run_call_tables self c w).
Qed.

End StoreCalls.

(** ** Scans, again *)

Lemma fix_paused_permutation (jobs : list Job.t) :
  Permutation (_fix_paused_jobs_sorting jobs) jobs.
Proof.
  unfold _fix_paused_jobs_sorting.
  destruct (first_scheduled jobs) as [i |]; [| reflexivity].
  destruct (0 <? i)%nat; [| reflexivity].
  rewrite Permutation_app_comm. now rewrite firstn_skipn.
Qed.

Section ScansAgain.

Variable pickle_loads : bytes -> PickleError + JobState.
Variable nulls_first : bool.

Lemma failed_ids_none (self : DjangoJobStore) (rows : list DjangoJob.t) :
  (forall r, In r rows -> restorable pickle_loads self r = true) ->
  failed_ids pickle_loads self rows [] = [].
Proof.
  intros Hall. unfold failed_ids.
  replace (filter (fun r => negb (restorable pickle_loads self r)) rows) with (@nil DjangoJob.t);
    [reflexivity |].
  symmetry. induction rows as [| r rows IH]; cbn; [reflexivity |].
  rewrite (Hall r (or_introl eq_refl)). cbn. apply IH. intros r' Hr'. apply Hall. now right.
Qed.

Lemma _get_jobs_all_restorable (self : DjangoJobStore) (filters : list Lookup) (w : World) :
  (forall r, In r (django_jobs w) -> filters_match filters r = true ->
             restorable pickle_loads self r = true) ->
  after_scan pickle_loads nulls_first self filters w = w.
Proof.
  intros Hall. unfold after_scan. rewrite failed_ids_none; [reflexivity |].
  intros r Hr. apply scanned_In in Hr. now apply Hall.
Qed.

(** X9.  On a table whose rows all load, [get_due_jobs] and
    [get_all_jobs] only read: no row is deleted, nothing is logged, the
    world after the scan is the world before it. *)
Theorem scans_read_only
        (self : DjangoJobStore) (w : World)
        (Hloads : forall r, In r (django_jobs w) -> restorable pickle_loads self r = true) :
  snd (get_all_jobs pickle_loads nulls_first self w) = w /\
  forall now, snd (get_due_jobs pickle_loads nulls_first self now w) = w.
Proof.
  split; [| intros now]; unfold get_all_jobs, get_due_jobs, get_django_internal_datetime,
                         bind, ret; rewrite _get_jobs_spec; cbn [snd];
    apply _get_jobs_all_restorable; auto.
Qed.

Lemma _get_jobs_twice (self : DjangoJobStore) (filters : list Lookup) (w : World) :
  primary_key_unique w ->
  _get_jobs pickle_loads nulls_first self filters
            (after_scan pickle_loads nulls_first self filters w)
  = _get_jobs pickle_loads nulls_first self filters w.
Proof.
  intros Hpk. rewrite !_get_jobs_spec.
  set (failed := failed_ids pickle_loads self (scanned nulls_first filters w) []).
  assert (Hw1 : django_jobs (after_scan pickle_loads nulls_first self filters w)
                = filter (fun r => negb (mem_string (DjangoJob.id r) failed)) (django_jobs w)).
  { unfold after_scan. fold failed. destruct failed as [| i ids] eqn:E; [| reflexivity].
    symmetry. now apply filter_all. }
  assert (Hmem : forall r, In r (django_jobs w) -> filters_match filters r = true ->
                           mem_string (DjangoJob.id r) failed
                           = negb (restorable pickle_loads self r)).
  { intros r Hr Hsel. destruct (restorable pickle_loads self r) eqn:Eres; cbn.
    - apply not_true_is_false. intros Hin. apply mem_string_In in Hin.
      apply failed_ids_inv in Hin. destruct Hin as [[] | (r' & Hr' & Hbad & Hid)].
      apply scanned_In in Hr'. destruct Hr' as [Hr' _].
      rewrite (same_id_same_row _ r' r Hpk Hr' Hr Hid) in Hbad. congruence.
    - apply mem_string_In. apply failed_ids_In; [| assumption].
      apply scanned_In. auto. }
  assert (Hscan : scanned nulls_first filters (after_scan pickle_loads nulls_first self filters w)
                  = filter (restorable pickle_loads self) (scanned nulls_first filters w)).
  { unfold scanned. rewrite Hw1, filter_order_by, !filter_andb. f_equal.
    apply filter_ext_in. intros r Hr.
    destruct (filters_match filters r) eqn:Esel.
    - rewrite (Hmem r Hr Esel), negb_involutive. apply andb_true_r.
    - now rewrite andb_false_r. }
  rewrite Hscan, restore_rows_filter. f_equal.
  unfold after_scan at 1. rewrite Hscan, failed_ids_none; [reflexivity |].
  intros r Hr. apply filter_In in Hr. tauto.
Qed.

(** X10.  Scanning is idempotent on a table with unique ids: a second
    [get_all_jobs], or a second [get_due_jobs] for the same time, right
    after the first returns the same jobs and changes nothing; what the
    first scan had to delete, it has deleted. *)
Theorem scan_twice
        (self : DjangoJobStore) (w : World) (Hpk : primary_key_unique w) :
  (let first := get_all_jobs pickle_loads nulls_first self w in
   get_all_jobs pickle_loads nulls_first self (snd first) = first) /\
  forall now,
    let first := get_due_jobs pickle_loads nulls_first self now w in
    get_due_jobs pickle_loads nulls_first self now (snd first) = first.
Proof.
  split; [| intros now]; cbv zeta.
  - unfold get_all_jobs, bind, ret.
    rewrite (_get_jobs_spec pickle_loads nulls_first self [] w). cbn [snd].
    rewrite (_get_jobs_twice self [] w Hpk), _get_jobs_spec. reflexivity.
  - unfold get_due_jobs, get_django_internal_datetime.
    rewrite (_get_jobs_spec pickle_loads nulls_first self [next_run_time__lte now] w).
    cbn [snd]. rewrite (_get_jobs_twice self _ w Hpk), _get_jobs_spec. reflexivity.
Qed.

(** X11.  Whatever the columns say, [get_all_jobs] returns the job of
    every row that loads exactly once: its answer is a rearrangement of
    the jobs restored from the table in table order. *)
Theorem get_all_jobs_every_job_once (self : DjangoJobStore) (w : World) :
  exists jobs w',
    get_all_jobs pickle_loads nulls_first self w = (inr jobs, w') /\
    Permutation jobs (restore_rows pickle_loads self (django_jobs w)).
Proof.
  eexists. eexists. unfold get_all_jobs, bind, ret. rewrite _get_jobs_spec.
  split; [reflexivity |].
  rewrite fix_paused_permutation. unfold scanned, restore_rows.
  apply Permutation_flat_map. rewrite <- order_by_permutation.
  now rewrite filter_all.
Qed.

End ScansAgain.

Section NextRunTime.

Variable pickle_dumps : JobState -> Z -> bytes.
Variable pickle_loads : bytes -> PickleError + JobState.
Variable nulls_first : bool.

Lemma nothing_selected (self : DjangoJobStore) (filters : list Lookup) (w : World) :
  filter (filters_match filters) (django_jobs w) = [] ->
  _get_jobs pickle_loads nulls_first self filters w = (inr [], w).
Proof.
  intros Hnone. rewrite _get_jobs_spec. unfold after_scan, scanned. rewrite Hnone. reflexivity.
Qed.

Lemma nothing_due (now : datetime) (w : World) :
  (forall r t, In r (django_jobs w) -> DjangoJob.next_run_time r = Some t -> now < t) ->
  filter (filters_match [next_run_time__lte now]) (django_jobs w) = [].
Proof.
  intros Hlater. rewrite (filter_ext _ _ (lte_is_due now)).
  induction (django_jobs w) as [| r rows IH]; cbn; [reflexivity |].
  assert (Hr : is_due now r = false).
  { unfold is_due. destruct (DjangoJob.next_run_time r) as [t |] eqn:E; [| reflexivity].
    apply Z.leb_gt. apply (Hlater r t); [now left | assumption]. }
  rewrite Hr. apply IH. intros r' t Hr'. apply Hlater. now right.
Qed.

(** X12.  Nothing is due before the time [get_next_run_time] announces:
    when it returns [m], [get_due_jobs now] is empty and changes nothing
    for every [now] before [m]; when it returns [None], [get_due_jobs] is
    empty and changes nothing at every time. *)
Theorem nothing_due_before_next_run_time
        (self : DjangoJobStore) (w : World) (next : option datetime) (w' : World)
        (Hnext : get_next_run_time nulls_first self w = (inr next, w')) :
  forall now,
    match next with
    | Some m => now < m
    | None => True
    end ->
    get_due_jobs pickle_loads nulls_first self now w = (inr [], w).
Proof.
  intros now Hnow. unfold get_due_jobs, get_django_internal_datetime.
  apply nothing_selected, nothing_due. intros r t Hr Ht.
  revert Hnext. unfold get_next_run_time, earliest_next_run_time. run_monad.
  rewrite (filter_ext _ _ not_null_is_scheduled).
  set (rows := filter is_scheduled (django_jobs w)).
  assert (Hrow : In r rows).
  { apply filter_In. split; [assumption |]. unfold is_scheduled. now rewrite Ht. }
  pose proof (order_by_ordered nulls_first rows) as Hord.
  pose proof (order_by_permutation nulls_first rows) as Hperm.
  apply (Permutation_in _ Hperm) in Hrow.
  destruct (order_by_next_run_time nulls_first rows) as [| r0 rest]; [contradiction |].
  assert (H0 : is_scheduled r0 = true).
  { assert (Hin : In r0 rows)
      by (eapply Permutation_in; [symmetry; exact Hperm | now left]).
    apply filter_In in Hin. tauto. }
  unfold get_apscheduler_datetime. intros Hnext. injection Hnext as Hm _.
  unfold is_scheduled in H0. rewrite Hm in H0.
  destruct next as [m |]; [| discriminate].
  destruct Hrow as [-> | Hrest].
  - rewrite Ht in Hm. injection Hm as ->. exact Hnow.
  - inversion Hord as [| ? ? _ Hall]; subst.
    rewrite Forall_forall in Hall. specialize (Hall r Hrest).
    rewrite Hm, Ht in Hall. cbn in Hall. apply Z.leb_le in Hall. lia.
Qed.

(** X13.  [remove_all_jobs] always returns and empties the table; right
    after it [get_all_jobs] and [get_due_jobs] return no job,
    [get_next_run_time] returns [None] and [lookup_job] finds nothing,
    each without raising and without any further change. *)
Theorem remove_all_jobs_leaves_nothing (self : DjangoJobStore) (w : World) :
  exists w',
    remove_all_jobs self w = (inr tt, w') /\
    django_jobs w' = [] /\
    get_all_jobs pickle_loads nulls_first self w' = (inr [], w') /\
    get_next_run_time nulls_first self w' = (inr None, w') /\
    (forall now, get_due_jobs pickle_loads nulls_first self now w' = (inr [], w')) /\
    (forall job_id, lookup_job pickle_loads self job_id w' = (inr None, w')).
Proof.
  exists (snd (remove_all_jobs self w)).
  pose proof (remove_all_jobs_empties self w) as Hempty.
  set (w' := snd (remove_all_jobs self w)) in *.
  split; [reflexivity |]. split; [exact Hempty |]. repeat split.
  - unfold get_all_jobs, bind, ret. rewrite nothing_selected; [reflexivity |].
    now rewrite Hempty.
  - unfold get_next_run_time, earliest_next_run_time. run_monad. now rewrite Hempty.
  - intros now. unfold get_due_jobs, get_django_internal_datetime.
    apply nothing_selected. now rewrite Hempty.
  - intros job_id. apply lookup_job_missing. unfold jobs_with_id. now rewrite Hempty.
Qed.

End NextRunTime.

(** ** Columns and blobs *)

Section Agreement.

Variable pickle_dumps : JobState -> Z -> bytes.
Variable pickle_loads : bytes -> PickleError + JobState.
Variable nulls_first : bool.

Lemma written_blob_restores (self : DjangoJobStore) (job job' : Job.t) :
  pickles pickle_dumps pickle_loads self job ->
  _reconstitute_job pickle_loads self
                    (pickle_dumps (Job.__getstate__ job) (pickle_protocol self)) = inr job' ->
  Job.next_run_time job' = Job.next_run_time job.
Proof.
  unfold pickles, _reconstitute_job. intros ->. cbn. intros H. injection H as <-. reflexivity.
Qed.

Lemma agreement_on_fewer_rows (self : DjangoJobStore) (w w' : World) :
  (forall r, In r (django_jobs w') -> In r (django_jobs w)) ->
  next_run_time_agrees pickle_loads self w -> next_run_time_agrees pickle_loads self w'.
Proof. intros Hsub Hagree r job Hr. apply Hagree. now apply Hsub. Qed.

Lemma run_call_agrees (self : DjangoJobStore) (c : StoreCall) (w : World) :
  call_pickles pickle_dumps pickle_loads self c ->
  next_run_time_agrees pickle_loads self w ->
  next_run_time_agrees pickle_loads self
                       (run_call pickle_dumps pickle_loads nulls_first self c w).
Proof.
  intros Hpickles Hagree.
  destruct c as [job | job | job_id | | job_id | now | |]; cbn [run_call call_pickles] in *.
  - (* add_job *)
    unfold add_job, DjangoJob_objects_create. run_monad. cbn [DjangoJob.id].
    destruct (existsb _ (django_jobs w)); cbn.
    + intros r job' Hr. apply Hagree. exact Hr.
    + intros r job' Hr Hjob. apply in_app_iff in Hr. destruct Hr as [Hr | [<- | []]].
      * now apply Hagree.
      * cbn in *. unfold get_django_internal_datetime.
        now apply (written_blob_restores self job job').
  - (* update_job *)
    unfold update_job. run_monad.
    destruct (DjangoJob_objects_get_cases (Job.id job) w) as (r0 & -> & Hr0).
    destruct r0 as [e | row].
    + destruct Hr0 as [-> | ->]; cbn; intros r job' Hr; apply Hagree; exact Hr.
    + cbn. intros r job' Hr Hjob. apply in_map_iff in Hr. destruct Hr as (r1 & Hr1 & Hin).
      destruct (String.eqb (DjangoJob.id r1) (DjangoJob.id row)).
      * subst r. cbn in *. unfold get_django_internal_datetime.
        now apply (written_blob_restores self job job').
      * subst r1. now apply Hagree.
  - (* remove_job *)
    apply (agreement_on_fewer_rows self w); [| assumption].
    unfold remove_job. run_monad.
    destruct (DjangoJob_objects_get_cases job_id w) as (r0 & -> & Hr0).
    destruct r0 as [e | row]; [destruct Hr0 as [-> | ->]; cbn; auto |].
    cbn. intros r Hr. apply filter_In in Hr. tauto.
  - (* remove_all_jobs *)
    apply (agreement_on_fewer_rows self w); [| assumption].
    cbn. intros r Hr. apply filter_In in Hr. tauto.
  - (* lookup_job *)
    now rewrite lookup_job_world.
  - (* get_due_jobs *)
    apply (agreement_on_fewer_rows self w); [| assumption].
    unfold get_due_jobs, get_django_internal_datetime. rewrite _get_jobs_spec. cbn [snd].
    destruct (after_scan_tables pickle_loads nulls_first self [next_run_time__lte now] w)
      as ((p & ->) & _).
    intros r Hr. apply filter_In in Hr. tauto.
  - (* get_next_run_time *)
    apply (agreement_on_fewer_rows self w); [| assumption].
    unfold get_next_run_time, earliest_next_run_time. run_monad.
    destruct (order_by_next_run_time nulls_first _); cbn; auto.
  - (* get_all_jobs *)
    apply (agreement_on_fewer_rows self w); [| assumption].
    unfold get_all_jobs, bind, ret. rewrite _get_jobs_spec. cbn [snd].
    destruct (after_scan_tables pickle_loads nulls_first self [] w) as ((p & ->) & _).
    intros r Hr. apply filter_In in Hr. tauto.
Qed.

(** X14.  The store keeps columns and blobs in step.  From a table in
    which every row that loads holds in its column the [next_run_time] of
    the job in its blob, as the empty table does, any sequence of calls
    whose added and updated jobs [pickle] reads back as written reaches
    such a table again; in particular the paused jobs are then the rows
    with a null column, which is what the sorting of [get_all_jobs]
    relies on. *)
Theorem store_calls_keep_columns_in_step
        (self : DjangoJobStore) (calls : list StoreCall) (w : World)
        (Hagree : next_run_time_agrees pickle_loads self w)
        (Hpickles : Forall (call_pickles pickle_dumps pickle_loads self) calls) :
  let w' := run_calls pickle_dumps pickle_loads nulls_first self calls w in
  next_run_time_agrees pickle_loads self w' /\ paused_agrees pickle_loads self w'.
Proof.
  cbv zeta.
  assert (Hstep : next_run_time_agrees pickle_loads self
                    (run_calls pickle_dumps pickle_loads nulls_first self calls w)).
  { unfold run_calls. revert w Hagree.
    induction Hpickles as [| c calls Hc _ IH]; intros w Hagree; cbn [fold_left];
      [assumption |].
    apply IH. now apply run_call_agrees. }
  split; [exact Hstep |].
  intros r job Hr Hjob. rewrite (Hstep r job Hr Hjob). reflexivity.
Qed.

End Agreement.

(** ** What the handlers write *)

Lemma execution_stored_once
      (w : World) (pre post : list DjangoJobExecution.t) (x0 : DjangoJobExecution.t)
      (job_id : string) :
  django_job_executions w = pre ++ x0 :: post ->
  DjangoJobExecution.job x0 = job_id ->
  (forall y, In y (pre ++ post) -> DjangoJobExecution.job y <> job_id) ->
  executions_of job_id w = [x0].
Proof.
  unfold executions_of. intros -> Hjob Hothers.
  assert (Hnone : forall l, (forall y, In y l -> DjangoJobExecution.job y <> job_id) ->
                            filter (fun x => String.eqb (DjangoJobExecution.job x) job_id) l = []).
  { induction l as [| y l IH]; cbn; intros Hl; [reflexivity |].
    destruct (String.eqb_spec (DjangoJobExecution.job y) job_id) as [Heq | _].
    - exfalso. apply (Hl y); auto.
    - apply IH. intros y' Hy'. apply Hl. now right. }
  rewrite filter_app. cbn [filter]. rewrite Hjob, String.eqb_refl.
  rewrite !Hnone; [reflexivity | |]; intros y Hy; apply Hothers; apply in_app_iff; auto.
Qed.

Lemma save_rewrites_execution
      (w : World) (pre post : list DjangoJobExecution.t) (x0 x : DjangoJobExecution.t)
      (t : datetime) :
  django_job_executions w = pre ++ x0 :: post ->
  NoDup (map DjangoJobExecution.id (django_job_executions w)) ->
  DjangoJobExecution.id x = DjangoJobExecution.id x0 ->
  DjangoJobExecution.run_time x = Some t ->
  DjangoJobExecution_save x w =
  (inr (DjangoJobExecution.set_updated_at (clock w) x),
   with_executions (pre ++ DjangoJobExecution.set_updated_at (clock w) x :: post) w).
Proof.
  intros Hw Hnd Hid Hrun. unfold DjangoJobExecution_save. rewrite Hrun. f_equal. f_equal.
  rewrite Hw in *. rewrite map_app in Hnd. cbn [map] in Hnd.
  pose proof (NoDup_remove_2 _ _ _ Hnd) as Hnotin. rewrite in_app_iff in Hnotin.
  rewrite map_app. cbn [map]. rewrite Hid, Z.eqb_refl.
  rewrite !rewrite_other_rows by tauto. reflexivity.
Qed.

(** X15.  An EXECUTED event for a job id with one ledger row marks that
    row where it stands: status "Executed", [finished] and [updated_at]
    set to now, everything else in the row (also an [exception] or
    [traceback] left by an earlier failure) and every other row kept; the
    handler returns the row's key. *)
Theorem handle_execution_event_marks_row
        (event : JobExecutionEvent.t) (w : World)
        (pre post : list DjangoJobExecution.t) (x0 : DjangoJobExecution.t) (t : datetime)
        (Hcode : JobExecutionEvent.code event = EVENT_JOB_EXECUTED)
        (Hledger : django_job_executions w = pre ++ x0 :: post)
        (Hjob : DjangoJobExecution.job x0 = JobExecutionEvent.job_id event)
        (Hothers : forall y, In y (pre ++ post) ->
                             DjangoJobExecution.job y <> JobExecutionEvent.job_id event)
        (Hkeys : NoDup (map DjangoJobExecution.id (django_job_executions w)))
        (Hrun : DjangoJobExecution.run_time x0 = Some t) :
  handle_execution_event event w =
  (inr (Some (DjangoJobExecution.id x0)),
   with_executions (pre ++ executed_execution (clock w) x0 :: post) w).
Proof.
  pose proof (execution_stored_once w pre post x0 _ Hledger Hjob Hothers) as Hone.
  unfold handle_execution_event. rewrite Hcode, Z.eqb_refl. cbn [negb]. run_monad.
  destruct (DjangoJobExecution_objects_get_cases (JobExecutionEvent.job_id event) w)
    as (r & -> & Hr).
  destruct r as [e | x]; [destruct Hr as [[_ Hr] | [_ Hr]]; rewrite Hone in Hr;
                          [discriminate | cbn in Hr; lia] |].
  rewrite Hone in Hr. injection Hr as <-.
  erewrite (save_rewrites_execution w pre post x0); eauto.
Qed.

(** X16.  An ERROR or MISSED event for a job id with one ledger row marks
    that row where it stands.  ERROR sets status "Error!", [exception] to
    the text of the event's exception and [traceback] to the text of its
    traceback ("None" when it has none), or, when the event carries no
    exception, [exception] to "Job '<id>' raised an error!" and
    [traceback] to null.  MISSED sets status "Missed!" and [exception] to
    "Run time of job '<id>' was missed!" and leaves [traceback] as it
    was.  Both return the row's key and keep every other row. *)
Theorem handle_error_event_marks_row
        (event : JobExecutionEvent.t) (w : World)
        (pre post : list DjangoJobExecution.t) (x0 : DjangoJobExecution.t) (t : datetime)
        (Hledger : django_job_executions w = pre ++ x0 :: post)
        (Hjob : DjangoJobExecution.job x0 = JobExecutionEvent.job_id event)
        (Hothers : forall y, In y (pre ++ post) ->
                             DjangoJobExecution.job y <> JobExecutionEvent.job_id event)
        (Hkeys : NoDup (map DjangoJobExecution.id (django_job_executions w)))
        (Hrun : DjangoJobExecution.run_time x0 = Some t) :
  let job_id := JobExecutionEvent.job_id event in
  let marked x := (inr (Some (DjangoJobExecution.id x0)),
                   with_executions (pre ++ x :: post) w) in
  (JobExecutionEvent.code event = EVENT_JOB_ERROR ->
   handle_error_event event w =
   marked (match JobExecutionEvent.exception event with
           | Some s =>
               failed_execution (clock w) s
                                (Some (str_of_optional (JobExecutionEvent.traceback event))) x0
           | None =>
               failed_execution (clock w) ("Job '" ++ job_id ++ "' raised an error!")%string
                                None x0
           end)) /\
  (JobExecutionEvent.code event = EVENT_JOB_MISSED ->
   handle_error_event event w =
   marked (missed_execution (clock w)
                            ("Run time of job '" ++ job_id ++ "' was missed!")%string x0)).
Proof.
  intros job_id marked. subst marked job_id.
  pose proof (execution_stored_once w pre post x0 _ Hledger Hjob Hothers) as Hone.
  destruct (DjangoJobExecution_objects_get_cases (JobExecutionEvent.job_id event) w)
    as (r & Hget & Hr).
  destruct r as [e | x]; [destruct Hr as [[_ Hr] | [_ Hr]]; rewrite Hone in Hr;
                          [discriminate | cbn in Hr; lia] |].
  rewrite Hone in Hr. injection Hr as <-.
  split; intros Hcode; unfold handle_error_event; rewrite Hcode.
  - rewrite Z.eqb_refl.
    destruct (JobExecutionEvent.exception event) as [s |]; run_monad; rewrite Hget;
      erewrite (save_rewrites_execution w pre post x0); eauto.
  - replace (EVENT_JOB_MISSED =? EVENT_JOB_ERROR) with false by reflexivity.
    rewrite Z.eqb_refl. run_monad. rewrite Hget.
    erewrite (save_rewrites_execution w pre post x0); eauto.
Qed.

(** X17.  A MODIFIED event for a stored, scheduled job with one ledger
    row copies the job's [next_run_time] into the row's [run_time], sets
    [updated_at], keeps the rest of the row and every other row, and
    returns the row's key. *)
Theorem handle_modify_event_follows_job
        (event : JobExecutionEvent.t) (w : World)
        (pre post : list DjangoJobExecution.t) (x0 : DjangoJobExecution.t)
        (row : DjangoJob.t) (t : datetime)
        (Hledger : django_job_executions w = pre ++ x0 :: post)
        (Hjob : DjangoJobExecution.job x0 = JobExecutionEvent.job_id event)
        (Hothers : forall y, In y (pre ++ post) ->
                             DjangoJobExecution.job y <> JobExecutionEvent.job_id event)
        (Hkeys : NoDup (map DjangoJobExecution.id (django_job_executions w)))
        (Hrow : jobs_with_id (JobExecutionEvent.job_id event) w = [row])
        (Hscheduled : DjangoJob.next_run_time row = Some t) :
  handle_modify_event event w =
  (inr (Some (DjangoJobExecution.id x0)),
   with_executions (pre ++ modified_execution (clock w) t x0 :: post) w).
Proof.
  pose proof (execution_stored_once w pre post x0 _ Hledger Hjob Hothers) as Hone.
  unfold handle_modify_event. run_monad.
  destruct (DjangoJobExecution_objects_get_cases (JobExecutionEvent.job_id event) w)
    as (r & -> & Hr).
  destruct r as [e | x]; [destruct Hr as [[_ Hr] | [_ Hr]]; rewrite Hone in Hr;
                          [discriminate | cbn in Hr; lia] |].
  rewrite Hone in Hr. injection Hr as <-.
  rewrite (DjangoJob_objects_get_one _ _ _ Hrow), Hscheduled.
  rewrite (save_rewrites_execution w pre post x0
             (DjangoJobExecution.set_run_time (Some t) x0) t Hledger Hkeys eq_refl eq_refl).
  reflexivity.
Qed.

(** X18.  A MODIFIED event for a stored job that is paused (its
    [next_run_time] is null) and has one ledger row does not update the
    row: writing null into the non-null [run_time] column is refused, and
    the handler raises [IntegrityError], which it does not catch; the
    world is as before. *)
Theorem handle_modify_event_paused_job
        (event : JobExecutionEvent.t) (w : World)
        (x0 : DjangoJobExecution.t) (row : DjangoJob.t)
        (Hone : executions_of (JobExecutionEvent.job_id event) w = [x0])
        (Hrow : jobs_with_id (JobExecutionEvent.job_id event) w = [row])
        (Hpaused : DjangoJob.next_run_time row = None) :
  handle_modify_event event w = (inl IntegrityError, w).
Proof.
  unfold handle_modify_event. run_monad.
  destruct (DjangoJobExecution_objects_get_cases (JobExecutionEvent.job_id event) w)
    as (r & -> & Hr).
  destruct r as [e | x]; [destruct Hr as [[_ Hr] | [_ Hr]]; rewrite Hone in Hr;
                          [discriminate | cbn in Hr; lia] |].
  rewrite (DjangoJob_objects_get_one _ _ _ Hrow), Hpaused. reflexivity.
Qed.

(** ** What the handlers refuse *)

(** X19.  The handlers refuse codes that are not theirs: given an event
    whose code is not EXECUTED, [handle_execution_event] raises
    [NotImplementedError]; given one whose code is neither ERROR nor
    MISSED (MAX_INSTANCES included), so does [handle_error_event]; in both
    cases before reading or writing anything. *)
Theorem handlers_refuse_other_codes (event : JobExecutionEvent.t) (w : World) :
  let code := JobExecutionEvent.code event in
  (code <> EVENT_JOB_EXECUTED ->
   handle_execution_event event w = (inl (NotImplementedError code), w)) /\
  (code <> EVENT_JOB_ERROR -> code <> EVENT_JOB_MISSED ->
   handle_error_event event w = (inl (NotImplementedError code), w)).
Proof.
  cbv zeta. split.
  - intros Hc. unfold handle_execution_event.
    apply Z.eqb_neq in Hc. rewrite Hc. reflexivity.
  - intros He Hm. unfold handle_error_event.
    apply Z.eqb_neq in He, Hm. rewrite He, Hm. reflexivity.
Qed.

Lemma land_lor_zero (a b c : Z) :
  Z.land a (Z.lor b c) = 0 -> Z.land a b = 0 /\ Z.land a c = 0.
Proof. rewrite Z.land_lor_distr_r. apply Z.lor_eq_0_iff. Qed.

(** X20.  An event whose code has no bit in common with ADDED, EXECUTED,
    ERROR, MISSED and MODIFIED (a removed or submitted job, a reached
    instance limit, any scheduler event) reaches no handler: delivering it
    leaves the world as it was. *)
Theorem other_events_reach_no_handler
        (event : JobExecutionEvent.t) (w : World)
        (Hcode : Z.land (JobExecutionEvent.code event) registered_codes = 0) :
  dispatch_event register_event_listeners event w = w.
Proof.
  unfold registered_codes in Hcode.
  apply land_lor_zero in Hcode. destruct Hcode as [Hadded Hcode].
  apply land_lor_zero in Hcode. destruct Hcode as [Hexecuted Hcode].
  apply land_lor_zero in Hcode. destruct Hcode as [Herror Hmodified].
  unfold register_event_listeners. cbn [dispatch_event].
  now rewrite Hadded, Hexecuted, Herror, Hmodified.
Qed.

(** X21.  The lookups of the job row are not guarded.  When the job of an
    event has no row in [DjangoJob], [handle_added_job_event] raises
    [DjangoJob.DoesNotExist] and writes nothing, whatever the ledger
    holds, and so does [handle_modify_event] when the ledger has the
    job's row; delivering such an ADDED event changes no table and leaves
    the scheduler's "Error notifying listener" in the log. *)
Theorem missing_job_row_raises
        (event : JobExecutionEvent.t) (w : World)
        (Hmissing : jobs_with_id (JobExecutionEvent.job_id event) w = []) :
  handle_added_job_event event w = (inl DjangoJob_DoesNotExist, w) /\
  (forall x0, executions_of (JobExecutionEvent.job_id event) w = [x0] ->
              handle_modify_event event w = (inl DjangoJob_DoesNotExist, w)) /\
  (JobExecutionEvent.code event = EVENT_JOB_ADDED ->
   dispatch_event register_event_listeners event w
   = snd (logger_exception "Error notifying listener" w)).
Proof.
  assert (Hadded : handle_added_job_event event w = (inl DjangoJob_DoesNotExist, w)).
  { unfold handle_added_job_event. run_monad.
    now rewrite (DjangoJob_objects_get_missing _ _ Hmissing). }
  split; [exact Hadded | split].
  - intros x0 Hone. unfold handle_modify_event. run_monad.
    destruct (DjangoJobExecution_objects_get_cases (JobExecutionEvent.job_id event) w)
      as (r & -> & Hr).
    destruct r as [e | x]; [destruct Hr as [[_ Hr] | [_ Hr]]; rewrite Hone in Hr;
                            [discriminate | cbn in Hr; lia] |].
    now rewrite (DjangoJob_objects_get_missing _ _ Hmissing).
  - intros Hcode. rewrite (dispatch_added_event event w Hcode), Hadded. reflexivity.
Qed.

Lemma DjangoJobExecution_objects_get_many (job_id : string) (w : World) :
  (2 <= List.length (executions_of job_id w))%nat ->
  DjangoJobExecution_objects_get job_id w
  = (inl DjangoJobExecution_MultipleObjectsReturned, w).
Proof.
  unfold executions_of, DjangoJobExecution_objects_get. run_monad.
  destruct (filter _ (django_job_executions w)) as [| x0 [| x1 rest]]; cbn; [lia | lia |].
  reflexivity.
Qed.

(** X22.  When the ledger holds two or more rows for the job id of an
    event, no handler picks one: the EXECUTED, ERROR, MISSED and MODIFIED
    handlers, and the ADDED handler once it has found the job's row, raise
    [DjangoJobExecution.MultipleObjectsReturned] and write nothing. *)
Theorem duplicate_ledger_rows_raise
        (event : JobExecutionEvent.t) (w : World)
        (Hmany : (2 <= List.length (executions_of (JobExecutionEvent.job_id event) w))%nat) :
  let code := JobExecutionEvent.code event in
  let raised {A} : (Exn + A) * World := (inl DjangoJobExecution_MultipleObjectsReturned, w) in
  (code = EVENT_JOB_EXECUTED -> handle_execution_event event w = raised) /\
  (code = EVENT_JOB_ERROR \/ code = EVENT_JOB_MISSED -> handle_error_event event w = raised) /\
  handle_modify_event event w = raised /\
  (forall row, jobs_with_id (JobExecutionEvent.job_id event) w = [row] ->
               handle_added_job_event event w = raised).
Proof.
  cbv zeta.
  pose proof (DjangoJobExecution_objects_get_many _ _ Hmany) as Hget.
  repeat split.
  - intros Hc. unfold handle_execution_event. rewrite Hc, Z.eqb_refl. cbn [negb].
    run_monad. now rewrite Hget.
  - intros [Hc | Hc]; unfold handle_error_event; rewrite Hc.
    + rewrite Z.eqb_refl. destruct (JobExecutionEvent.exception event); run_monad;
        now rewrite Hget.
    + replace (EVENT_JOB_MISSED =? EVENT_JOB_ERROR) with false by reflexivity.
      rewrite Z.eqb_refl. run_monad. now rewrite Hget.
  - unfold handle_modify_event. run_monad. now rewrite Hget.
  - intros row Hrow. unfold handle_added_job_event. run_monad.
    rewrite (DjangoJob_objects_get_one _ _ _ Hrow). now rewrite Hget.
Qed.

(** ** The handlers and the job table *)

Ltac split_cases :=
  repeat (cbn;
          match goal with
          | |- context [match ?x with _ => _ end] =>
              lazymatch x with
              | context [match _ with _ => _ end] => fail
              | _ =>
                  lazymatch type of x with
                  | (_ * _)%type => fail
                  | _ => destruct x
                  end
              end
          end).

Ltac open_handler :=
  unfold try_except, bind, ret, raise, lift, get_world, timezone_now, forget,
    DjangoJobExecution_objects_get, DjangoJob_objects_get, objects_get,
    DjangoJobExecution_save, DjangoJobExecution_objects_create, logger_warning,
    with_executions;
  cbv beta.

Lemma handlers_keep_jobs (event : JobExecutionEvent.t) (w : World) :
  django_jobs (snd (handle_added_job_event event w)) = django_jobs w /\
  django_jobs (snd (handle_execution_event event w)) = django_jobs w /\
  django_jobs (snd (handle_error_event event w)) = django_jobs w /\
  django_jobs (snd (handle_modify_event event w)) = django_jobs w.
Proof.
  repeat split.
  - unfold handle_added_job_event. open_handler. split_cases; reflexivity.
  - unfold handle_execution_event. open_handler. split_cases; reflexivity.
  - unfold handle_error_event. open_handler. split_cases; reflexivity.
  - unfold handle_modify_event. open_handler. split_cases; reflexivity.
Qed.

(** X23.  The event bridge never writes to the job table: after any
    sequence of delivered events, handled or failed, the rows of
    [DjangoJob] are what they were. *)
Theorem events_leave_job_table (events : list JobExecutionEvent.t) (w : World) :
  django_jobs (process_events events w) = django_jobs w.
Proof.
  assert (Hcb : forall cb mask, In (cb, mask) register_event_listeners ->
                  forall ev w0, django_jobs (snd (cb ev w0)) = django_jobs w0).
  { intros cb mask Hin ev w0. unfold register_event_listeners in Hin. cbn in Hin.
    destruct (handlers_keep_jobs ev w0) as (Ha & He & Hr & Hm).
    destruct Hin as [H | [H | [H | [H | []]]]]; inversion H; subst; clear H;
      rewrite forget_world; assumption. }
  assert (Hdispatch : forall ls,
             (forall cb mask, In (cb, mask) ls ->
                forall ev w0, django_jobs (snd (cb ev w0)) = django_jobs w0) ->
             forall ev w0, django_jobs (dispatch_event ls ev w0) = django_jobs w0).
  { induction ls as [| [cb mask] ls IH]; intros Hls ev w0; cbn [dispatch_event];
      [reflexivity |].
    assert (Hrest : forall cb' mask', In (cb', mask') ls ->
                      forall ev w0, django_jobs (snd (cb' ev w0)) = django_jobs w0)
      by (intros; eapply Hls; right; eassumption).
    destruct (Z.land (JobExecutionEvent.code ev) mask =? 0); [now apply IH |].
    pose proof (Hls cb mask (or_introl eq_refl) ev w0) as Hcb0.
    destruct (cb ev w0) as [[e | a] w1]; cbn [snd] in Hcb0; rewrite IH by assumption;
      [cbn |]; exact Hcb0. }
  unfold process_events. revert w.
  induction events as [| ev events IH]; intros w; cbn [fold_left]; [reflexivity |].
  rewrite IH. now apply Hdispatch.
Qed.

(** ** The properties above, on the demo tables *)

Lemma demo_primary_keys :
  primary_key_unique world_A /\ primary_key_unique world_ABC /\ primary_key_unique world_ABCX.
Proof.
  unfold primary_key_unique. cbn.
  repeat split; repeat constructor; cbn; intuition discriminate.
Qed.

Lemma update_job_unknown_id_witness :
  (forall r, In r (django_jobs world_A) -> DjangoJob.id r <> Job.id job_Z) /\
  update_job demo_dumps demo_store job_Z world_A = (inl (JobLookupError "Z"), world_A).
Proof.
  assert (H : forall r, In r (django_jobs world_A) -> DjangoJob.id r <> Job.id job_Z)
    by (intros r [<- | []]; discriminate).
  split; [exact H |]. exact (update_job_unknown_id demo_dumps demo_store job_Z world_A H).
Defined.

Lemma update_job_rewrites_row_witness :
  primary_key_unique world_ABC /\
  update_job demo_dumps demo_store job_A_later world_ABC =
  (inr tt,
   with_jobs [DjangoJob.Build "A" (Some 200) (demo_dumps (Job.__getstate__ job_A_later) 5)
                              "INTERVAL";
              row_of job_B "CRON"; row_of job_C "DATE"] world_ABC).
Proof.
  split; [exact (proj1 (proj2 demo_primary_keys)) |].
  exact (update_job_rewrites_row demo_dumps demo_store job_A_later world_ABC
           [] [row_of job_B "CRON"; row_of job_C "DATE"] (row_of job_A "INTERVAL")
           eq_refl eq_refl (proj1 (proj2 demo_primary_keys))).
Defined.

Lemma update_job_lookup_job_round_trip_witness :
  primary_key_unique world_A_corrupt /\
  In (DjangoJob.Build "A" (Some 5) corrupt_blob "INTERVAL") (django_jobs world_A_corrupt) /\
  pickles demo_dumps demo_loads demo_store job_A /\
  lookup_job demo_loads demo_store "A" world_A_corrupt
  = (inl (PickleException UnpicklingError), world_A_corrupt) /\
  update_job demo_dumps demo_store job_A world_A_corrupt
  = (inr tt, with_jobs [row_of job_A "INTERVAL"; row_of job_B "CRON"] world_A_corrupt) /\
  exists w' job',
    update_job demo_dumps demo_store job_A world_A_corrupt = (inr tt, w') /\
    lookup_job demo_loads demo_store "A" w' = (inr (Some job'), w') /\
    Job.__getstate__ job' = Job.__getstate__ job_A.
Proof.
  assert (Hpk : primary_key_unique world_A_corrupt).
  { unfold primary_key_unique. cbn. repeat constructor; cbn; intuition discriminate. }
  assert (Hin : In (DjangoJob.Build "A" (Some 5) corrupt_blob "INTERVAL")
                   (django_jobs world_A_corrupt)) by (now left).
  assert (Hp : pickles demo_dumps demo_loads demo_store job_A) by reflexivity.
  split; [exact Hpk | split; [exact Hin | split; [exact Hp |]]].
  split; [reflexivity | split; [reflexivity |]].
  apply (update_job_lookup_job_round_trip demo_dumps demo_loads demo_store job_A
           world_A_corrupt (DjangoJob.Build "A" (Some 5) corrupt_blob "INTERVAL")
           Hin eq_refl Hpk Hp).
  discriminate.
Defined.

Lemma remove_job_unknown_id_witness :
  (forall r, In r (django_jobs world_A) -> DjangoJob.id r <> "Z") /\
  remove_job demo_store "Z" world_A = (inl (JobLookupError "Z"), world_A).
Proof.
  assert (H : forall r, In r (django_jobs world_A) -> DjangoJob.id r <> "Z")
    by (intros r [<- | []]; discriminate).
  split; [exact H |]. exact (remove_job_unknown_id demo_store "Z" world_A H).
Defined.

Lemma remove_job_removes_row_witness :
  primary_key_unique world_ABC /\
  remove_job demo_store "B" world_ABC
  = (inr tt, with_jobs [row_of job_A "INTERVAL"; row_of job_C "DATE"] world_ABC) /\
  lookup_job demo_loads demo_store "B"
             (with_jobs [row_of job_A "INTERVAL"; row_of job_C "DATE"] world_ABC)
  = (inr None, with_jobs [row_of job_A "INTERVAL"; row_of job_C "DATE"] world_ABC).
Proof.
  split; [exact (proj1 (proj2 demo_primary_keys)) |].
  destruct (remove_job_removes_row demo_loads demo_store world_ABC
              [row_of job_A "INTERVAL"] [row_of job_C "DATE"] (row_of job_B "CRON")
              eq_refl (proj1 (proj2 demo_primary_keys))) as (Hrun & Hlookup & _).
  split; [exact Hrun | exact Hlookup].
Defined.

Lemma store_calls_keep_primary_key_witness :
  primary_key_unique world_ABC /\
  primary_key_unique
    (run_calls demo_dumps demo_loads true demo_store
               [call_add_job job_A; call_remove_job "B"; call_update_job job_A_later;
                call_get_all_jobs]
               world_ABC).
Proof.
  split; [exact (proj1 (proj2 demo_primary_keys)) |].
  exact (store_calls_keep_primary_key demo_dumps demo_loads true demo_store _ world_ABC
           (proj1 (proj2 demo_primary_keys))).
Defined.

Lemma scans_read_only_witness :
  (forall r, In r (django_jobs world_ABC) -> restorable demo_loads demo_store r = true) /\
  snd (get_all_jobs demo_loads true demo_store world_ABC) = world_ABC /\
  snd (get_due_jobs demo_loads true demo_store 100 world_ABC) = world_ABC.
Proof.
  assert (H : forall r, In r (django_jobs world_ABC) ->
                        restorable demo_loads demo_store r = true)
    by (intros r [<- | [<- | [<- | []]]]; reflexivity).
  split; [exact H |].
  destruct (scans_read_only demo_loads true demo_store world_ABC H) as [Hall Hdue].
  split; [exact Hall | exact (Hdue 100)].
Defined.

Lemma scan_twice_witness :
  primary_key_unique world_ABCX /\
  get_all_jobs demo_loads true demo_store
               (snd (get_all_jobs demo_loads true demo_store world_ABCX))
  = get_all_jobs demo_loads true demo_store world_ABCX.
Proof.
  split; [exact (proj2 (proj2 demo_primary_keys)) |].
  exact (proj1 (scan_twice demo_loads true demo_store world_ABCX
                           (proj2 (proj2 demo_primary_keys)))).
Defined.

Lemma nothing_due_before_next_run_time_witness :
  get_next_run_time true demo_store world_ABC = (inr (Some 50), world_ABC) /\
  get_due_jobs demo_loads true demo_store 49 world_ABC = (inr [], world_ABC).
Proof.
  split; [reflexivity |].
  apply (nothing_due_before_next_run_time demo_loads true demo_store world_ABC
           (Some 50) world_ABC eq_refl 49).
  lia.
Defined.

Lemma store_calls_keep_columns_in_step_witness :
  next_run_time_agrees demo_loads demo_store empty_world /\
  Forall (call_pickles demo_dumps demo_loads demo_store)
         [call_add_job job_A; call_add_job job_B; call_update_job job_A;
          call_remove_job "B"; call_get_all_jobs] /\
  paused_agrees demo_loads demo_store
    (run_calls demo_dumps demo_loads true demo_store
               [call_add_job job_A; call_add_job job_B; call_update_job job_A;
                call_remove_job "B"; call_get_all_jobs]
               empty_world).
Proof.
  assert (Hagree : next_run_time_agrees demo_loads demo_store empty_world)
    by (intros r job []).
  assert (Hpickles : Forall (call_pickles demo_dumps demo_loads demo_store)
                            [call_add_job job_A; call_add_job job_B; call_update_job job_A;
                             call_remove_job "B"; call_get_all_jobs])
    by (repeat constructor).
  split; [exact Hagree | split; [exact Hpickles |]].
  exact (proj2 (store_calls_keep_columns_in_step demo_dumps demo_loads true demo_store
                  _ empty_world Hagree Hpickles)).
Defined.

Lemma demo_ledger_keys :
  NoDup (map DjangoJobExecution.id (django_job_executions world_A_logged)).
Proof. cbn. repeat constructor. intros []. Qed.

Lemma handle_execution_event_marks_row_witness :
  handle_execution_event executed_A world_A_logged =
  (inr (Some 1),
   with_executions
     [DjangoJobExecution.Build 1 "A" DjangoJobExecution.SUCCESS (Some 10) "INTERVAL"
                               (Some 20) None None 10 20]
     world_A_logged).
Proof.
  apply (handle_execution_event_marks_row executed_A world_A_logged [] [] execution_A 10);
    try reflexivity.
  - intros y [].
  - exact demo_ledger_keys.
Defined.

Lemma handle_error_event_marks_row_witness :
  handle_error_event error_A world_A_logged =
  (inr (Some 1),
   with_executions
     [DjangoJobExecution.Build 1 "A" DjangoJobExecution.ERROR (Some 10) "INTERVAL"
                               None (Some "boom") (Some "Traceback ...") 10 20]
     world_A_logged).
Proof.
  assert (Hothers : forall y, In y ([] ++ []) ->
                              DjangoJobExecution.job y <> JobExecutionEvent.job_id error_A)
    by (intros y []).
  exact (proj1 (handle_error_event_marks_row error_A world_A_logged [] [] execution_A 10
                  eq_refl eq_refl Hothers demo_ledger_keys eq_refl) eq_refl).
Defined.

Lemma handle_modify_event_follows_job_witness :
  handle_modify_event modified_A world_A_logged =
  (inr (Some 1),
   with_executions
     [DjangoJobExecution.Build 1 "A" DjangoJobExecution.START (Some 100) "INTERVAL"
                               None None None 10 20]
     world_A_logged).
Proof.
  assert (Hothers : forall y, In y ([] ++ []) ->
                              DjangoJobExecution.job y <> JobExecutionEvent.job_id modified_A)
    by (intros y []).
  exact (handle_modify_event_follows_job modified_A world_A_logged [] [] execution_A
           (row_of job_A "INTERVAL") 100 eq_refl eq_refl Hothers demo_ledger_keys
           eq_refl eq_refl).
Defined.

Lemma handle_modify_event_paused_job_witness :
  executions_of "B" world_B_logged = [execution_B] /\
  jobs_with_id "B" world_B_logged = [row_of job_B "CRON"] /\
  handle_modify_event modified_B world_B_logged = (inl IntegrityError, world_B_logged).
Proof.
  split; [reflexivity | split; [reflexivity |]].
  exact (handle_modify_event_paused_job modified_B world_B_logged execution_B
           (row_of job_B "CRON") eq_refl eq_refl eq_refl).
Defined.

Lemma other_events_reach_no_handler_witness :
  Z.land (JobExecutionEvent.code removed_A) registered_codes = 0 /\
  dispatch_event register_event_listeners removed_A world_A_logged = world_A_logged.
Proof.
  split; [reflexivity |].
  exact (other_events_reach_no_handler removed_A world_A_logged eq_refl).
Defined.

Lemma missing_job_row_raises_witness :
  jobs_with_id "A" empty_world = [] /\
  handle_added_job_event added_A empty_world = (inl DjangoJob_DoesNotExist, empty_world) /\
  dispatch_event register_event_listeners added_A empty_world
  = mkWorld [] [] 1 0 [mkLog ERROR "Error notifying listener"].
Proof.
  split; [reflexivity |].
  destruct (missing_job_row_raises added_A empty_world eq_refl) as (Hadded & _ & Hdispatch).
  split; [exact Hadded | exact (Hdispatch eq_refl)].
Defined.

Lemma duplicate_ledger_rows_raise_witness :
  (2 <= List.length (executions_of "A" world_A_twice))%nat /\
  handle_execution_event executed_A world_A_twice
  = (inl DjangoJobExecution_MultipleObjectsReturned, world_A_twice) /\
  handle_added_job_event added_A world_A_twice
  = (inl DjangoJobExecution_MultipleObjectsReturned, world_A_twice).
Proof.
  assert (Hmany : (2 <= List.length (executions_of "A" world_A_twice))%nat)
    by (cbn; lia).
  split; [exact Hmany |].
  destruct (duplicate_ledger_rows_raise executed_A world_A_twice Hmany)
    as (Hexec & _ & _ & _).
  destruct (duplicate_ledger_rows_raise added_A world_A_twice Hmany)
    as (_ & _ & _ & Hadded).
  split; [exact (Hexec eq_refl) | exact (Hadded (row_of job_A "INTERVAL") eq_refl)].
Defined.

(** ** More on how the calls compose *)

Section Compose.

Variable pickle_dumps : JobState -> Z -> bytes.
Variable pickle_loads : bytes -> PickleError + JobState.
Variable nulls_first : bool.

(** X24.  [remove_job] undoes [add_job]: adding a job under an id that is
    not in the table and then removing that id gives back the world there
    was before the two calls, and both calls return. *)
Theorem remove_job_undoes_add_job
        (self : DjangoJobStore) (job : Job.t) (w : World)
        (Hfresh : forall r, In r (django_jobs w) -> DjangoJob.id r <> Job.id job) :
  exists row w1,
    add_job pickle_dumps self job w = (inr row, w1) /\
    remove_job self (Job.id job) w1 = (inr tt, w).
Proof.
  eexists. eexists. split; [now apply add_job_fresh |].
  set (row := row_for pickle_dumps self job).
  assert (Hnotin : ~ In (Job.id job) (map DjangoJob.id (django_jobs w))).
  { intros Hin. apply in_map_iff in Hin. destruct Hin as (r & Hid & Hr).
    now apply (Hfresh r). }
  destruct (rows_with_other_id _ _ Hnotin) as (Hnone & Hkeep & _).
  assert (Hone : jobs_with_id (Job.id job) (with_jobs (django_jobs w ++ [row]) w) = [row]).
  { unfold jobs_with_id. cbn [django_jobs with_jobs]. rewrite filter_app, Hnone. cbn.
    now rewrite String.eqb_refl. }
  unfold remove_job. run_monad. rewrite (DjangoJob_objects_get_one _ _ _ Hone).
  unfold DjangoJob_delete_where, with_jobs. cbn [django_jobs django_job_executions
                                                  next_execution_id clock log DjangoJob.id row
                                                  row_for].
  rewrite filter_app, Hkeep. cbn. rewrite String.eqb_refl. cbn.
  rewrite app_nil_r. destruct w; reflexivity.
Qed.

Lemma restore_rows_In (self : DjangoJobStore) (rows : list DjangoJob.t) (job : Job.t) :
  In job (restore_rows pickle_loads self rows) <->
  exists r, In r rows /\
            _reconstitute_job pickle_loads self (DjangoJob.job_state r) = inr job.
Proof.
  unfold restore_rows. rewrite in_flat_map. split; intros (r & Hr & H); exists r;
    (split; [assumption |]).
  - destruct (_reconstitute_job pickle_loads self (DjangoJob.job_state r));
      [contradiction | destruct H as [-> | []]; reflexivity].
  - rewrite H. now left.
Qed.

(** X25.  A job that [get_due_jobs] returns is a job that [get_all_jobs]
    returns on the same table: the due jobs are among all jobs. *)
Theorem due_jobs_among_all_jobs
        (self : DjangoJobStore) (now : datetime) (w : World) :
  exists due all w1 w2,
    get_due_jobs pickle_loads nulls_first self now w = (inr due, w1) /\
    get_all_jobs pickle_loads nulls_first self w = (inr all, w2) /\
    incl due all.
Proof.
  eexists. eexists. eexists. eexists.
  unfold get_due_jobs, get_all_jobs, get_django_internal_datetime, bind, ret.
  rewrite !_get_jobs_spec. split; [reflexivity | split; [reflexivity |]].
  intros job Hjob. apply restore_rows_In in Hjob. destruct Hjob as (r & Hr & Hload).
  eapply Permutation_in; [symmetry; apply fix_paused_permutation |].
  apply restore_rows_In. exists r. split; [| assumption].
  apply scanned_In in Hr. apply scanned_In. split; [tauto | reflexivity].
Qed.

(** X26.  Every job the store hands out is bound to the store: the jobs
    returned by [lookup_job], [get_due_jobs] and [get_all_jobs] carry the
    store's scheduler and the store's alias. *)
Theorem returned_jobs_bound_to_store (self : DjangoJobStore) (w : World) :
  let bound job :=
    Job._scheduler job = Some (_scheduler self) /\
    Job._jobstore_alias job = Some (_alias self) in
  (forall job_id job w',
      lookup_job pickle_loads self job_id w = (inr (Some job), w') -> bound job) /\
  (forall now jobs w',
      get_due_jobs pickle_loads nulls_first self now w = (inr jobs, w') ->
      Forall bound jobs) /\
  (forall jobs w',
      get_all_jobs pickle_loads nulls_first self w = (inr jobs, w') -> Forall bound jobs).
Proof.
  intros bound.
  assert (Hone : forall blob job,
             _reconstitute_job pickle_loads self blob = inr job -> bound job).
  { intros blob job. unfold _reconstitute_job.
    destruct (pickle_loads blob) as [e | state]; [discriminate |].
    destruct (Job.__setstate__ state) as [e | j]; [discriminate |].
    intros H. injection H as <-. split; reflexivity. }
  assert (Hrows : forall rows, Forall bound (restore_rows pickle_loads self rows)).
  { intros rows. apply Forall_forall. intros job Hjob.
    apply restore_rows_In in Hjob. destruct Hjob as (r & _ & Hload). eauto. }
  split; [| split].
  - intros job_id job w'. unfold lookup_job. run_monad.
    destruct (DjangoJob_objects_get_cases job_id w) as (r & -> & Hr).
    destruct r as [e | row]; [destruct Hr as [-> | ->]; discriminate |].
    destruct (bytes_truthy (DjangoJob.job_state row)); [| discriminate].
    destruct (_reconstitute_job pickle_loads self (DjangoJob.job_state row)) as [e | j] eqn:E.
    + destruct (_reconstitute_job_raises _ _ _ _ E) as [[p ->] | [msg ->]]; discriminate.
    + intros H. injection H as <- _. eauto.
  - intros now jobs w'. unfold get_due_jobs, get_django_internal_datetime.
    rewrite _get_jobs_spec. intros H. injection H as <- _. apply Hrows.
  - intros jobs w'. unfold get_all_jobs, bind, ret. rewrite _get_jobs_spec.
    intros H. injection H as <- _.
    eapply Permutation_Forall; [symmetry; apply fix_paused_permutation |]. apply Hrows.
Qed.

End Compose.

Lemma remove_job_undoes_add_job_witness :
  (forall r, In r (django_jobs world_A) -> DjangoJob.id r <> Job.id job_B) /\
  exists row w1,
    add_job demo_dumps demo_store job_B world_A = (inr row, w1) /\
    remove_job demo_store "B" w1 = (inr tt, world_A).
Proof.
  assert (H : forall r, In r (django_jobs world_A) -> DjangoJob.id r <> Job.id job_B)
    by (intros r [<- | []]; discriminate).
  split; [exact H |].
  exact (remove_job_undoes_add_job demo_dumps demo_store job_B world_A H).
Defined.

(** ** The ledger only grows *)

Lemma ledger_step_keeps_rows (w w' : World) :
  ledger_step w w' ->
  ledger_well_formed w ->
  ledger_well_formed w' /\
  incl (map ledger_key (django_job_executions w)) (map ledger_key (django_job_executions w')).
Proof.
  unfold ledger_well_formed.
  intros [[Hkeys Hnext] | (x & Hrows & Hid & Hnext & _)] [Hnd Hlt].
  - assert (Hids : map DjangoJobExecution.id (django_job_executions w')
                   = map DjangoJobExecution.id (django_job_executions w)).
    { transitivity (map fst (map ledger_key (django_job_executions w'))).
      - now rewrite map_map.
      - now rewrite Hkeys, map_map. }
    rewrite Hids, Hnext, Hkeys. repeat split; auto. apply incl_refl.
  - rewrite Hrows, !map_app, Hnext. cbn. repeat split.
    + apply NoDup_snoc; [assumption |]. intros Hin. apply Hlt in Hin. lia.
    + intros i Hin. apply in_app_iff in Hin. destruct Hin as [Hin | [<- | []]].
      * apply Hlt in Hin. lia.
      * lia.
    + apply incl_appl, incl_refl.
Qed.

Lemma dispatch_event_keeps_rows (ls : list listener) (event : JobExecutionEvent.t) :
  (forall cb mask, In (cb, mask) ls ->
                   forall ev w, ledger_well_formed w -> ledger_step w (snd (cb ev w))) ->
  forall w,
    ledger_well_formed w ->
    ledger_well_formed (dispatch_event ls event w) /\
    incl (map ledger_key (django_job_executions w))
         (map ledger_key (django_job_executions (dispatch_event ls event w))).
Proof.
  induction ls as [| [cb mask] ls IH]; intros Hls w Hwf; cbn [dispatch_event];
    [split; [assumption | apply incl_refl] |].
  assert (Hrest : forall cb' mask', In (cb', mask') ls ->
                    forall ev w, ledger_well_formed w -> ledger_step w (snd (cb' ev w)))
    by (intros; eapply Hls; [right; eassumption | assumption]).
  destruct (Z.land (JobExecutionEvent.code event) mask =? 0); [now apply IH |].
  pose proof (Hls cb mask (or_introl eq_refl) event w Hwf) as Hstep.
  apply ledger_step_keeps_rows in Hstep; [| assumption].
  destruct Hstep as [Hwf1 Hincl1].
  destruct (cb event w) as [[e | a] w1]; cbn [snd] in Hwf1, Hincl1.
  - destruct (IH Hrest (snd (logger_exception "Error notifying listener" w1)) Hwf1)
      as [Hwf2 Hincl2].
    split; [exact Hwf2 |]. eapply incl_tran; [exact Hincl1 | exact Hincl2].
  - destruct (IH Hrest w1 Hwf1) as [Hwf2 Hincl2].
    split; [exact Hwf2 |]. eapply incl_tran; [exact Hincl1 | exact Hincl2].
Qed.

(** X27.  The bridge deletes nothing from the ledger and moves no row to
    another job: on a ledger with unique keys, every key and job id that
    is in the ledger before a sequence of events is in it afterwards, in
    a row with the same key and the same job id. *)
Theorem events_keep_ledger_rows
        (events : list JobExecutionEvent.t) (w : World)
        (Hwf : ledger_well_formed w) :
  incl (map ledger_key (django_job_executions w))
       (map ledger_key (django_job_executions (process_events events w))).
Proof.
  unfold process_events. revert w Hwf.
  induction events as [| ev events IH]; intros w Hwf; cbn [fold_left]; [apply incl_refl |].
  destruct (dispatch_event_keeps_rows register_event_listeners ev
              registered_listeners_step w Hwf) as [Hwf1 Hincl1].
  eapply incl_tran; [exact Hincl1 | now apply IH].
Qed.

Lemma events_keep_ledger_rows_witness :
  ledger_well_formed world_A_logged /\
  incl (map ledger_key (django_job_executions world_A_logged))
       (map ledger_key
            (django_job_executions
               (process_events [executed_A; error_A; added_A; modified_A] world_A_logged))).
Proof.
  assert (Hwf : ledger_well_formed world_A_logged).
  { split; [exact demo_ledger_keys |]. cbn. intros i [<- | []]. lia. }
  split; [exact Hwf |].
  exact (events_keep_ledger_rows [executed_A; error_A; added_A; modified_A]
                                 world_A_logged Hwf).
Defined.
